(** * gooddata-js: the execution-configuration compiler of [src/execution.js]

    A shallow embedding of the compiler that turns a visualization's
    metadata object (measures, categories, filters) into the payload of the
    tabular-data execution resource, together with the properties the
    specification states about it.

    Conventions of the embedding.
    - A JavaScript string is the list of its UTF-16 code units, so that
      [length] is [String.prototype.length] and the ellipsis U+2026 counts
      for one character, as it does in the source.
    - A property that may be absent is an [option]; a template literal
      renders an absent value as the text [undefined] ([tpl]).
    - A function that may throw returns an [option] ([None] is the throw).
    - Objects whose identity matters (section on [getDataForVis]) live in an
      explicit store, a [gmap] from locations to objects. *)

From Stdlib Require Import ZArith List Lia Bool Ascii String.
From stdpp Require Import base option list gmap.
Import ListNotations.

Local Open Scope Z_scope.

(** ** JavaScript strings *)

Abbreviation jsstring := (list N).

(** An ASCII literal of the source as a list of code units. *)
Definition lit (s : string) : jsstring :=
  map N_of_ascii (list_ascii_of_string s).

(** [`${v}`] for a value that is a string or [undefined]. *)
Definition tpl (v : option jsstring) : jsstring :=
  match v with
  | Some s => s
  | None => lit "undefined"
  end.

(** The code units of [')'] and of ['…'] (U+2026). *)
Definition rparen : N := 41.
Definition ellipsis : N := 8230.

(** Truthiness of a string: every string but the empty one. *)
Definition truthy (s : jsstring) : bool :=
  match s with
  | [] => false
  | _ :: _ => true
  end.

(** [!!v] for a value that is a string, [null] or [undefined]. *)
Definition truthy_opt (v : option jsstring) : bool :=
  match v with
  | Some s => truthy s
  | None => false
  end.

Definition jslength (s : jsstring) : Z := Z.of_nat (length s).

(** [s.substring(from, to)]: both indices are clamped to [0 .. s.length]
    and swapped when they come in the wrong order. *)
Definition substring (s : jsstring) (from to : Z) : jsstring :=
  let a := Z.min (Z.max from 0) (jslength s) in
  let b := Z.min (Z.max to 0) (jslength s) in
  firstn (Z.to_nat (Z.max a b - Z.min a b)) (skipn (Z.to_nat (Z.min a b)) s).

(** [s[i]] *)
Definition charAt (s : jsstring) (i : Z) : option N :=
  if i <? 0 then None else nth_error s (Z.to_nat i).

Definition char_is (c : option N) (d : N) : bool :=
  match c with
  | Some x => N.eqb x d
  | None => false
  end.

(** [parts.join(sep)] *)
Fixpoint join (sep : jsstring) (parts : list jsstring) : jsstring :=
  match parts with
  | [] => []
  | [p] => p
  | p :: rest => p ++ sep ++ join sep rest
  end.

(** [s.split(sep)] for a one-character separator. *)
Fixpoint split (sep : N) (s : jsstring) : list jsstring :=
  match s with
  | [] => [[]]
  | c :: r =>
      if N.eqb c sep then [] :: split sep r
      else match split sep r with
           | [] => [[c]]
           | h :: t => (c :: h) :: t
           end
  end.

(** ** Title truncation (lines 140-155) *)

Definition MAX_TITLE_LENGTH : Z := 255.

Definition getMetricTitle (suffix : jsstring) (title : option jsstring) : jsstring :=
  let maxLength := MAX_TITLE_LENGTH - jslength suffix in
  match title with
  | Some t =>
      if truthy t && (jslength t >? maxLength) then
        if char_is (charAt t (jslength t - 1)) rparen then
          substring t 0 (maxLength - 2) ++ [ellipsis; rparen] ++ suffix
        else
          substring t 0 (maxLength - 1) ++ [ellipsis] ++ suffix
      else t ++ suffix
  | None => lit "undefined" ++ suffix
  end.

Definition getBaseMetricTitle : option jsstring -> jsstring := getMetricTitle (lit "").

Definition POP_SUFFIX : jsstring := lit " - previous year".
Definition getPoPMetricTitle : option jsstring -> jsstring := getMetricTitle POP_SUFFIX.

(** ** Data model *)

(** A measure filter, [{ listAttributeFilter: { attribute, displayForm,
    default: { negativeSelection, attributeElements } } }].  An absent
    [attributeElements] reads as the empty list everywhere in the source
    ([get(..., [])] or [isEmpty]). *)
Record AttributeFilter := {
  attribute : option jsstring;
  displayForm : option jsstring;
  negativeSelection : bool;
  attributeElements : list jsstring
}.

(** [{ dateFilter: { ... } }] *)
Record DateFilter := {
  df_attribute : option jsstring;
  dimension : option jsstring;
  dataSet : option jsstring;
  dataset : option jsstring;
  granularity : option jsstring;
  from : option jsstring;
  to : option jsstring
}.

(** An item of [buckets.filters]. *)
Inductive Filter :=
  | ListAttributeFilter (f : AttributeFilter)
  | DateFilterItem (d : DateFilter).

(** [{ category: { type, attribute, displayForm, sort } }] *)
Record Category := {
  c_type : option jsstring;
  c_attribute : option jsstring;
  c_displayForm : option jsstring;
  c_sort : option jsstring
}.

(** [measure.sort]: the plain string kept for backward compatibility, or
    the object [{ direction, sortByPoP }]. *)
Inductive Sort :=
  | SortString (s : jsstring)
  | SortObject (direction : option jsstring) (sortByPoP : bool).

Record Measure := {
  objectUri : jsstring;
  mtype : option jsstring;
  aggregation : option jsstring;
  title : option jsstring;
  format : option jsstring;
  sort : option Sort;
  showPoP : bool;
  showInPercent : bool;
  measureFilters : list AttributeFilter
}.

(** [buckets]: the measures (unwrapped from [{ measure }]), the categories
    and the filters.  lodash reads an absent collection as the empty one. *)
Record Buckets := {
  measures : list Measure;
  categories : list Category;
  filters : list Filter
}.

Record MdObj := {
  buckets : Buckets;
  vis_type : option jsstring
}.

(** [{ metricDefinition: { identifier, expression, title, format } }] *)
Record MetricDefinition := {
  identifier : jsstring;
  expression : jsstring;
  md_title : jsstring;
  md_format : option jsstring
}.

(** [meta]: [isPoP] is either absent or [true]. *)
Record Meta := {
  measureIndex : nat;
  isPoPFlag : option bool
}.

(** A column item: what [categoryToElement] and the metric strategies
    produce.  Categories carry neither [definition] nor [meta]; [null] and
    [undefined] sorts are both [None] (only their truthiness is read). *)
Record Item := {
  element : option jsstring;
  item_sort : option jsstring;
  definition : option MetricDefinition;
  meta : option Meta
}.

(** A strategy returns one descriptor or an array of them; [flatten]
    splices the arrays. *)
Inductive Produced :=
  | One (d : Item)
  | Many (ds : list Item).

Definition flatten (l : list Produced) : list Item :=
  concat (map (fun p => match p with One d => [d] | Many ds => ds end) l).

(** ** Expression compiler (lines 157-208) *)

Definition CONTRIBUTION_METRIC_FORMAT : jsstring := lit "#,##0.00%".

(** lodash [isEmpty] on an array, and [notEmpty = negate(isEmpty)]. *)
Definition isEmpty {A} (l : list A) : bool :=
  match l with
  | [] => true
  | _ :: _ => false
  end.

Definition notEmpty {A} (l : list A) : bool := negb (isEmpty l).

(** lodash [every] with the identity predicate. *)
Definition every (l : list bool) : bool := forallb (fun b => b) l.

Definition allFiltersEmpty (item : Measure) : bool :=
  every (map (fun f => isEmpty (attributeElements f)) (measureFilters item)).

Definition type_is (m : Measure) (s : string) : bool :=
  bool_decide (mtype m = Some (lit s)).

Definition isDerived (measure : Measure) : bool :=
  type_is measure "fact" || type_is measure "attribute" || negb (allFiltersEmpty measure).

(** [null] when the filter selects no element, the clause otherwise. *)
Definition getFilterExpression (listAttributeFilter : AttributeFilter) : option jsstring :=
  let attributeUri := attribute listAttributeFilter in
  let elements := attributeElements listAttributeFilter in
  if isEmpty elements then None
  else
    let elementsForQuery := map (fun e => lit "[" ++ e ++ lit "]") elements in
    let negative := if negativeSelection listAttributeFilter then lit "NOT " else lit "" in
    Some (lit "[" ++ tpl attributeUri ++ lit "] " ++ negative ++ lit "IN ("
            ++ join (lit ",") elementsForQuery ++ lit ")").

(** [filter(map(measureFilters, getFilterExpression), e => !!e)], which
    the source spells out twice (lines 184 and 198). *)
Definition whereClauses (fs : list AttributeFilter) : list jsstring :=
  omap (fun e => if truthy_opt e then e else None) (map getFilterExpression fs).

(** [notEmpty(where) ? ` WHERE ${where.join(' AND ')}` : ''] (lines 187
    and 199). *)
Definition whereExpression (fs : list AttributeFilter) : jsstring :=
  if notEmpty (whereClauses fs)
  then lit " WHERE " ++ join (lit " AND ") (whereClauses fs)
  else lit "".

(** [omit(measure, 'measureFilters')] *)
Definition omit_measureFilters (m : Measure) : Measure :=
  {| objectUri := objectUri m; mtype := mtype m; aggregation := aggregation m;
     title := title m; format := format m; sort := sort m;
     showPoP := showPoP m; showInPercent := showInPercent m;
     measureFilters := [] |}.

(** What [getDate] hands on: a category or a date filter. *)
Inductive DateSource :=
  | DateOfCategory (c : Category)
  | DateOfFilter (d : DateFilter).

(** [get(date, 'attribute')] *)
Definition date_attribute (date : option DateSource) : option jsstring :=
  match date with
  | Some (DateOfCategory c) => c_attribute c
  | Some (DateOfFilter d) => df_attribute d
  | None => None
  end.

(** ** The rule table of [./utils/rules] *)

(** Modelled from the spec: the [Rules] class of [./utils/rules], which is
    imported by [src/execution.js] but is not among the sources.  Section
    4.1: strategies are registered as ordered (predicate-set, strategy)
    pairs; dispatch evaluates the pairs in registration order and returns
    the first strategy whose every predicate holds, and nothing when no
    pair matches. *)
Module Rules.

Record rule (A B : Type) := Rule {
  tests : list (A -> bool);
  callback : B
}.
Arguments Rule {A B} tests callback.
Arguments tests {A B} r.
Arguments callback {A B} r.

Definition holds {A B} (subject : A) (r : rule A B) : bool :=
  forallb (fun test => test subject) (tests r).

Definition addRule {A B} (tests : list (A -> bool)) (callback : B)
    (rules : list (rule A B)) : list (rule A B) :=
  rules ++ [Rule tests callback].

Definition match_ {A B} (rules : list (rule A B)) (subject : A) : option B :=
  callback <$> find (holds subject) rules.

End Rules.

Section Compiler.

(** The collaborators that are not part of [src/execution.js]: the [md5]
    digest, [String.prototype.toUpperCase] and [toLowerCase], and
    [sortDefinitions] of [./utils/definitions]. *)
Variable md5 : jsstring -> jsstring.
Variable toUpperCase toLowerCase : jsstring -> jsstring.
Variable sortDefinitions : list MetricDefinition -> list MetricDefinition.

Definition getGeneratedMetricExpression (item : Measure) : jsstring :=
  let aggregation := toUpperCase (default (lit "") (aggregation item)) in
  let objectUri := objectUri item in
  lit "SELECT "
    ++ (if truthy aggregation
        then aggregation ++ lit "([" ++ objectUri ++ lit "])"
        else lit "[" ++ objectUri ++ lit "]")
    ++ whereExpression (measureFilters item).

(** The first argument is [first(getCategories(mdObj))]; destructuring it
    throws when the bucket has no category. *)
Definition getPercentMetricExpression (category : option Category) (measure : Measure)
  : option jsstring :=
  category ← category;
  let metricExpressionWithoutFilters :=
    if isDerived measure
    then getGeneratedMetricExpression (omit_measureFilters measure)
    else lit "SELECT [" ++ objectUri measure ++ lit "]" in
  let attributeUri := c_attribute category in
  let whereExpression := whereExpression (measureFilters measure) in
  Some (lit "SELECT (" ++ metricExpressionWithoutFilters ++ whereExpression
          ++ lit ") / (" ++ metricExpressionWithoutFilters
          ++ lit " BY ALL [" ++ tpl attributeUri ++ lit "]" ++ whereExpression ++ lit ")").

(** [attribute] is what [getDate] found: the date category, the date
    filter, or [undefined]. *)
Definition getPoPExpression (attribute : option DateSource) (metricExpression : jsstring)
  : jsstring :=
  let attributeUri := date_attribute attribute in
  lit "SELECT " ++ metricExpression ++ lit " FOR PREVIOUS ([" ++ tpl attributeUri ++ lit "])".

(** ** Identifier generator (lines 210-222) *)

Definition getGeneratedMetricHash (title : jsstring) (format : option jsstring)
    (expression : jsstring) : jsstring :=
  md5 (expression ++ lit "#" ++ title ++ lit "#" ++ tpl format).

Definition getGeneratedMetricIdentifier (item : Measure) (aggregation : jsstring)
    (expressionCreator : Measure -> option jsstring) (hasher : jsstring -> jsstring)
  : option jsstring :=
  let parts := split 47 (objectUri item) in
  let prjId := nth_error parts 3 in
  let id := nth_error parts 5 in
  let identifier := tpl prjId ++ lit "_" ++ tpl id in
  hash ← hasher <$> expressionCreator item;
  let hasNoFilters := isEmpty (measureFilters item) in
  let type := mtype item in
  let prefix := if hasNoFilters || allFiltersEmpty item then lit "" else lit "_filtered" in
  Some (tpl type ++ lit "_" ++ identifier ++ lit ".generated." ++ hash ++ prefix
          ++ lit "_" ++ aggregation).

(** ** Date resolution and sorting (lines 224-255) *)

Definition isDateCategory (category : Category) : bool :=
  bool_decide (c_type category = Some (lit "date")).

Definition isDateFilter (f : Filter) : bool :=
  match f with
  | DateFilterItem _ => true
  | ListAttributeFilter _ => false
  end.

Definition getDateCategory (mdObj : Buckets) : option DateSource :=
  DateOfCategory <$> find isDateCategory (categories mdObj).

Definition getDateFilter (mdObj : Buckets) : option DateSource :=
  match find isDateFilter (filters mdObj) with
  | Some (DateFilterItem d) => Some (DateOfFilter d)
  | _ => None
  end.

Definition getDate (mdObj : Buckets) : option DateSource :=
  match getDateCategory mdObj with
  | Some c => Some c
  | None => getDateFilter mdObj
  end.

Definition getMetricSort (sort : option Sort) (isPoPMetric : bool) : option jsstring :=
  match sort with
  | Some (SortString s) => Some s
  | Some (SortObject direction sortByPoP) =>
      if (isPoPMetric && sortByPoP) || (negb isPoPMetric && negb sortByPoP)
      then direction else None
  | None =>
      (* [sortByPoP] and [direction] both read as [undefined] *)
      None
  end.

(** ** Metric strategies (lines 257-387) *)

Definition createPureMetric (measure : Measure) (mdObj : Buckets) (measureIndex : nat) : Item :=
  {| element := Some (objectUri measure);
     item_sort := getMetricSort (sort measure) false;
     definition := None;
     meta := Some {| measureIndex := measureIndex; isPoPFlag := None |} |}.

Definition createDerivedMetric (measure : Measure) (mdObj : Buckets) (measureIndex : nat)
  : option Item :=
  let format := format measure in
  let sort := sort measure in
  let title := getBaseMetricTitle (title measure) in
  let hasher := getGeneratedMetricHash title format in
  let aggregation := toLowerCase (default (lit "base") (aggregation measure)) in
  element ← getGeneratedMetricIdentifier measure aggregation
               (fun m => Some (getGeneratedMetricExpression m)) hasher;
  let definition :=
    {| identifier := element;
       expression := getGeneratedMetricExpression measure;
       md_title := title;
       md_format := format |} in
  Some {| element := Some element;
          definition := Some definition;
          item_sort := getMetricSort sort false;
          meta := Some {| measureIndex := measureIndex; isPoPFlag := None |} |}.

Definition createContributionMetric (measure : Measure) (mdObj : Buckets) (measureIndex : nat)
  : option Item :=
  let category := head (categories mdObj) in
  let getMetricExpression := getPercentMetricExpression category in
  let title := getBaseMetricTitle (title measure) in
  let hasher := getGeneratedMetricHash title (Some CONTRIBUTION_METRIC_FORMAT) in
  element ← getGeneratedMetricIdentifier measure (lit "percent") getMetricExpression hasher;
  identifier ← getGeneratedMetricIdentifier measure (lit "percent") getMetricExpression hasher;
  expression ← getMetricExpression measure;
  Some {| element := Some element;
          definition := Some {| identifier := identifier;
                                expression := expression;
                                md_title := title;
                                md_format := Some CONTRIBUTION_METRIC_FORMAT |};
          item_sort := getMetricSort (sort measure) false;
          meta := Some {| measureIndex := measureIndex; isPoPFlag := None |} |}.

(** [get(generated, 'definition.metricDefinition.expression')] *)
Definition generated_expression (generated : Item) : option jsstring :=
  expression <$> definition generated.

Definition createPoPMetric (measure : Measure) (mdObj : Buckets) (measureIndex : nat)
  : option (list Item) :=
  let title := getPoPMetricTitle (title measure) in
  let format := format measure in
  let hasher := getGeneratedMetricHash title format in
  let date := getDate mdObj in
  generated ←
    (if isDerived measure
     then Some <$> createDerivedMetric measure mdObj measureIndex
     else Some None);
  let getMetricExpression :=
    match generated with
    | Some g => getPoPExpression date (lit "(" ++ tpl (generated_expression g) ++ lit ")")
    | None => getPoPExpression date (lit "[" ++ objectUri measure ++ lit "]")
    end in
  identifier ← getGeneratedMetricIdentifier measure (lit "pop")
                  (fun _ => Some getMetricExpression) hasher;
  let result :=
    [ {| element := Some identifier;
         definition := Some {| identifier := identifier;
                               expression := getMetricExpression;
                               md_title := title;
                               md_format := format |};
         item_sort := getMetricSort (sort measure) true;
         meta := Some {| measureIndex := measureIndex; isPoPFlag := Some true |} |} ] in
  match generated with
  | Some g => Some (result ++ [g])
  | None => Some (result ++ [createPureMetric measure mdObj measureIndex])
  end.

Definition createContributionPoPMetric (measure : Measure) (mdObj : Buckets)
    (measureIndex : nat) : option (list Item) :=
  let date := getDate mdObj in
  generated ← createContributionMetric measure mdObj measureIndex;
  let title := getPoPMetricTitle (title measure) in
  let format := Some CONTRIBUTION_METRIC_FORMAT in
  let hasher := getGeneratedMetricHash title format in
  let getMetricExpression :=
    getPoPExpression date (lit "(" ++ tpl (generated_expression generated) ++ lit ")") in
  identifier ← getGeneratedMetricIdentifier measure (lit "pop")
                  (fun _ => Some getMetricExpression) hasher;
  let result :=
    [ {| element := Some identifier;
         definition := Some {| identifier := identifier;
                               expression := getMetricExpression;
                               md_title := title;
                               md_format := format |};
         item_sort := getMetricSort (sort measure) true;
         meta := Some {| measureIndex := measureIndex; isPoPFlag := Some true |} |} ] in
  Some (result ++ [generated]).

(** ** Filter translator (lines 389-412 and 454-478) *)

Definition categoryToElement (category : Category) : Item :=
  {| element := c_displayForm category;
     item_sort := c_sort category;
     definition := None;
     meta := None |}.

(** [{ $in: [...] }] or [{ $not: { $in: [...] } }], the elements as
    [{ id }] objects. *)
Inductive AttributeCondition :=
  | CondIn (ids : list jsstring)
  | CondNotIn (ids : list jsstring).

(** The one-key object [{ [dfUri]: condition }]. *)
Record AttributeClause := {
  ac_key : jsstring;
  ac_condition : AttributeCondition
}.

(** The values a [where] object holds: a date clause under the date uri,
    the attribute clauses under [$and]. *)
Inductive WhereEntry :=
  | Between (between : option jsstring * option jsstring) (granularity : option jsstring)
  | And (clauses : list AttributeClause).

(** [last(e.split('='))]; [split] never returns the empty array. *)
Definition last_segment (e : jsstring) : jsstring :=
  List.last (split 61 e) [].

Definition attributeFilterToWhere (f : AttributeFilter) : AttributeClause :=
  let elements := attributeElements f in
  let elementsForQuery := map last_segment elements in
  let dfUri := displayForm f in
  let negative := negativeSelection f in
  if negative
  then {| ac_key := tpl dfUri; ac_condition := CondNotIn elementsForQuery |}
  else {| ac_key := tpl dfUri; ac_condition := CondIn elementsForQuery |}.

(** [a || b] on values that are strings or [undefined]. *)
Definition or_else (a b : option jsstring) : option jsstring :=
  if truthy_opt a then a else b.

Definition dateFilterToWhere (f : DateFilter) : jsstring * WhereEntry :=
  let dateUri := or_else (or_else (dimension f) (dataSet f)) (dataset f) in
  let granularity := granularity f in
  let between := (from f, to f) in
  (tpl dateUri, Between between granularity).

Definition isDateFilterExecutable (dateFilter : DateFilter) : bool :=
  bool_decide (from dateFilter <> None) && bool_decide (to dateFilter <> None).

Definition isAttributeFilterExecutable (listAttributeFilter : AttributeFilter) : bool :=
  notEmpty (attributeElements listAttributeFilter).

(** The items of [filters] that are executable attribute filters, and
    those that are executable date filters. *)
Definition executableAttributeFilters (filters : list Filter) : list AttributeFilter :=
  omap (fun f => match f with
                 | ListAttributeFilter a =>
                     if isAttributeFilterExecutable a then Some a else None
                 | DateFilterItem _ => None
                 end) filters.

Definition executableDateFilters (filters : list Filter) : list DateFilter :=
  omap (fun f => match f with
                 | DateFilterItem d => if isDateFilterExecutable d then Some d else None
                 | ListAttributeFilter _ => None
                 end) filters.

Definition getWhere (filters : list Filter) : gmap jsstring WhereEntry :=
  let executableFilters := executableAttributeFilters filters in
  let attributeFilters := map attributeFilterToWhere executableFilters in
  let dateFilters := map dateFilterToWhere (executableDateFilters filters) in
  (* [reduce(assign, {})]: later keys overwrite earlier ones *)
  let resultDate :=
    fold_left (fun acc clause => <[clause.1 := clause.2]> acc) dateFilters ∅ in
  <[lit "$and" := And attributeFilters]> resultDate.

(** ** Rule dispatcher (lines 414-452) *)

Definition isPoP (measure : Measure) : bool := showPoP measure.
Definition isContribution (measure : Measure) : bool := showInPercent measure.

Definition isCalculatedMeasure (measure : Measure) : bool := type_is measure "metric".

(** The five strategies, by the name of the function that builds the
    metric; [createMetric] is the call [factory(measure, buckets, index)]. *)
Inductive Strategy :=
  | ContributionPoP
  | PoP
  | Contribution
  | Derived
  | Pure.

Definition createMetric (factory : Strategy) (measure : Measure) (mdObj : Buckets)
    (measureIndex : nat) : option Produced :=
  match factory with
  | ContributionPoP => Many <$> createContributionPoPMetric measure mdObj measureIndex
  | PoP => Many <$> createPoPMetric measure mdObj measureIndex
  | Contribution => One <$> createContributionMetric measure mdObj measureIndex
  | Derived => One <$> createDerivedMetric measure mdObj measureIndex
  | Pure => Some (One (createPureMetric measure mdObj measureIndex))
  end.

Definition rules : list (Rules.rule Measure Strategy) :=
  let rules := [] in
  let rules := Rules.addRule [isPoP; isContribution] ContributionPoP rules in
  let rules := Rules.addRule [isPoP] PoP rules in
  let rules := Rules.addRule [isContribution] Contribution rules in
  let rules := Rules.addRule [isDerived] Derived rules in
  let rules := Rules.addRule [isCalculatedMeasure] Pure rules in
  rules.

(** [None] is the failed [invariant]. *)
Definition getMetricFactory (measure : Measure) : option Strategy :=
  Rules.match_ rules measure.

(** ** Assembler (lines 480-516) *)

Record OrderEntry := {
  column : option jsstring;
  direction : option jsstring
}.

(** lodash [compact] on values that are strings or [undefined]. *)
Definition compact (l : list (option jsstring)) : list jsstring :=
  omap (fun e => if truthy_opt e then e else None) l.

Definition sortToOrderBy (item : Item) : OrderEntry :=
  {| column := element item; direction := item_sort item |}.

Definition getOrderBy (metrics categories : list Item) (type : option jsstring)
  : list OrderEntry :=
  if bool_decide (type = Some (lit "bar")) && notEmpty metrics then
    [ {| column := head (compact (map element metrics));
         direction := Some (lit "desc") |} ]
  else
    map sortToOrderBy
      (List.filter (fun item => truthy_opt (item_sort item)) (categories ++ metrics)).

(** [{ element: m.element, ...m.meta }] *)
Record MetricMapping := {
  mapping_element : option jsstring;
  mapping_measureIndex : option nat;
  mapping_isPoP : option bool
}.

Definition toMetricMapping (m : Item) : MetricMapping :=
  {| mapping_element := element m;
     mapping_measureIndex := measureIndex <$> meta m;
     mapping_isPoP := meta m ≫= isPoPFlag |}.

Record ExecutionConfiguration := {
  columns : list jsstring;
  orderBy : list OrderEntry;
  definitions : list MetricDefinition;
  where_ : gmap jsstring WhereEntry;
  metricMappings : list MetricMapping
}.

Definition mdToExecutionConfiguration (mdObj : MdObj) (removeDateItems : bool)
  : option ExecutionConfiguration :=
  let buckets := buckets mdObj in
  let measures := measures buckets in
  produced ← mapM (fun x => x)
    (imap (fun index measure =>
             factory ← getMetricFactory measure;
             createMetric factory measure buckets index) measures);
  let metrics := flatten produced in
  let categories := categories buckets in
  let filters := filters buckets in
  let categories :=
    if removeDateItems
    then List.filter (fun category => negb (isDateCategory category)) categories
    else categories in
  let filters :=
    if removeDateItems
    then List.filter (fun item => negb (isDateFilter item)) filters
    else filters in
  let categories := map categoryToElement categories in
  let columns := compact (map element (categories ++ metrics)) in
  Some {| columns := columns;
          orderBy := getOrderBy metrics categories (vis_type mdObj);
          definitions := sortDefinitions (omap definition metrics);
          where_ := if notEmpty columns then getWhere filters else ∅;
          metricMappings := map toMetricMapping metrics |}.

End Compiler.

(** ** [getDataForVis] and the caller's metadata object (lines 518-544) *)

(** The objects of the metadata graph whose identity the orchestration
    depends on live in a store.  Categories and filters are only read, so
    a bucket holds them by value. *)
Abbreviation loc := positive.

Inductive Obj :=
  | OMeasure (measure : Measure)
  | OWrapper (measure : loc)
  | OArray (items : list loc)
  | OBuckets (measures : loc) (categories : list Category) (filters : list Filter)
  | OMdObj (buckets : loc) (type : option jsstring).

Abbreviation store := (gmap loc Obj).

(** A new object gets a location the store does not use yet. *)
Definition alloc (o : Obj) (h : store) : loc * store :=
  let l := fresh (dom h) in (l, <[l := o]> h).

Definition read_measure (h : store) (l : loc) : option Measure :=
  match h !! l with
  | Some (OMeasure m) => Some m
  | _ => None
  end.

(** [({ measure }) => measure] *)
Definition unwrap (h : store) (w : loc) : option loc :=
  match h !! w with
  | Some (OWrapper ml) => Some ml
  | _ => None
  end.

(** [get(mdObj, 'buckets')] as a location, with the bucket's fields. *)
Definition read_buckets (h : store) (mdObj : loc)
  : option (loc * (loc * list Category * list Filter)) :=
  match h !! mdObj with
  | Some (OMdObj b _) =>
      match h !! b with
      | Some (OBuckets arr cats fs) => Some (b, (arr, cats, fs))
      | _ => None
      end
  | _ => None
  end.

(** [get(mdObj, 'buckets.measures')]: the wrappers of the measures array. *)
Definition read_wrappers (h : store) (mdObj : loc) : option (list loc) :=
  '(_, (arr, _, _)) ← read_buckets h mdObj;
  match h !! arr with
  | Some (OArray ws) => Some ws
  | _ => None
  end.

(** The metadata object as the compiler reads it. *)
Definition read_mdObj (h : store) (mdObj : loc) : option MdObj :=
  match h !! mdObj with
  | Some (OMdObj _ type) =>
      '(_, (_, cats, fs)) ← read_buckets h mdObj;
      ws ← read_wrappers h mdObj;
      ms ← mapM (fun w => unwrap h w ≫= read_measure h) ws;
      Some {| buckets := {| measures := ms; categories := cats; filters := fs |};
              vis_type := type |}
  | _ => None
  end.

(** The part of a server response the format lookup reads,
    [get(obj, 'metric.content.format')]. *)
Record ServerObject := {
  metric_content_format : option jsstring
}.

Definition needsRoundtrip (measure : Measure) : bool :=
  bool_decide (showPoP measure = true) || (0 <? length (measureFilters measure))%nat.

(** [{ ...measure, format }] *)
Definition with_format (m : Measure) (f : option jsstring) : Measure :=
  {| objectUri := objectUri m; mtype := mtype m; aggregation := aggregation m;
     title := title m; format := f; sort := sort m;
     showPoP := showPoP m; showInPercent := showInPercent m;
     measureFilters := measureFilters m |}.

(** [get(obj, 'metric.content.format', measure.format)] *)
Definition resolvedFormat (obj : ServerObject) (measure : Measure) : option jsstring :=
  match metric_content_format obj with
  | Some f => Some f
  | None => format measure
  end.

(** What [getDataForVis] hands to the transport, or where it stopped. *)
Inductive Outcome :=
  | FormatLookupFailed
  | CompileFailed
  | Executed (columns : list jsstring) (executionConfiguration : ExecutionConfiguration).

Section Orchestration.

Variable md5 : jsstring -> jsstring.
Variable toUpperCase toLowerCase : jsstring -> jsstring.
Variable sortDefinitions : list MetricDefinition -> list MetricDefinition.

(** [xhrGet(uri)]: the object the promise resolves to, [None] when it is
    rejected. *)
Variable xhrGet : jsstring -> option ServerObject.

(** The callback of [getOriginalMetricFormats] on one measure: the promise
    resolves to a copy with the looked-up format, or to the measure
    itself. *)
Definition originalMetricFormat (ml : loc) (h : store) : option (loc * store) :=
  measure ← read_measure h ml;
  if needsRoundtrip measure then
    obj ← xhrGet (objectUri measure);
    Some (alloc (OMeasure (with_format measure (resolvedFormat obj measure))) h)
  else Some (ml, h).

(** [Promise.all]: every promise resolves, in which case the results come
    in the order of the measures, or the whole is rejected. *)
Fixpoint allMetricFormats (mls : list loc) (h : store) : option (list loc * store) :=
  match mls with
  | [] => Some ([], h)
  | ml :: rest =>
      '(ml', h1) ← originalMetricFormat ml h;
      '(rest', h2) ← allMetricFormats rest h1;
      Some (ml' :: rest', h2)
  end.

Definition getOriginalMetricFormats (mdObj : loc) (h : store) : option (list loc * store) :=
  ws ← read_wrappers h mdObj;
  mls ← mapM (unwrap h) ws;
  allMetricFormats mls h.

(** [map(measures, measure => ({ measure }))]: a new wrapper for each. *)
Fixpoint wrapMeasures (mls : list loc) (h : store) : list loc * store :=
  match mls with
  | [] => ([], h)
  | ml :: rest =>
      let '(w, h1) := alloc (OWrapper ml) h in
      let '(ws, h2) := wrapMeasures rest h1 in
      (w :: ws, h2)
  end.

(** [metadata.buckets.measures = ...]: the bucket object is updated in
    place. *)
Definition assignMeasures (mdObj : loc) (mls : list loc) (h : store) : option store :=
  '(b, (_, cats, fs)) ← read_buckets h mdObj;
  let '(ws, h1) := wrapMeasures mls h in
  let '(arr, h2) := alloc (OArray ws) h1 in
  Some (<[b := OBuckets arr cats fs]> h2).

Definition compile (h : store) (mdObj : loc) : Outcome :=
  match read_mdObj h mdObj
        ≫= (fun md => mdToExecutionConfiguration md5 toUpperCase toLowerCase
                        sortDefinitions md false) with
  | Some cfg => Executed (columns cfg) cfg
  | None => CompileFailed
  end.

(** The store after the call, and its outcome.  When the format lookup is
    rejected the callback of [then] does not run.  The lookup has read
    [mdObj.buckets] already, so the assignment finds the bucket. *)
Definition getDataForVis (mdObj : loc) (h : store) : store * Outcome :=
  match getOriginalMetricFormats mdObj h with
  | Some (measures, h1) =>
      match assignMeasures mdObj measures h1 with
      | Some h2 => (h2, compile h2 mdObj)
      | None => (h1, CompileFailed)
      end
  | None => (h, FormatLookupFailed)
  end.

End Orchestration.

(** ** Instances used to run the compiler on examples *)

(** The case mappings on ASCII letters, where [toUpperCase] and
    [toLowerCase] agree with them. *)
Definition ascii_upper (c : N) : N :=
  if ((97 <=? c) && (c <=? 122))%N then (c - 32)%N else c.

Definition ascii_lower (c : N) : N :=
  if ((65 <=? c) && (c <=? 90))%N then (c + 32)%N else c.

Definition asciiToUpperCase (s : jsstring) : jsstring := map ascii_upper s.
Definition asciiToLowerCase (s : jsstring) : jsstring := map ascii_lower s.

(** A stand-in for the digest: any function of the text will do. *)
Definition sample_md5 (s : jsstring) : jsstring :=
  lit "md5:" ++ s.

(** A definition collaborator that leaves the list as it is. *)
Definition keepDefinitions (l : list MetricDefinition) : list MetricDefinition := l.

(** The suffixes the title builder is used with (lines 152 and 155). *)
Definition title_suffix (suffix : jsstring) : Prop :=
  suffix = lit "" \/ suffix = POP_SUFFIX.

(** A 256-character title that ends in [")"] and has a [")"] right
    before the 254th character. *)
Definition long_title : jsstring := repeat 97%N 253 ++ [rparen; 98%N; rparen].

(** The grammar of section 4.2, in its own words: the clause of one
    filter, the filters that select an element, the [WHERE] part, and the
    contribution quotient. *)
Definition filterClause (f : AttributeFilter) : jsstring :=
  lit "[" ++ tpl (attribute f) ++ lit "] "
    ++ (if negativeSelection f then lit "NOT IN (" else lit "IN (")
    ++ join (lit ",") (map (fun e => lit "[" ++ e ++ lit "]") (attributeElements f))
    ++ lit ")".

Definition hasSelectedElements (f : AttributeFilter) : bool :=
  notEmpty (attributeElements f).

Definition whereGrammar (fs : list AttributeFilter) : jsstring :=
  match List.filter hasSelectedElements fs with
  | [] => lit ""
  | selected => lit " WHERE " ++ join (lit " AND ") (map filterClause selected)
  end.

Definition contributionGrammar (inner where_part attributeUri : jsstring) : jsstring :=
  lit "SELECT (" ++ inner ++ where_part ++ lit ") / (" ++ inner
    ++ lit " BY ALL [" ++ attributeUri ++ lit "]" ++ where_part ++ lit ")".

(** A calculated measure that carries an aggregation and is shown in
    percent, and a category to take the percentage over. *)
Definition percent_measure : Measure :=
  {| objectUri := lit "/gdc/md/p1/obj/5"; mtype := Some (lit "metric");
     aggregation := Some (lit "sum"); title := Some (lit "Revenue");
     format := Some (lit "#,##0"); sort := None;
     showPoP := false; showInPercent := true; measureFilters := [] |}.

Definition region : Category :=
  {| c_type := Some (lit "attribute"); c_attribute := Some (lit "/gdc/md/p1/obj/9");
     c_displayForm := Some (lit "/gdc/md/p1/obj/10"); c_sort := None |}.

Definition percent_buckets : Buckets :=
  {| measures := [percent_measure]; categories := [region]; filters := [] |}.

(** The measure of the end-to-end examples of section 8, alone in its
    bucket, and with [showPoP] next to a date category. *)
Definition revenue : Measure :=
  {| objectUri := lit "/gdc/md/p1/obj/5"; mtype := Some (lit "metric");
     aggregation := None; title := Some (lit "Revenue");
     format := Some (lit "#,##0"); sort := None;
     showPoP := false; showInPercent := false; measureFilters := [] |}.

Definition revenue_buckets : Buckets :=
  {| measures := [revenue]; categories := []; filters := [] |}.

Definition revenue_pop : Measure :=
  {| objectUri := lit "/gdc/md/p1/obj/5"; mtype := Some (lit "metric");
     aggregation := None; title := Some (lit "Revenue");
     format := Some (lit "#,##0"); sort := None;
     showPoP := true; showInPercent := false; measureFilters := [] |}.

Definition year : Category :=
  {| c_type := Some (lit "date"); c_attribute := Some (lit "/gdc/md/p1/obj/20");
     c_displayForm := Some (lit "/gdc/md/p1/obj/21"); c_sort := None |}.

Definition revenue_pop_buckets : Buckets :=
  {| measures := [revenue_pop]; categories := [year]; filters := [] |}.

(** A metadata object in a store: two measures, the first of which needs
    the format round trip, and a server that answers every lookup. *)
Definition sample_store : store :=
  <[1%positive := OMdObj 2 (Some (lit "line"))]>
    (<[2%positive := OBuckets 3 [year] []]>
       (<[3%positive := OArray [4; 5]%positive]>
          (<[4%positive := OWrapper 6]>
             (<[5%positive := OWrapper 7]>
                (<[6%positive := OMeasure revenue_pop]>
                   (<[7%positive := OMeasure revenue]> ∅)))))).

Definition sample_xhrGet (uri : jsstring) : option ServerObject :=
  Some {| metric_content_format := Some (lit "$#,##0.00") |}.

(** How the measure at [ml] before the call relates to the measure at
    [ml'] that the new wrapper holds after it: a fresh copy with the
    looked-up format when the round trip applies, the same object
    otherwise. *)
Definition formatResolved (xhrGet : jsstring -> option ServerObject)
    (h h' : store) (ml ml' : loc) : Prop :=
  exists m,
    read_measure h ml = Some m
    /\ if needsRoundtrip m
       then (ml' ∉ dom h)
            /\ exists obj, xhrGet (objectUri m) = Some obj
                 /\ h' !! ml' = Some (OMeasure (with_format m (resolvedFormat obj m)))
       else ml' = ml.

(** The measure at [ml] can be read, and its format lookup, if it needs
    one, is answered. *)
Definition lookupResolves (xhrGet : jsstring -> option ServerObject)
    (h : store) (ml : loc) : Prop :=
  exists m,
    read_measure h ml = Some m
    /\ (needsRoundtrip m = true -> is_Some (xhrGet (objectUri m))).

(** ** Response headers (lines 34-50) *)

(** A header of the execution result: the properties the annotation reads
    and writes.  The headers of one response are distinct objects. *)
Record Header := {
  header_id : option jsstring;
  header_uri : option jsstring;
  header_measureIndex : option nat;
  header_isPoP : option bool
}.

Definition findHeaderForMappingFn (mapping : MetricMapping) (header : Header) : bool :=
  (bool_decide (mapping_element mapping = header_id header)
   || bool_decide (mapping_element mapping = header_uri header))
  && bool_decide (header_measureIndex header = None).

(** [header.measureIndex = mapping.measureIndex; header.isPoP = mapping.isPoP] *)
Definition annotateHeader (mapping : MetricMapping) (header : Header) : Header :=
  {| header_id := header_id header;
     header_uri := header_uri header;
     header_measureIndex := mapping_measureIndex mapping;
     header_isPoP := mapping_isPoP mapping |}.

(** The body of the [forEach]: the first header the mapping is for, if
    any, is updated in place. *)
Definition wrapMeasureIndex (headers : list Header) (mapping : MetricMapping) : list Header :=
  match list_find (fun header => findHeaderForMappingFn mapping header = true) headers with
  | Some (i, header) => <[i := annotateHeader mapping header]> headers
  | None => headers
  end.

Definition wrapMeasureIndexesFromMappings (metricMappings : option (list MetricMapping))
    (headers : list Header) : list Header :=
  match metricMappings with
  | Some mappings => fold_left wrapMeasureIndex mappings headers
  | None => headers
  end.

(** ** Derived notions used in the properties *)

(** The measure the compiler sees after the format round trip. *)
Definition resolveMeasure (xhrGet : jsstring -> option ServerObject) (m : Measure) : Measure :=
  if needsRoundtrip m then
    match xhrGet (objectUri m) with
    | Some obj => with_format m (resolvedFormat obj m)
    | None => m
    end
  else m.

(** A measure compiles in a bucket when dispatch finds a strategy for it
    and, if it is shown in percent, the bucket has a category. *)
Definition compiles (mdObj : Buckets) (measure : Measure) : Prop :=
  is_Some (getMetricFactory measure)
  /\ (isContribution measure = true -> categories mdObj <> []).

(** The index and the PoP flag of the mappings one measure gives. *)
Definition mappingMarks (index : nat) (measure : Measure) : list (option nat * option bool) :=
  if isPoP measure
  then [(Some index, Some true); (Some index, None)]
  else [(Some index, None)].

(** The key of a date filter in the [where] object. *)
Definition dateKey (d : DateFilter) : jsstring := (dateFilterToWhere d).1.

(** The wrapper a PoP strategy puts in front of the base metric. *)
Definition popWrapper (id inner : jsstring) (date : option DateSource)
    (title : option jsstring) (format : option jsstring) (sort : option Sort)
    (measureIndex : nat) : Item :=
  {| element := Some id;
     item_sort := getMetricSort sort true;
     definition :=
       Some {| identifier := id;
               expression := getPoPExpression date inner;
               md_title := getPoPMetricTitle title;
               md_format := format |};
     meta := Some {| measureIndex := measureIndex; isPoPFlag := Some true |} |}.

(** What every strategy guarantees of the descriptor that is not a PoP
    wrapper. *)
Definition baseDescriptor (measure : Measure) (measureIndex : nat) (d : Item) : Prop :=
  item_sort d = getMetricSort (sort measure) false
  /\ meta d = Some {| measureIndex := measureIndex; isPoPFlag := None |}
  /\ match definition d with
     | Some def => element d = Some (identifier def) /\ identifier def <> []
     | None => element d = Some (objectUri measure)
     end.

Definition isPoPStrategy (factory : Strategy) : bool :=
  match factory with
  | ContributionPoP | PoP => true
  | _ => false
  end.

Definition needsCategory (factory : Strategy) : bool :=
  match factory with
  | ContributionPoP | Contribution => true
  | _ => false
  end.

(** The filters [getWhere] translates. *)
Definition isExecutable (f : Filter) : bool :=
  match f with
  | ListAttributeFilter a => isAttributeFilterExecutable a
  | DateFilterItem d => isDateFilterExecutable d
  end.

(** The callback of the [map] over the measures in
    [mdToExecutionConfiguration]. *)
Definition compileMeasure (md5 toUpperCase toLowerCase : jsstring -> jsstring)
    (mdObj : Buckets) (index : nat) (measure : Measure) : option Produced :=
  factory ← getMetricFactory measure;
  createMetric md5 toUpperCase toLowerCase factory measure mdObj index.

(** The mapping [m] is for the header [h], which is not annotated yet. *)
Definition mappingFor (m : MetricMapping) (h : Header) : Prop :=
  (mapping_element m = header_id h \/ mapping_element m = header_uri h)
  /\ header_measureIndex h = None.

(** Sample data for the properties below: the bucket of the PoP example
    as a metadata object, a response with one attribute header and the
    two metric headers, the mappings for them, and a server that rejects
    every lookup. *)
Definition revenue_pop_mdObj : MdObj :=
  {| buckets := revenue_pop_buckets; vis_type := None |}.

Definition sample_mappings : list MetricMapping :=
  [ {| mapping_element := Some (lit "metric_p1_5.generated.0_pop");
       mapping_measureIndex := Some 0%nat; mapping_isPoP := Some true |};
    {| mapping_element := Some (lit "/gdc/md/p1/obj/5");
       mapping_measureIndex := Some 0%nat; mapping_isPoP := None |} ].

Definition attribute_header : Header :=
  {| header_id := Some (lit "date.year"); header_uri := Some (lit "/gdc/md/p1/obj/21");
     header_measureIndex := None; header_isPoP := None |}.

Definition metric_headers : list Header :=
  [ {| header_id := Some (lit "metric_p1_5.generated.0_pop"); header_uri := None;
       header_measureIndex := None; header_isPoP := None |};
    {| header_id := Some (lit "revenue"); header_uri := Some (lit "/gdc/md/p1/obj/5");
       header_measureIndex := None; header_isPoP := None |} ].

Definition rejecting_xhrGet (uri : jsstring) : option ServerObject := None.

(** ** Notions used in the statements on strategies, ordering and formats *)

(** A measure with both flags, for a bucket without categories. *)
Definition revenue_percent_pop : Measure :=
  {| objectUri := lit "/gdc/md/p1/obj/5"; mtype := Some (lit "metric");
     aggregation := None; title := Some (lit "Revenue");
     format := Some (lit "#,##0"); sort := None;
     showPoP := true; showInPercent := true; measureFilters := [] |}.

Definition no_category_buckets : Buckets :=
  {| measures := [revenue_percent_pop]; categories := []; filters := [] |}.

(** A measure of a type the dispatcher does not know. *)
Definition unknown_measure : Measure :=
  {| objectUri := lit "/gdc/md/p1/obj/8"; mtype := Some (lit "folder");
     aggregation := None; title := Some (lit "Unknown");
     format := None; sort := None;
     showPoP := false; showInPercent := false; measureFilters := [] |}.

(** The negative filter of the example of section 8. *)
Definition negative_filter : AttributeFilter :=
  {| attribute := Some (lit "/gdc/md/p1/obj/9"); displayForm := Some (lit "dfUri");
     negativeSelection := true; attributeElements := [lit "sys1=1"; lit "sys1=2"] |}.

(** The sort setting of each metric descriptor, in the order of the
    metric mappings: a measure with [showPoP] has the sort of its PoP
    wrapper and then that of its base metric. *)
Definition metricSorts (measures : list Measure) : list (option jsstring) :=
  concat (map (fun m =>
                 if isPoP m
                 then [getMetricSort (sort m) true; getMetricSort (sort m) false]
                 else [getMetricSort (sort m) false]) measures).

(** [{ column, direction }] for an item that carries a sort setting. *)
Definition sortedEntry (column direction : option jsstring) : option OrderEntry :=
  if truthy_opt direction
  then Some {| column := column; direction := direction |}
  else None.

Definition categoryEntries (categories : list Category) : list OrderEntry :=
  omap (fun c => sortedEntry (c_displayForm c) (c_sort c)) categories.

Definition metricEntries (mappings : list MetricMapping) (sorts : list (option jsstring))
  : list OrderEntry :=
  omap (fun x => sortedEntry (mapping_element x.1) x.2) (zip mappings sorts).

(** The bucket of the bar-chart example of section 8: two measures with
    ascending sorts of their own, and a category sorted descending. *)
Definition revenue_asc : Measure :=
  {| objectUri := lit "/gdc/md/p1/obj/5"; mtype := Some (lit "metric");
     aggregation := None; title := Some (lit "Revenue");
     format := Some (lit "#,##0"); sort := Some (SortString (lit "asc"));
     showPoP := false; showInPercent := false; measureFilters := [] |}.

Definition cost_asc : Measure :=
  {| objectUri := lit "/gdc/md/p1/obj/6"; mtype := Some (lit "metric");
     aggregation := None; title := Some (lit "Cost");
     format := Some (lit "#,##0"); sort := Some (SortString (lit "asc"));
     showPoP := false; showInPercent := false; measureFilters := [] |}.

Definition region_desc : Category :=
  {| c_type := Some (lit "attribute"); c_attribute := Some (lit "/gdc/md/p1/obj/9");
     c_displayForm := Some (lit "/gdc/md/p1/obj/10"); c_sort := Some (lit "desc") |}.

Definition sorted_buckets : Buckets :=
  {| measures := [revenue_asc; cost_asc]; categories := [region_desc]; filters := [] |}.

(** [m'] is [m] with the looked-up format: every property but [format] is
    kept; for a measure with [showPoP] or a measure filter the format is
    the server's [metric.content.format], or its own format when the
    server has none; any other measure keeps its format. *)
Definition formatLookedUp (xhrGet : jsstring -> option ServerObject) (m m' : Measure) : Prop :=
  objectUri m' = objectUri m
  /\ mtype m' = mtype m
  /\ aggregation m' = aggregation m
  /\ title m' = title m
  /\ sort m' = sort m
  /\ showPoP m' = showPoP m
  /\ showInPercent m' = showInPercent m
  /\ measureFilters m' = measureFilters m
  /\ (showPoP m = true \/ measureFilters m <> [] ->
      exists obj,
        xhrGet (objectUri m) = Some obj
        /\ format m' = match metric_content_format obj with
                       | Some f => Some f
                       | None => format m
                       end)
  /\ (showPoP m = false -> measureFilters m = [] -> format m' = format m).

(** The format lookup of the measure at [ml], if it needs one, is
    answered. *)
Definition lookupAnswered (xhrGet : jsstring -> option ServerObject)
    (h : store) (ml : loc) : Prop :=
  exists m,
    read_measure h ml = Some m
    /\ (showPoP m = true \/ measureFilters m <> [] -> is_Some (xhrGet (objectUri m))).

(** The measure a new wrapper holds at [ml'], against the measure at [ml]
    before the call: its value has the looked-up format, and it is a new
    object exactly when the measure has [showPoP] or a measure filter. *)
Definition measureAfter (xhrGet : jsstring -> option ServerObject)
    (h h' : store) (ml ml' : loc) : Prop :=
  exists m m',
    read_measure h ml = Some m
    /\ read_measure h' ml' = Some m'
    /\ formatLookedUp xhrGet m m'
    /\ (showPoP m = true \/ measureFilters m <> [] -> ml' ∉ dom h)
    /\ (showPoP m = false -> measureFilters m = [] -> ml' = ml).

(** A measure that needs the round trip because of its filter, and a
    store with it; a server that knows no format. *)
Definition filtered_revenue : Measure :=
  {| objectUri := lit "/gdc/md/p1/obj/5"; mtype := Some (lit "metric");
     aggregation := None; title := Some (lit "Revenue");
     format := Some (lit "#,##0"); sort := None;
     showPoP := false; showInPercent := false;
     measureFilters := [negative_filter] |}.

Definition filtered_store : store :=
  <[1%positive := OMdObj 2 None]>
    (<[2%positive := OBuckets 3 [] []]>
       (<[3%positive := OArray [4]%positive]>
          (<[4%positive := OWrapper 5]>
             (<[5%positive := OMeasure filtered_revenue]> ∅)))).

(** The recognized measure types of the data model. *)
Definition recognized (measure : Measure) : Prop :=
  mtype measure = Some (lit "fact")
  \/ mtype measure = Some (lit "attribute")
  \/ mtype measure = Some (lit "metric").

(** * Properties *)

(** ** Strings *)

Lemma jslength_app (s t : jsstring) : jslength (s ++ t) = jslength s + jslength t.
Proof. unfold jslength. rewrite length_app. lia. Qed.

Lemma jslength_nonneg (s : jsstring) : 0 <= jslength s.
Proof. unfold jslength. lia. Qed.

Lemma substring_prefix (s : jsstring) (n : Z) :
  substring s 0 n = firstn (Z.to_nat n) s.
Proof.
  unfold substring. pose proof (jslength_nonneg s) as Hs. unfold jslength in *.
  replace (Z.min (Z.max 0 0) (Z.of_nat (length s))) with 0 by lia.
  set (b := Z.min (Z.max n 0) (Z.of_nat (length s))).
  replace (Z.min 0 b) with 0 by lia. replace (Z.max 0 b - 0) with b by lia.
  change (Z.to_nat 0) with 0%nat. rewrite drop_0. subst b.
  destruct (Z.le_gt_cases n (Z.of_nat (length s))) as [Hle | Hgt].
  - f_equal. lia.
  - rewrite !firstn_all2 by lia. reflexivity.
Qed.

Lemma jslength_substring_prefix (s : jsstring) (n : Z) :
  0 <= n <= jslength s -> jslength (substring s 0 n) = n.
Proof.
  intros Hn. rewrite substring_prefix. unfold jslength in *.
  rewrite length_firstn. lia.
Qed.

Lemma truthy_length (s : jsstring) : truthy s = true <-> 0 < jslength s.
Proof. destruct s; unfold jslength; simpl; split; intros; try lia; congruence. Qed.

Lemma charAt_last (s : jsstring) : charAt s (jslength s - 1) = last s.
Proof.
  unfold charAt, jslength. destruct s as [|c s]; [reflexivity|].
  destruct (Z.ltb_spec (Z.of_nat (length (c :: s)) - 1) 0) as [H|H]; [simpl in H; lia|].
  replace (Z.to_nat (Z.of_nat (length (c :: s)) - 1)) with (length s) by (simpl; lia).
  clear H. revert c. induction s as [|d s IH]; intros c; [reflexivity|].
  simpl. rewrite <- IH. reflexivity.
Qed.

(** ** Title truncator *)

(** The three shapes of a built title. *)
Lemma getMetricTitle_cases (suffix t : jsstring) :
  let maxLength := MAX_TITLE_LENGTH - jslength suffix in
  (jslength t <= maxLength \/ t = []) /\ getMetricTitle suffix (Some t) = t ++ suffix
  \/ (maxLength < jslength t /\ last t = Some rparen /\
      getMetricTitle suffix (Some t)
        = substring t 0 (maxLength - 2) ++ [ellipsis; rparen] ++ suffix)
  \/ (maxLength < jslength t /\ last t <> Some rparen /\
      getMetricTitle suffix (Some t)
        = substring t 0 (maxLength - 1) ++ [ellipsis] ++ suffix).
Proof.
  intros maxLength. unfold getMetricTitle. fold maxLength.
  destruct (truthy t) eqn:Ht; simpl.
  - destruct (Z.gtb_spec (jslength t) maxLength) as [Hgt|Hle].
    + rewrite charAt_last. destruct (last t) as [c|] eqn:Hl; simpl.
      * destruct (N.eqb_spec c rparen) as [->|Hc].
        -- right; left. auto.
        -- right; right. repeat split; auto. congruence.
      * right; right. repeat split; auto.
    + left. split; auto.
  - left. destruct t; [auto | discriminate].
Qed.

Lemma getMetricTitle_length (suffix t : jsstring) :
  jslength suffix <= 253 ->
  jslength (getMetricTitle suffix (Some t)) <= 255.
Proof.
  intros Hs. pose proof (jslength_nonneg suffix) as H0.
  pose proof (getMetricTitle_cases suffix t) as H. cbv zeta in H.
  unfold MAX_TITLE_LENGTH in H.
  destruct H as [[Hc ->] | [(Hgt & _ & ->) | (Hgt & _ & ->)]].
  - rewrite jslength_app. destruct Hc as [Hc | ->]; [lia|]. change (jslength []) with 0. lia.
  - rewrite !jslength_app, jslength_substring_prefix by lia.
    change (jslength [ellipsis; rparen]) with 2. lia.
  - rewrite !jslength_app, jslength_substring_prefix by lia.
    change (jslength [ellipsis]) with 1. lia.
Qed.

Lemma getMetricTitle_short (suffix t : jsstring) :
  jslength t <= MAX_TITLE_LENGTH - jslength suffix ->
  getMetricTitle suffix (Some t) = t ++ suffix.
Proof.
  intros Hle. pose proof (getMetricTitle_cases suffix t) as H. cbv zeta in H.
  destruct H as [[_ ->] | [(Hgt & _) | (Hgt & _)]]; [reflexivity | lia | lia].
Qed.

(** C6: with either suffix of the title builder, the built title has at
    most 255 characters, and a title of at most [255 - suffix.length]
    characters comes back as [title + suffix], untouched. *)
Theorem getMetricTitle_bounded (suffix title : jsstring) :
  title_suffix suffix ->
  jslength (getMetricTitle suffix (Some title)) <= 255 /\
  (jslength title <= 255 - jslength suffix ->
   getMetricTitle suffix (Some title) = title ++ suffix).
Proof.
  intros Hsuffix. split.
  - apply getMetricTitle_length. destruct Hsuffix as [-> | ->]; vm_compute; discriminate.
  - apply getMetricTitle_short.
Qed.

Lemma getMetricTitle_bounded_witness :
  title_suffix POP_SUFFIX /\
  jslength (getMetricTitle POP_SUFFIX (Some (lit "Revenue"))) <= 255 /\
  getMetricTitle POP_SUFFIX (Some (lit "Revenue")) = lit "Revenue - previous year".
Proof.
  assert (Hs : title_suffix POP_SUFFIX) by (right; reflexivity).
  destruct (getMetricTitle_bounded POP_SUFFIX (lit "Revenue") Hs) as [Hb He].
  split; [exact Hs|]. split; [exact Hb|].
  apply He. vm_compute. discriminate.
Defined.

(** C7, as worded: the parenthesis would come back in front of the
    ellipsis.  On [long_title] the code puts it behind. *)
Lemma getMetricTitle_paren_counterexample :
  jslength long_title > MAX_TITLE_LENGTH - jslength (lit "") /\
  last long_title = Some rparen /\
  charAt long_title (MAX_TITLE_LENGTH - jslength (lit "") - 2) = Some rparen /\
  getMetricTitle (lit "") (Some long_title) = repeat 97%N 253 ++ [ellipsis; rparen] /\
  getMetricTitle (lit "") (Some long_title)
    <> substring long_title 0 (MAX_TITLE_LENGTH - jslength (lit "") - 2)
         ++ [rparen; ellipsis] ++ lit "".
Proof.
  repeat split; try (vm_compute; congruence).
Qed.

(** C7, amended: a title over the budget whose last character is [")"]
    keeps its first [maxLength - 2] characters, one fewer than a title
    that ends otherwise, followed by the ellipsis, the parenthesis and the
    suffix. *)
Theorem getMetricTitle_trailing_paren (suffix title : jsstring) :
  let maxLength := MAX_TITLE_LENGTH - jslength suffix in
  maxLength < jslength title ->
  last title = Some rparen ->
  getMetricTitle suffix (Some title)
    = substring title 0 (maxLength - 2) ++ [ellipsis; rparen] ++ suffix
  /\ (2 <= maxLength ->
      substring title 0 (maxLength - 2) = firstn (Z.to_nat (maxLength - 2)) title
      /\ jslength (substring title 0 (maxLength - 2)) = maxLength - 2
      /\ jslength (getMetricTitle suffix (Some title)) = MAX_TITLE_LENGTH).
Proof.
  intros maxLength Hgt Hlast.
  assert (Heq : getMetricTitle suffix (Some title)
                = substring title 0 (maxLength - 2) ++ [ellipsis; rparen] ++ suffix).
  { pose proof (getMetricTitle_cases suffix title) as H. cbv zeta in H.
    fold maxLength in H.
    destruct H as [[Hc _] | [(_ & _ & H) | (_ & Hn & _)]].
    - destruct Hc as [Hc | ->]; [lia | discriminate].
    - exact H.
    - contradiction. }
  split; [exact Heq|]. intros H2.
  split; [apply substring_prefix|].
  assert (Hlen : jslength (substring title 0 (maxLength - 2)) = maxLength - 2)
    by (apply jslength_substring_prefix; lia).
  split; [exact Hlen|].
  rewrite Heq, !jslength_app, Hlen. change (jslength [ellipsis; rparen]) with 2.
  unfold maxLength. lia.
Qed.

Lemma getMetricTitle_trailing_paren_witness :
  getMetricTitle POP_SUFFIX (Some long_title)
    = repeat 97%N 237 ++ [ellipsis; rparen] ++ POP_SUFFIX.
Proof.
  destruct (getMetricTitle_trailing_paren POP_SUFFIX long_title) as [H _].
  - vm_compute. reflexivity.
  - vm_compute. reflexivity.
  - rewrite H. vm_compute. reflexivity.
Defined.

(** ** Expression compiler *)

Lemma getFilterExpression_clause (f : AttributeFilter) :
  getFilterExpression f
    = if hasSelectedElements f then Some (filterClause f) else None.
Proof.
  unfold getFilterExpression, hasSelectedElements, notEmpty, filterClause.
  destruct (attributeElements f) as [|e es]; [reflexivity|].
  cbn [isEmpty negb]. destruct (negativeSelection f); reflexivity.
Qed.

Lemma whereClauses_selected (fs : list AttributeFilter) :
  whereClauses fs = map filterClause (List.filter hasSelectedElements fs).
Proof.
  unfold whereClauses. induction fs as [|f fs IH]; [reflexivity|].
  cbn [map omap list_omap List.filter]. rewrite getFilterExpression_clause.
  destruct (hasSelectedElements f); cbn; rewrite <- IH; reflexivity.
Qed.

(** The [WHERE] part lists the filters that select an element, and only
    those. *)
Lemma whereExpression_grammar (fs : list AttributeFilter) :
  whereExpression fs = whereGrammar fs.
Proof.
  unfold whereExpression, whereGrammar. rewrite whereClauses_selected.
  destruct (List.filter hasSelectedElements fs); reflexivity.
Qed.

Lemma filterClause_omitted (f : AttributeFilter) (fs : list AttributeFilter) :
  attributeElements f = [] -> whereGrammar (f :: fs) = whereGrammar fs.
Proof.
  intros He. unfold whereGrammar. cbn [List.filter].
  unfold hasSelectedElements at 1. rewrite He. reflexivity.
Qed.

(** C4: the derived expression is [SELECT <AGG>([<uri>])] with the
    aggregation in upper case when one is given, [SELECT [<uri>]]
    otherwise, followed by [ WHERE <f1> AND <f2> ...] over the filters
    that select an element, each clause in the [IN] or [NOT IN] form with
    bracketed, comma-joined elements; a filter without selected elements
    contributes nothing. *)
Theorem getGeneratedMetricExpression_grammar
    (toUpperCase : jsstring -> jsstring) (item : Measure) :
  (forall s, toUpperCase s = [] <-> s = []) ->
  getGeneratedMetricExpression toUpperCase item
    = lit "SELECT "
        ++ match aggregation item with
           | Some (c :: agg) => toUpperCase (c :: agg) ++ lit "([" ++ objectUri item ++ lit "])"
           | _ => lit "[" ++ objectUri item ++ lit "]"
           end
        ++ whereGrammar (measureFilters item)
  /\ (forall f fs, measureFilters item = f :: fs -> attributeElements f = [] ->
      whereGrammar (measureFilters item) = whereGrammar fs)
  /\ (Forall (fun f => attributeElements f = []) (measureFilters item) ->
      whereGrammar (measureFilters item) = []).
Proof.
  intros Hup. split; [|split].
  - unfold getGeneratedMetricExpression. rewrite whereExpression_grammar.
    f_equal. f_equal.
    assert (Hnil : toUpperCase [] = []) by (apply Hup; reflexivity).
    destruct (aggregation item) as [[|c agg]|]; unfold default, from_option, id.
    + rewrite Hnil. reflexivity.
    + destruct (toUpperCase (c :: agg)) eqn:E; [|reflexivity].
      apply (proj1 (Hup _)) in E. discriminate E.
    + change (lit "") with (@nil N). rewrite Hnil. reflexivity.
  - intros f fs -> He. apply filterClause_omitted, He.
  - intros Hall. unfold whereGrammar.
    replace (List.filter hasSelectedElements (measureFilters item)) with (@nil AttributeFilter);
      [reflexivity|].
    induction Hall as [|f fs Hf _ IH]; [reflexivity|].
    cbn [List.filter]. unfold hasSelectedElements at 1. rewrite Hf. exact IH.
Qed.

Lemma asciiToUpperCase_nil (s : jsstring) : asciiToUpperCase s = [] <-> s = [].
Proof. destruct s; split; intros H; try reflexivity; discriminate. Qed.

Lemma getGeneratedMetricExpression_grammar_witness :
  getGeneratedMetricExpression asciiToUpperCase
    {| objectUri := lit "/gdc/md/p1/obj/7"; mtype := Some (lit "fact");
       aggregation := Some (lit "sum"); title := Some (lit "Amount");
       format := None; sort := None; showPoP := false; showInPercent := false;
       measureFilters :=
         [ {| attribute := Some (lit "/a/1"); displayForm := None;
              negativeSelection := true;
              attributeElements := [lit "/a/1/e?id=1"; lit "/a/1/e?id=2"] |};
           {| attribute := Some (lit "/a/2"); displayForm := None;
              negativeSelection := false; attributeElements := [] |};
           {| attribute := Some (lit "/a/3"); displayForm := None;
              negativeSelection := false; attributeElements := [lit "/a/3/e?id=4"] |} ] |}
  = lit "SELECT SUM([/gdc/md/p1/obj/7]) WHERE [/a/1] NOT IN ([/a/1/e?id=1],[/a/1/e?id=2]) AND [/a/3] IN ([/a/3/e?id=4])".
Proof.
  rewrite (proj1 (getGeneratedMetricExpression_grammar asciiToUpperCase _ asciiToUpperCase_nil)).
  vm_compute. reflexivity.
Defined.

Lemma getGeneratedMetricExpression_omit (toUpperCase : jsstring -> jsstring) (m : Measure) :
  getGeneratedMetricExpression toUpperCase m
    = getGeneratedMetricExpression toUpperCase (omit_measureFilters m)
        ++ whereExpression (measureFilters m).
Proof.
  unfold getGeneratedMetricExpression. cbn [omit_measureFilters aggregation objectUri measureFilters].
  change (whereExpression []) with (@nil N).
  rewrite app_nil_r, <- !app_assoc. reflexivity.
Qed.

(** C3, as worded: the operand of the quotient would always be the
    derived-aggregate expression.  For a calculated measure that carries
    an aggregation the source takes the plain reference instead. *)
Lemma createContributionMetric_inner_counterexample :
  getMetricFactory percent_measure = Some Contribution /\
  (definition <$> createContributionMetric sample_md5 asciiToUpperCase percent_measure percent_buckets 0)
     ≫= fmap expression
    = Some (lit "SELECT (SELECT [/gdc/md/p1/obj/5]) / (SELECT [/gdc/md/p1/obj/5] BY ALL [/gdc/md/p1/obj/9])") /\
  getGeneratedMetricExpression asciiToUpperCase (omit_measureFilters percent_measure)
    = lit "SELECT SUM([/gdc/md/p1/obj/5])" /\
  (definition <$> createContributionMetric sample_md5 asciiToUpperCase percent_measure percent_buckets 0)
     ≫= fmap expression
    <> Some (contributionGrammar
               (getGeneratedMetricExpression asciiToUpperCase (omit_measureFilters percent_measure))
               (whereGrammar (measureFilters percent_measure))
               (tpl (c_attribute region))).
Proof.
  repeat split; try (vm_compute; congruence).
Qed.

Lemma getPercentMetricExpression_grammar
    (toUpperCase : jsstring -> jsstring) (c : Category) (measure : Measure) :
  getPercentMetricExpression toUpperCase (Some c) measure
    = Some (contributionGrammar
              (if isDerived measure
               then getGeneratedMetricExpression toUpperCase (omit_measureFilters measure)
               else lit "SELECT [" ++ objectUri measure ++ lit "]")
              (whereGrammar (measureFilters measure))
              (tpl (c_attribute c))).
Proof.
  unfold getPercentMetricExpression, contributionGrammar. cbn [mbind option_bind].
  rewrite whereExpression_grammar. reflexivity.
Qed.

(** C3, amended: in a bucket whose first category is [c], a contribution
    strategy generates
    [SELECT (<inner><where>) / (<inner> BY ALL [<attribute of c>]<where>)],
    where [<inner>] is the derived-aggregate expression built without its
    [WHERE] clause when the measure is derived and [SELECT [<uri>]]
    otherwise, [<where>] is the measure's [WHERE] clause, the same on both
    sides; the definition's format is ["#,##0.00%"], also on the wrapper
    of the contribution+PoP strategy. *)
Theorem createContributionMetric_grammar
    (md5 toUpperCase toLowerCase : jsstring -> jsstring) (measure : Measure)
    (ms : list Measure) (c : Category) (cs : list Category) (fs : list Filter)
    (measureIndex : nat) :
  let mdObj := {| measures := ms; categories := c :: cs; filters := fs |} in
  let inner :=
    if isDerived measure
    then getGeneratedMetricExpression toUpperCase (omit_measureFilters measure)
    else lit "SELECT [" ++ objectUri measure ++ lit "]" in
  exists d def wrapper wdef,
    createMetric md5 toUpperCase toLowerCase Contribution measure mdObj measureIndex = Some (One d)
    /\ createMetric md5 toUpperCase toLowerCase ContributionPoP measure mdObj measureIndex
         = Some (Many [wrapper; d])
    /\ definition d = Some def
    /\ expression def
         = contributionGrammar inner (whereGrammar (measureFilters measure))
             (tpl (c_attribute c))
    /\ getGeneratedMetricExpression toUpperCase measure
         = getGeneratedMetricExpression toUpperCase (omit_measureFilters measure)
             ++ whereGrammar (measureFilters measure)
    /\ md_format def = Some (lit "#,##0.00%")
    /\ definition wrapper = Some wdef
    /\ md_format wdef = Some (lit "#,##0.00%").
Proof.
  intros mdObj inner.
  unfold createMetric, createContributionPoPMetric, createContributionMetric,
    getGeneratedMetricIdentifier.
  cbn [categories mdObj head].
  rewrite getPercentMetricExpression_grammar. fold inner.
  cbn [fmap option_fmap option_map mbind option_bind].
  eexists _, _, _, _. split; [reflexivity|]. split; [reflexivity|].
  cbn [definition expression md_format].
  split; [reflexivity|]. split; [reflexivity|].
  split; [rewrite <- whereExpression_grammar; apply getGeneratedMetricExpression_omit|].
  split; [reflexivity|]. split; reflexivity.
Qed.

(** ** Identifier generator *)

Lemma split_no_separator (sep : N) (s : jsstring) :
  Forall (fun c => c <> sep) s -> split sep s = [s].
Proof.
  induction 1 as [|c s Hc _ IH]; [reflexivity|].
  cbn [split]. rewrite (proj2 (N.eqb_neq c sep) Hc), IH. reflexivity.
Qed.

Lemma split_segment (sep : N) (s rest : jsstring) :
  Forall (fun c => c <> sep) s -> split sep (s ++ sep :: rest) = s :: split sep rest.
Proof.
  induction 1 as [|c s Hc _ IH]; cbn [split app].
  - rewrite N.eqb_refl. reflexivity.
  - rewrite (proj2 (N.eqb_neq c sep) Hc), IH. reflexivity.
Qed.

(** The segments of an object uri [/gdc/md/<project>/obj/<id>]. *)
Lemma split_objectUri (p id : jsstring) :
  Forall (fun c => c <> 47%N) p -> Forall (fun c => c <> 47%N) id ->
  split 47 (lit "/gdc/md/" ++ p ++ lit "/obj/" ++ id)
    = [lit ""; lit "gdc"; lit "md"; p; lit "obj"; id].
Proof.
  intros Hp Hid.
  change (lit "/gdc/md/" ++ p ++ lit "/obj/" ++ id)
    with (lit "" ++ 47%N :: lit "gdc" ++ 47%N :: lit "md" ++ 47%N :: p ++ lit "/obj/" ++ id).
  rewrite !split_segment by (repeat constructor; discriminate).
  change (lit "/obj/" ++ id) with (47%N :: lit "obj" ++ 47%N :: id).
  rewrite (split_segment 47 p) by exact Hp.
  rewrite split_segment by (repeat constructor; discriminate).
  rewrite split_no_separator by exact Hid. reflexivity.
Qed.

Lemma filtered_prefix (item : Measure) :
  isEmpty (measureFilters item) || allFiltersEmpty item
    = negb (existsb hasSelectedElements (measureFilters item)).
Proof.
  unfold allFiltersEmpty, every, hasSelectedElements, notEmpty.
  destruct (measureFilters item) as [|f fs]; [reflexivity|].
  cbn [isEmpty orb]. generalize (f :: fs). clear. intros l.
  induction l as [|f fs IH]; [reflexivity|].
  cbn [map forallb existsb]. rewrite IH.
  destruct (isEmpty (attributeElements f)); reflexivity.
Qed.

Lemma getGeneratedMetricIdentifier_eq (item : Measure) (aggregation : jsstring)
    (expressionCreator : Measure -> option jsstring) (hasher : jsstring -> jsstring)
    (e : jsstring) :
  expressionCreator item = Some e ->
  getGeneratedMetricIdentifier item aggregation expressionCreator hasher
    = Some (tpl (mtype item) ++ lit "_"
              ++ (tpl (nth_error (split 47 (objectUri item)) 3) ++ lit "_"
                    ++ tpl (nth_error (split 47 (objectUri item)) 5))
              ++ lit ".generated." ++ hasher e
              ++ (if existsb hasSelectedElements (measureFilters item)
                  then lit "_filtered" else lit "")
              ++ lit "_" ++ aggregation).
Proof.
  intros He. unfold getGeneratedMetricIdentifier. rewrite He.
  cbn [fmap option_fmap option_map mbind option_bind].
  rewrite filtered_prefix.
  destruct (existsb hasSelectedElements (measureFilters item)); reflexivity.
Qed.

(** C5: the identifier is a function of the title, the format, the
    expression, the object uri, the type, the aggregation token and the
    filters; it reads
    [<type>_<projectId>_<objectId>.generated.<hash>[_filtered]_<aggregation>],
    the two ids being the fourth and the sixth segment of the object uri
    and [_filtered] standing there exactly when some filter selects an
    element. *)
Theorem getGeneratedMetricIdentifier_shape
    (md5 : jsstring -> jsstring) (item1 item2 : Measure)
    (title : jsstring) (format : option jsstring) (aggregation expression : jsstring)
    (creator1 creator2 : Measure -> option jsstring) :
  creator1 item1 = Some expression ->
  creator2 item2 = Some expression ->
  objectUri item2 = objectUri item1 ->
  mtype item2 = mtype item1 ->
  measureFilters item2 = measureFilters item1 ->
  let hasher := getGeneratedMetricHash md5 title format in
  let filtered :=
    if existsb (fun f => notEmpty (attributeElements f)) (measureFilters item1)
    then lit "_filtered" else lit "" in
  getGeneratedMetricIdentifier item2 aggregation creator2 hasher
    = getGeneratedMetricIdentifier item1 aggregation creator1 hasher
  /\ getGeneratedMetricIdentifier item1 aggregation creator1 hasher
     = Some (tpl (mtype item1) ++ lit "_"
               ++ tpl (nth_error (split 47 (objectUri item1)) 3) ++ lit "_"
               ++ tpl (nth_error (split 47 (objectUri item1)) 5)
               ++ lit ".generated."
               ++ md5 (expression ++ lit "#" ++ title ++ lit "#" ++ tpl format)
               ++ filtered ++ lit "_" ++ aggregation)
  /\ (forall p id,
        Forall (fun c => c <> 47%N) p -> Forall (fun c => c <> 47%N) id ->
        objectUri item1 = lit "/gdc/md/" ++ p ++ lit "/obj/" ++ id ->
        getGeneratedMetricIdentifier item1 aggregation creator1 hasher
        = Some (tpl (mtype item1) ++ lit "_" ++ p ++ lit "_" ++ id
                  ++ lit ".generated."
                  ++ md5 (expression ++ lit "#" ++ title ++ lit "#" ++ tpl format)
                  ++ filtered ++ lit "_" ++ aggregation)).
Proof.
  intros H1 H2 Huri Htype Hfilters hasher filtered.
  rewrite (getGeneratedMetricIdentifier_eq item1 _ _ _ _ H1).
  rewrite (getGeneratedMetricIdentifier_eq item2 _ _ _ _ H2).
  rewrite Huri, Htype, Hfilters. fold hasSelectedElements in filtered. fold filtered.
  split; [reflexivity|]. split.
  - unfold hasher, getGeneratedMetricHash. rewrite <- !app_assoc. reflexivity.
  - intros p id Hp Hid ->. rewrite split_objectUri by assumption.
    unfold hasher, getGeneratedMetricHash. cbn [nth_error tpl].
    rewrite <- !app_assoc. reflexivity.
Qed.

Lemma getGeneratedMetricIdentifier_shape_witness :
  getGeneratedMetricIdentifier
    {| objectUri := lit "/gdc/md/p1/obj/5"; mtype := Some (lit "fact");
       aggregation := Some (lit "sum"); title := Some (lit "Amount");
       format := Some (lit "#,##0"); sort := None; showPoP := false;
       showInPercent := false; measureFilters := [] |}
    (lit "sum")
    (fun m => Some (getGeneratedMetricExpression asciiToUpperCase m))
    (getGeneratedMetricHash sample_md5 (lit "Amount") (Some (lit "#,##0")))
  = Some (lit "fact_p1_5.generated.md5:SELECT SUM([/gdc/md/p1/obj/5])#Amount##,##0_sum").
Proof.
  pose (m := {| objectUri := lit "/gdc/md/p1/obj/5"; mtype := Some (lit "fact");
       aggregation := Some (lit "sum"); title := Some (lit "Amount");
       format := Some (lit "#,##0"); sort := None; showPoP := false;
       showInPercent := false; measureFilters := [] |}).
  destruct (getGeneratedMetricIdentifier_shape sample_md5 m m (lit "Amount")
              (Some (lit "#,##0")) (lit "sum")
              (getGeneratedMetricExpression asciiToUpperCase m)
              (fun m => Some (getGeneratedMetricExpression asciiToUpperCase m))
              (fun m => Some (getGeneratedMetricExpression asciiToUpperCase m))
              eq_refl eq_refl eq_refl eq_refl eq_refl) as (_ & _ & H).
  etransitivity.
  - apply (H (lit "p1") (lit "5")).
    + repeat constructor; discriminate.
    + repeat constructor; discriminate.
    + reflexivity.
  - vm_compute. reflexivity.
Defined.

(** ** Rule dispatcher *)

Lemma find_first {A} (P : A -> bool) (l : list A) (x : A) :
  find P l = Some x
  <-> exists i, l !! i = Some x /\ P x = true
        /\ forall j y, (j < i)%nat -> l !! j = Some y -> P y = false.
Proof.
  induction l as [|a l IH]; cbn [find].
  - split; [discriminate|]. intros (i & Hi & _). destruct i; discriminate.
  - destruct (P a) eqn:Ha.
    + split.
      * intros [= <-]. exists 0%nat. repeat split; auto. intros j y Hj. lia.
      * intros ([|i] & Hi & Hx & Hfirst).
        -- cbn in Hi. congruence.
        -- specialize (Hfirst 0%nat a (Nat.lt_0_succ i) eq_refl). congruence.
    + rewrite IH. split.
      * intros (i & Hi & Hx & Hfirst). exists (S i). repeat split; auto.
        intros [|j] y Hj Hy; [cbn in Hy; congruence|].
        apply (Hfirst j); [lia | exact Hy].
      * intros ([|i] & Hi & Hx & Hfirst).
        -- cbn in Hi. congruence.
        -- exists i. repeat split; auto. intros j y Hj Hy.
           apply (Hfirst (S j)); [lia | exact Hy].
Qed.

(** A rule table answers with the callback of the first rule all of whose
    tests hold. *)
Lemma match_first {A B} (table : list (Rules.rule A B)) (subject : A) (b : B) :
  Rules.match_ table subject = Some b
  <-> exists i r, table !! i = Some r /\ Rules.callback r = b
        /\ Rules.holds subject r = true
        /\ forall j r', (j < i)%nat -> table !! j = Some r' -> Rules.holds subject r' = false.
Proof.
  unfold Rules.match_. split.
  - destruct (find (Rules.holds subject) table) as [r|] eqn:Hf; [|discriminate].
    intros [= <-]. apply find_first in Hf as (i & Hi & Hr & Hfirst).
    exists i, r. auto.
  - intros (i & r & Hi & <- & Hr & Hfirst).
    assert (Hf : find (Rules.holds subject) table = Some r)
      by (apply find_first; exists i; auto).
    rewrite Hf. reflexivity.
Qed.

Lemma getMetricFactory_eq (measure : Measure) :
  getMetricFactory measure
    = if isPoP measure && isContribution measure then Some ContributionPoP
      else if isPoP measure then Some PoP
      else if isContribution measure then Some Contribution
      else if isDerived measure then Some Derived
      else if isCalculatedMeasure measure then Some Pure
      else None.
Proof.
  unfold getMetricFactory, Rules.match_, rules, Rules.addRule.
  cbn [app find Rules.holds Rules.tests forallb].
  destruct (isPoP measure), (isContribution measure), (isDerived measure),
    (isCalculatedMeasure measure); reflexivity.
Qed.

Lemma recognized_derived_or_calculated (measure : Measure) :
  recognized measure -> isDerived measure = false -> isCalculatedMeasure measure = true.
Proof.
  unfold recognized, isDerived, isCalculatedMeasure, type_is.
  intros [H | [H | H]] Hd; rewrite H in *.
  - rewrite bool_decide_eq_true_2 in Hd by reflexivity. discriminate.
  - rewrite (bool_decide_eq_true_2 (Some (lit "attribute") = Some (lit "attribute")))
      in Hd by reflexivity.
    rewrite orb_true_r in Hd. discriminate.
  - apply bool_decide_eq_true_2. reflexivity.
Qed.

(** Several pairs can hold for one measure; the first of them decides. *)
Lemma rules_overlap :
  map Rules.callback
    (List.filter (Rules.holds
                    {| objectUri := lit "/gdc/md/p1/obj/5"; mtype := Some (lit "metric");
                       aggregation := None; title := Some (lit "Revenue");
                       format := Some (lit "#,##0"); sort := None;
                       showPoP := true; showInPercent := true; measureFilters := [] |})
       rules)
    = [ContributionPoP; PoP; Contribution; Pure].
Proof. reflexivity. Qed.

(** C1: the table holds the five pairs in the order (isPoP and
    isContribution), (isPoP), (isContribution), (isDerived),
    (isCalculatedMeasure); for a measure of a recognized type dispatch
    returns exactly one strategy, that of the first pair all of whose
    predicates hold, and measures with the same flags get the same one. *)
Theorem getMetricFactory_dispatch (measure : Measure) :
  recognized measure ->
  map (fun r => (map (fun test => test measure) (Rules.tests r), Rules.callback r)) rules
    = [ ([isPoP measure; isContribution measure], ContributionPoP);
        ([isPoP measure], PoP);
        ([isContribution measure], Contribution);
        ([isDerived measure], Derived);
        ([isCalculatedMeasure measure], Pure) ]
  /\ (exists factory, getMetricFactory measure = Some factory
        /\ forall factory', getMetricFactory measure = Some factory' -> factory' = factory)
  /\ (forall factory, getMetricFactory measure = Some factory
        <-> exists i r, rules !! i = Some r /\ Rules.callback r = factory
              /\ Rules.holds measure r = true
              /\ forall j r', (j < i)%nat -> rules !! j = Some r' ->
                   Rules.holds measure r' = false)
  /\ getMetricFactory measure
       = Some (if isPoP measure && isContribution measure then ContributionPoP
               else if isPoP measure then PoP
               else if isContribution measure then Contribution
               else if isDerived measure then Derived
               else Pure)
  /\ (forall other,
        showPoP other = showPoP measure ->
        showInPercent other = showInPercent measure ->
        mtype other = mtype measure ->
        allFiltersEmpty other = allFiltersEmpty measure ->
        getMetricFactory other = getMetricFactory measure).
Proof.
  intros Hrec.
  assert (Heq : getMetricFactory measure
                = Some (if isPoP measure && isContribution measure then ContributionPoP
                        else if isPoP measure then PoP
                        else if isContribution measure then Contribution
                        else if isDerived measure then Derived
                        else Pure)).
  { rewrite getMetricFactory_eq.
    destruct (isPoP measure), (isContribution measure); cbn [andb]; try reflexivity.
    destruct (isDerived measure) eqn:Hd; [reflexivity|].
    rewrite (recognized_derived_or_calculated measure Hrec Hd). reflexivity. }
  split; [reflexivity|]. split.
  { eexists. split; [exact Heq|]. intros f Hf. rewrite Heq in Hf. congruence. }
  split; [intros factory; apply match_first|]. split; [exact Heq|].
  intros other Hp Hc Ht Hf. rewrite !getMetricFactory_eq.
  unfold isPoP, isContribution, isDerived, isCalculatedMeasure, type_is.
  rewrite Hp, Hc, Ht, Hf. reflexivity.
Qed.

Lemma getMetricFactory_dispatch_witness :
  recognized percent_measure /\ getMetricFactory percent_measure = Some Contribution.
Proof.
  assert (Hrec : recognized percent_measure) by (right; right; reflexivity).
  split; [exact Hrec|].
  destruct (getMetricFactory_dispatch percent_measure Hrec) as (_ & _ & _ & H & _).
  rewrite H. reflexivity.
Defined.

(** ** Metric strategies *)

(** ** Assembler *)

Lemma compact_first (pre rest : list (option jsstring)) (e : jsstring) :
  Forall (fun x => truthy_opt x = false) pre -> e <> [] ->
  head (compact (pre ++ Some e :: rest)) = Some e.
Proof.
  intros Hpre He. unfold compact.
  induction Hpre as [|x pre Hx _ IH]; cbn [app omap list_omap].
  - destruct e; [contradiction | reflexivity].
  - rewrite Hx. exact IH.
Qed.

Lemma getOrderBy_bar (metrics categories : list Item) :
  metrics <> [] ->
  getOrderBy metrics categories (Some (lit "bar"))
    = [ {| column := head (compact (map element metrics));
           direction := Some (lit "desc") |} ].
Proof.
  intros Hm. unfold getOrderBy. rewrite bool_decide_eq_true_2 by reflexivity.
  destruct metrics; [contradiction | reflexivity].
Qed.

(** The second end-to-end example of section 8: [showPoP] next to a date
    category gives the PoP metric and the plain reference, both for
    measure 0. *)
Lemma mdToExecutionConfiguration_revenue_pop
    (md5 toUpperCase toLowerCase : jsstring -> jsstring)
    (sortDefinitions : list MetricDefinition -> list MetricDefinition) :
  let expression := lit "SELECT [/gdc/md/p1/obj/5] FOR PREVIOUS ([/gdc/md/p1/obj/20])" in
  let identifier :=
    lit "metric_p1_5.generated."
      ++ md5 (expression ++ lit "#Revenue - previous year##,##0") ++ lit "_pop" in
  exists cfg,
    mdToExecutionConfiguration md5 toUpperCase toLowerCase sortDefinitions
      {| buckets := revenue_pop_buckets; vis_type := None |} false = Some cfg
    /\ columns cfg = compact [Some (lit "/gdc/md/p1/obj/21"); Some identifier;
                              Some (lit "/gdc/md/p1/obj/5")]
    /\ definitions cfg
         = sortDefinitions [ {| identifier := identifier; expression := expression;
                                md_title := lit "Revenue - previous year";
                                md_format := Some (lit "#,##0") |} ]
    /\ metricMappings cfg
         = [ {| mapping_element := Some identifier; mapping_measureIndex := Some 0%nat;
                mapping_isPoP := Some true |};
             {| mapping_element := Some (lit "/gdc/md/p1/obj/5");
                mapping_measureIndex := Some 0%nat; mapping_isPoP := None |} ].
Proof.
  intros expression identifier. eexists. split; [reflexivity|].
  cbn [columns definitions metricMappings]. repeat split; reflexivity.
Qed.

(** C9, as worded: the [where] object would have no entry.  The single
    column makes the assembler call [getWhere], which always writes the
    [$and] entry. *)
Lemma mdToExecutionConfiguration_where_counterexample :
  exists cfg,
    mdToExecutionConfiguration sample_md5 asciiToUpperCase asciiToLowerCase keepDefinitions
      {| buckets := revenue_buckets; vis_type := None |} false = Some cfg
    /\ columns cfg = [lit "/gdc/md/p1/obj/5"]
    /\ definitions cfg = []
    /\ where_ cfg !! lit "$and" = Some (And [])
    /\ where_ cfg <> ∅.
Proof.
  eexists. split; [reflexivity|].
  assert (Hand : where_ (Build_ExecutionConfiguration
                          [lit "/gdc/md/p1/obj/5"] [] []
                          (getWhere []) []) !! lit "$and" = Some (And []))
    by (vm_compute; reflexivity).
  split; [reflexivity|]. split; [reflexivity|]. split; [exact Hand|].
  intros Hempty. cbn [where_] in Hand.
  change (getWhere [] = ∅) in Hempty. rewrite Hempty, lookup_empty in Hand.
  discriminate Hand.
Qed.

(** C9, amended: the bucket with the single measure [revenue] compiles to
    one column, the measure's object uri, to no definition, and to a
    [where] object whose only entry is [$and] with an empty list of
    clauses. *)
Theorem mdToExecutionConfiguration_revenue
    (md5 toUpperCase toLowerCase : jsstring -> jsstring)
    (sortDefinitions : list MetricDefinition -> list MetricDefinition)
    (type : option jsstring) (removeDateItems : bool) :
  sortDefinitions [] = [] ->
  exists cfg,
    mdToExecutionConfiguration md5 toUpperCase toLowerCase sortDefinitions
      {| buckets := revenue_buckets; vis_type := type |} removeDateItems = Some cfg
    /\ columns cfg = [objectUri revenue]
    /\ objectUri revenue = lit "/gdc/md/p1/obj/5"
    /\ definitions cfg = []
    /\ where_ cfg = {[ lit "$and" := And [] ]}
    /\ dom (where_ cfg) = {[ lit "$and" ]}.
Proof.
  intros Hsort.
  assert (Hcfg : mdToExecutionConfiguration md5 toUpperCase toLowerCase sortDefinitions
                   {| buckets := revenue_buckets; vis_type := type |} removeDateItems
                 = Some {| columns := [objectUri revenue];
                           orderBy := getOrderBy [createPureMetric revenue revenue_buckets 0] []
                                        type;
                           definitions := sortDefinitions [];
                           where_ := getWhere [];
                           metricMappings :=
                             [toMetricMapping (createPureMetric revenue revenue_buckets 0)] |}).
  { unfold mdToExecutionConfiguration. destruct removeDateItems; reflexivity. }
  eexists. split; [exact Hcfg|]. cbn [columns definitions where_].
  split; [reflexivity|]. split; [reflexivity|]. split; [exact Hsort|].
  assert (Hw : getWhere [] = {[ lit "$and" := And [] ]}) by reflexivity.
  rewrite Hw. split; [reflexivity|]. apply dom_singleton_L.
Qed.

Lemma mdToExecutionConfiguration_revenue_witness :
  exists cfg,
    mdToExecutionConfiguration sample_md5 asciiToUpperCase asciiToLowerCase keepDefinitions
      {| buckets := revenue_buckets; vis_type := None |} false = Some cfg
    /\ columns cfg = [lit "/gdc/md/p1/obj/5"]
    /\ definitions cfg = []
    /\ where_ cfg = {[ lit "$and" := And [] ]}.
Proof.
  destruct (mdToExecutionConfiguration_revenue sample_md5 asciiToUpperCase asciiToLowerCase
              keepDefinitions None false eq_refl)
    as (cfg & Hcfg & Hcols & _ & Hdefs & Hwhere & _).
  exists cfg. auto.
Defined.

(** ** The store of [getDataForVis] *)

Lemma alloc_fresh (o : Obj) (h : store) (l : loc) (h' : store) :
  alloc o h = (l, h') -> (l ∉ dom h) /\ h' = <[l := o]> h /\ h ⊆ h'.
Proof.
  unfold alloc. intros [= <- <-].
  assert (Hfresh : fresh (dom h) ∉ dom h) by apply is_fresh.
  split; [exact Hfresh|]. split; [reflexivity|].
  apply insert_subseteq, not_elem_of_dom, Hfresh.
Qed.

Lemma read_measure_weaken (h h' : store) (ml : loc) (m : Measure) :
  h ⊆ h' -> read_measure h ml = Some m -> read_measure h' ml = Some m.
Proof.
  unfold read_measure. intros Hsub Hr.
  destruct (h !! ml) as [o|] eqn:Hl; [|discriminate].
  rewrite (lookup_weaken _ _ _ _ Hl Hsub). exact Hr.
Qed.

Lemma read_measure_lookup (h : store) (ml : loc) (m : Measure) :
  read_measure h ml = Some m <-> h !! ml = Some (OMeasure m).
Proof.
  unfold read_measure. split.
  - destruct (h !! ml) as [[]|]; congruence.
  - intros ->. reflexivity.
Qed.

Lemma unwrap_lookup (h : store) (w ml : loc) :
  unwrap h w = Some ml <-> h !! w = Some (OWrapper ml).
Proof.
  unfold unwrap. split.
  - destruct (h !! w) as [[]|]; congruence.
  - intros ->. reflexivity.
Qed.

Lemma originalMetricFormat_resolves (xhrGet : jsstring -> option ServerObject) (h : store) (ml : loc) :
  lookupResolves xhrGet h ml ->
  exists ml' h1,
    originalMetricFormat xhrGet ml h = Some (ml', h1)
    /\ h ⊆ h1 /\ formatResolved xhrGet h h1 ml ml'.
Proof.
  intros (m & Hm & Hx). unfold originalMetricFormat. rewrite Hm. cbn [mbind option_bind].
  destruct (needsRoundtrip m) eqn:Hn.
  - destruct (Hx eq_refl) as [obj Hobj]. rewrite Hobj. cbn [mbind option_bind].
    destruct (alloc (OMeasure (with_format m (resolvedFormat obj m))) h) as [l h1] eqn:Ha.
    apply alloc_fresh in Ha as (Hl & -> & Hsub).
    eexists _, _. split; [reflexivity|]. split; [exact Hsub|].
    exists m. rewrite Hn. split; [exact Hm|]. split; [exact Hl|].
    exists obj. split; [exact Hobj|]. apply lookup_insert_eq.
  - eexists _, _. split; [reflexivity|]. split; [reflexivity|].
    exists m. rewrite Hn. auto.
Qed.

Lemma lookupResolves_weaken (xhrGet : jsstring -> option ServerObject) (h h' : store) (ml : loc) :
  h ⊆ h' -> lookupResolves xhrGet h ml -> lookupResolves xhrGet h' ml.
Proof.
  intros Hsub (m & Hm & Hx). exists m. split; [|exact Hx].
  eapply read_measure_weaken; eauto.
Qed.

Lemma formatResolved_weaken (xhrGet : jsstring -> option ServerObject) (h0 h h1 h2 : store) (ml ml' : loc) :
  h0 ⊆ h -> h1 ⊆ h2 -> lookupResolves xhrGet h0 ml ->
  formatResolved xhrGet h h1 ml ml' -> formatResolved xhrGet h0 h2 ml ml'.
Proof.
  intros H0 H12 (m0 & Hm0 & _) (m & Hm & Hr).
  assert (m = m0) as ->.
  { apply (read_measure_weaken _ _ _ _ H0) in Hm0. congruence. }
  exists m0. split; [exact Hm0|].
  destruct (needsRoundtrip m0); [|exact Hr].
  destruct Hr as (Hfresh & obj & Hobj & Hl).
  split.
  - intros Hin. apply Hfresh. eapply subseteq_dom in H0. apply H0, Hin.
  - exists obj. split; [exact Hobj|]. eapply lookup_weaken; eauto.
Qed.

Lemma allMetricFormats_resolves (xhrGet : jsstring -> option ServerObject) (mls : list loc) (h : store) :
  Forall (lookupResolves xhrGet h) mls ->
  exists mls' h1,
    allMetricFormats xhrGet mls h = Some (mls', h1)
    /\ h ⊆ h1 /\ Forall2 (formatResolved xhrGet h h1) mls mls'.
Proof.
  revert h. induction mls as [|ml mls IH]; intros h Hall.
  - exists [], h. repeat split; [reflexivity | constructor].
  - inversion Hall as [|? ? Hml Hrest]; subst.
    destruct (originalMetricFormat_resolves xhrGet h ml Hml) as (ml' & hm & Ho & Hsub & Hres).
    destruct (IH hm) as (mls' & h1 & Hr & Hsub1 & Hall2).
    { eapply Forall_impl; [exact Hrest|]. intros x. apply lookupResolves_weaken, Hsub. }
    exists (ml' :: mls'), h1. cbn [allMetricFormats]. rewrite Ho. cbn [mbind option_bind].
    rewrite Hr. cbn [mbind option_bind]. split; [reflexivity|].
    split; [etransitivity; eauto|].
    constructor.
    + eapply formatResolved_weaken; [reflexivity | exact Hsub1 | exact Hml | exact Hres].
    + clear -Hall2 Hrest Hsub. induction Hall2; inversion Hrest; subst; constructor; auto.
      eapply formatResolved_weaken; [exact Hsub | reflexivity | eassumption | eassumption].
Qed.

Lemma wrapMeasures_fresh (mls : list loc) (h : store) (ws : list loc) (h' : store) :
  wrapMeasures mls h = (ws, h') ->
  h ⊆ h'
  /\ Forall (fun w => w ∉ dom h) ws
  /\ Forall2 (fun w ml => h' !! w = Some (OWrapper ml)) ws mls.
Proof.
  revert h ws h'. induction mls as [|ml mls IH]; intros h ws h' Hw; cbn [wrapMeasures] in Hw.
  - injection Hw as <- <-. repeat split; [reflexivity | constructor | constructor].
  - destruct (alloc (OWrapper ml) h) as [w h1] eqn:Ha.
    destruct (wrapMeasures mls h1) as [ws1 h2] eqn:Hrest.
    injection Hw as <- <-.
    apply alloc_fresh in Ha as (Hw & -> & Hsub).
    destruct (IH _ _ _ Hrest) as (Hsub2 & Hfresh & Hall).
    split; [etransitivity; eauto|]. split.
    + constructor; [exact Hw|].
      eapply Forall_impl; [exact Hfresh|]. intros x Hx Hin. apply Hx.
      apply (subseteq_dom _ _ Hsub), Hin.
    + constructor; [|exact Hall].
      eapply lookup_weaken; [apply lookup_insert_eq | exact Hsub2].
Qed.


Lemma mapM_Forall2 {A B} (f : A -> option B) (l : list A) (k : list B) :
  Forall2 (fun x y => f x = Some y) l k -> mapM f l = Some k.
Proof.
  induction 1 as [|x y l k Hxy _ IH]; [reflexivity|].
  cbn. rewrite Hxy. cbn. rewrite IH. reflexivity.
Qed.

Lemma read_mdObj_graph (h : store) (mdObj b arr : loc) (type : option jsstring)
    (cats : list Category) (fs : list Filter) (ws mls : list loc) (ms : list Measure) :
  h !! mdObj = Some (OMdObj b type) ->
  h !! b = Some (OBuckets arr cats fs) ->
  h !! arr = Some (OArray ws) ->
  Forall2 (fun w ml => h !! w = Some (OWrapper ml)) ws mls ->
  Forall2 (fun ml m => read_measure h ml = Some m) mls ms ->
  read_mdObj h mdObj
    = Some {| buckets := {| measures := ms; categories := cats; filters := fs |};
              vis_type := type |}.
Proof.
  intros Hmd Hb Harr Hws Hms. unfold read_mdObj, read_wrappers, read_buckets.
  rewrite Hmd, Hb. cbn [mbind option_bind]. rewrite Harr. cbn [mbind option_bind].
  rewrite (mapM_Forall2 _ ws ms); [reflexivity|].
  clear -Hws Hms. revert ms Hms.
  induction Hws as [|w ml ws mls Hw _ IH]; intros ms Hms; inversion Hms; subst; constructor.
  - unfold unwrap. rewrite Hw. cbn [mbind option_bind]. assumption.
  - apply IH. assumption.
Qed.

Lemma formatResolved_readable (xhrGet : jsstring -> option ServerObject) (h h' : store) (b : loc) (mls mls' : list loc) :
  (forall l, l ∈ dom h -> l <> b -> h' !! l = h !! l) ->
  (forall m, h !! b <> Some (OMeasure m)) ->
  Forall2 (formatResolved xhrGet h h') mls mls' ->
  exists ms', Forall2 (fun ml' m' => read_measure h' ml' = Some m') mls' ms'.
Proof.
  intros Hframe Hb. induction 1 as [|ml ml' mls mls' (m & Hm & Hr) _ [ms' IH]].
  - exists []. constructor.
  - destruct (needsRoundtrip m).
    + destruct Hr as (_ & obj & _ & Hl).
      eexists (_ :: ms'). constructor; [|exact IH].
      apply read_measure_lookup. exact Hl.
    + subst ml'. exists (m :: ms'). constructor; [|exact IH].
      apply read_measure_lookup in Hm. apply read_measure_lookup.
      rewrite Hframe; [exact Hm | apply elem_of_dom; eauto |].
      intros ->. apply (Hb m), Hm.
Qed.

(** When a format lookup is rejected, the callback of [then] does not
    run: the store is unchanged and nothing is compiled. *)
Lemma getDataForVis_rejected
    (md5 toUpperCase toLowerCase : jsstring -> jsstring)
    (sortDefinitions : list MetricDefinition -> list MetricDefinition)
    (xhrGet : jsstring -> option ServerObject) (mdObj : loc) (h : store) :
  getOriginalMetricFormats xhrGet mdObj h = None ->
  getDataForVis md5 toUpperCase toLowerCase sortDefinitions xhrGet mdObj h
    = (h, FormatLookupFailed).
Proof. intros Hr. unfold getDataForVis. rewrite Hr. reflexivity. Qed.

(** * Further properties of the compiler *)

(** ** Title truncator, continued *)

(** X2: building a base title is idempotent: a title that was built
    already comes back unchanged. *)
Theorem getBaseMetricTitle_idempotent (title : jsstring) :
  getBaseMetricTitle (Some (getBaseMetricTitle (Some title)))
    = getBaseMetricTitle (Some title).
Proof.
  unfold getBaseMetricTitle.
  assert (Hlen : jslength (getMetricTitle (lit "") (Some title)) <= 255)
    by (apply getMetricTitle_length; vm_compute; discriminate).
  rewrite (getMetricTitle_short (lit "") (getMetricTitle (lit "") (Some title))).
  - apply app_nil_r.
  - change (jslength (lit "")) with 0. unfold MAX_TITLE_LENGTH. lia.
Qed.

(** ** Metric strategies, continued *)

Lemma getGeneratedMetricIdentifier_nonempty (item : Measure) (aggregation : jsstring)
    (creator : Measure -> option jsstring) (hasher : jsstring -> jsstring) (id : jsstring) :
  getGeneratedMetricIdentifier item aggregation creator hasher = Some id -> id <> [].
Proof.
  unfold getGeneratedMetricIdentifier.
  destruct (creator item) as [e|]; [|discriminate].
  cbn [fmap option_fmap option_map mbind option_bind]. intros [= <-].
  destruct (tpl (mtype item)); discriminate.
Qed.

Lemma getGeneratedMetricIdentifier_total (item : Measure) (aggregation e : jsstring)
    (creator : Measure -> option jsstring) (hasher : jsstring -> jsstring) :
  creator item = Some e ->
  exists id, getGeneratedMetricIdentifier item aggregation creator hasher = Some id
             /\ id <> [].
Proof.
  intros He. rewrite (getGeneratedMetricIdentifier_eq item aggregation creator hasher e He).
  eexists. split; [reflexivity|]. destruct (tpl (mtype item)); discriminate.
Qed.

(** The descriptor of a generated metric. *)
Lemma createDerivedMetric_eq (md5 toUpperCase toLowerCase : jsstring -> jsstring)
    (measure : Measure) (mdObj : Buckets) (measureIndex : nat) :
  exists id,
    id <> []
    /\ createDerivedMetric md5 toUpperCase toLowerCase measure mdObj measureIndex
       = Some {| element := Some id;
                 item_sort := getMetricSort (sort measure) false;
                 definition :=
                   Some {| identifier := id;
                           expression := getGeneratedMetricExpression toUpperCase measure;
                           md_title := getBaseMetricTitle (title measure);
                           md_format := format measure |};
                 meta := Some {| measureIndex := measureIndex; isPoPFlag := None |} |}.
Proof.
  unfold createDerivedMetric.
  destruct (getGeneratedMetricIdentifier_total measure
              (toLowerCase (default (lit "base") (aggregation measure)))
              (getGeneratedMetricExpression toUpperCase measure)
              (fun m => Some (getGeneratedMetricExpression toUpperCase m))
              (getGeneratedMetricHash md5 (getBaseMetricTitle (title measure)) (format measure))
              eq_refl) as (id & Hid & Hne).
  rewrite Hid. cbn [mbind option_bind]. exists id. split; [exact Hne | reflexivity].
Qed.

Lemma createContributionMetric_eq (md5 toUpperCase : jsstring -> jsstring)
    (measure : Measure) (mdObj : Buckets) (measureIndex : nat)
    (c : Category) (cs : list Category) :
  categories mdObj = c :: cs ->
  exists id e,
    id <> []
    /\ getPercentMetricExpression toUpperCase (Some c) measure = Some e
    /\ createContributionMetric md5 toUpperCase measure mdObj measureIndex
       = Some {| element := Some id;
                 item_sort := getMetricSort (sort measure) false;
                 definition :=
                   Some {| identifier := id;
                           expression := e;
                           md_title := getBaseMetricTitle (title measure);
                           md_format := Some CONTRIBUTION_METRIC_FORMAT |};
                 meta := Some {| measureIndex := measureIndex; isPoPFlag := None |} |}.
Proof.
  intros Hc. unfold createContributionMetric. rewrite Hc. cbn [head].
  pose proof (getPercentMetricExpression_grammar toUpperCase c measure) as He.
  destruct (getGeneratedMetricIdentifier_total measure (lit "percent") _
              (getPercentMetricExpression toUpperCase (Some c))
              (getGeneratedMetricHash md5 (getBaseMetricTitle (title measure))
                 (Some CONTRIBUTION_METRIC_FORMAT)) He) as (id & Hid & Hne).
  rewrite Hid, He. cbn [mbind option_bind]. eexists id, _.
  split; [exact Hne|]. split; reflexivity.
Qed.

Lemma createContributionMetric_no_category (md5 toUpperCase : jsstring -> jsstring)
    (measure : Measure) (mdObj : Buckets) (measureIndex : nat) :
  categories mdObj = [] ->
  createContributionMetric md5 toUpperCase measure mdObj measureIndex = None.
Proof.
  intros Hc. unfold createContributionMetric, getGeneratedMetricIdentifier.
  rewrite Hc. reflexivity.
Qed.

Lemma createPoPMetric_eq (md5 toUpperCase toLowerCase : jsstring -> jsstring)
    (measure : Measure) (mdObj : Buckets) (measureIndex : nat) :
  exists id base,
    id <> []
    /\ createMetric md5 toUpperCase toLowerCase
         (if isDerived measure then Derived else Pure) measure mdObj measureIndex
       = Some (One base)
    /\ createPoPMetric md5 toUpperCase toLowerCase measure mdObj measureIndex
       = Some [ popWrapper id
                  (match definition base with
                   | Some def => lit "(" ++ expression def ++ lit ")"
                   | None => lit "[" ++ objectUri measure ++ lit "]"
                   end)
                  (getDate mdObj) (title measure) (format measure) (sort measure)
                  measureIndex;
                base ].
Proof.
  unfold createPoPMetric. destruct (isDerived measure).
  - destruct (createDerivedMetric_eq md5 toUpperCase toLowerCase measure mdObj measureIndex)
      as (did & _ & Hd).
    cbn [createMetric]. rewrite Hd. cbn [fmap option_fmap option_map mbind option_bind].
    cbn [generated_expression definition fmap option_fmap option_map expression tpl].
    match goal with
    | |- context [getGeneratedMetricIdentifier ?m ?a ?c ?h] =>
        destruct (getGeneratedMetricIdentifier_total m a _ c h eq_refl) as (id & Hid & Hne)
    end.
    rewrite Hid. cbn [mbind option_bind app]. eexists id, _.
    split; [exact Hne|]. split; reflexivity.
  - cbn [createMetric fmap option_fmap option_map mbind option_bind].
    match goal with
    | |- context [getGeneratedMetricIdentifier ?m ?a ?c ?h] =>
        destruct (getGeneratedMetricIdentifier_total m a _ c h eq_refl) as (id & Hid & Hne)
    end.
    rewrite Hid. cbn [mbind option_bind app]. eexists id, _.
    split; [exact Hne|]. split; reflexivity.
Qed.

Lemma createContributionPoPMetric_eq (md5 toUpperCase : jsstring -> jsstring)
    (measure : Measure) (mdObj : Buckets) (measureIndex : nat)
    (c : Category) (cs : list Category) :
  categories mdObj = c :: cs ->
  exists id base def,
    id <> []
    /\ createContributionMetric md5 toUpperCase measure mdObj measureIndex = Some base
    /\ definition base = Some def
    /\ createContributionPoPMetric md5 toUpperCase measure mdObj measureIndex
       = Some [ popWrapper id (lit "(" ++ expression def ++ lit ")")
                  (getDate mdObj) (title measure) (Some CONTRIBUTION_METRIC_FORMAT)
                  (sort measure) measureIndex;
                base ].
Proof.
  intros Hc. unfold createContributionPoPMetric.
  destruct (createContributionMetric_eq md5 toUpperCase measure mdObj measureIndex c cs Hc)
    as (cid & e & _ & _ & Hbase).
  rewrite Hbase. cbn [mbind option_bind].
  cbn [generated_expression definition fmap option_fmap option_map expression tpl].
  match goal with
  | |- context [getGeneratedMetricIdentifier ?m ?a ?c ?h] =>
      destruct (getGeneratedMetricIdentifier_total m a _ c h eq_refl) as (id & Hid & Hne)
  end.
  rewrite Hid. cbn [mbind option_bind app]. eexists id, _, _.
  split; [exact Hne|]. split; [reflexivity|]. split; reflexivity.
Qed.

Lemma createMetric_inv (md5 toUpperCase toLowerCase : jsstring -> jsstring)
    (factory : Strategy) (measure : Measure) (mdObj : Buckets) (measureIndex : nat)
    (p : Produced) :
  createMetric md5 toUpperCase toLowerCase factory measure mdObj measureIndex = Some p ->
  exists base,
    baseDescriptor measure measureIndex base
    /\ if isPoPStrategy factory
       then exists id format,
              id <> []
              /\ p = Many [ popWrapper id
                              (match definition base with
                               | Some def => lit "(" ++ expression def ++ lit ")"
                               | None => lit "[" ++ objectUri measure ++ lit "]"
                               end)
                              (getDate mdObj) (title measure) format (sort measure)
                              measureIndex;
                            base ]
       else p = One base.
Proof.
  destruct factory; cbn [createMetric isPoPStrategy].
  - destruct (categories mdObj) as [|c cs] eqn:Hc.
    { unfold createContributionPoPMetric.
      rewrite createContributionMetric_no_category by exact Hc. discriminate. }
    destruct (createContributionPoPMetric_eq md5 toUpperCase measure mdObj measureIndex c cs Hc)
      as (id & base & def & Hne & Hbase & Hdef & ->).
    destruct (createContributionMetric_eq md5 toUpperCase measure mdObj measureIndex c cs Hc)
      as (cid & e & Hcne & _ & Hbase').
    intros [= <-]. exists base. split.
    + rewrite Hbase' in Hbase. injection Hbase as <-. repeat split; auto.
    + exists id, (Some CONTRIBUTION_METRIC_FORMAT). rewrite Hdef. auto.
  - destruct (createPoPMetric_eq md5 toUpperCase toLowerCase measure mdObj measureIndex)
      as (id & base & Hne & Hbase & ->).
    intros [= <-]. exists base. split.
    + destruct (isDerived measure); cbn [createMetric] in Hbase.
      * destruct (createDerivedMetric_eq md5 toUpperCase toLowerCase measure mdObj
                    measureIndex) as (did & Hdne & Hd).
        rewrite Hd in Hbase. injection Hbase as <-. repeat split; auto.
      * injection Hbase as <-. repeat split; auto.
    + exists id, (format measure). auto.
  - destruct (categories mdObj) as [|c cs] eqn:Hc.
    { rewrite createContributionMetric_no_category by exact Hc. discriminate. }
    destruct (createContributionMetric_eq md5 toUpperCase measure mdObj measureIndex c cs Hc)
      as (cid & e & Hcne & _ & ->).
    intros [= <-]. eexists. split; [|reflexivity]. repeat split; auto.
  - destruct (createDerivedMetric_eq md5 toUpperCase toLowerCase measure mdObj measureIndex)
      as (did & Hdne & ->).
    intros [= <-]. eexists. split; [|reflexivity]. repeat split; auto.
  - intros [= <-]. eexists. split; [|reflexivity]. repeat split; auto.
Qed.

Lemma createMetric_None (md5 toUpperCase toLowerCase : jsstring -> jsstring)
    (factory : Strategy) (measure : Measure) (mdObj : Buckets) (measureIndex : nat) :
  createMetric md5 toUpperCase toLowerCase factory measure mdObj measureIndex = None
  <-> needsCategory factory = true /\ categories mdObj = [].
Proof.
  destruct (categories mdObj) as [|c cs] eqn:Hc.
  - destruct factory; cbn [createMetric needsCategory].
    + unfold createContributionPoPMetric.
      rewrite createContributionMetric_no_category by exact Hc. split; auto.
    + destruct (createPoPMetric_eq md5 toUpperCase toLowerCase measure mdObj measureIndex)
        as (id & base & _ & _ & ->). split; [discriminate | intros [? _]; discriminate].
    + rewrite createContributionMetric_no_category by exact Hc. split; auto.
    + destruct (createDerivedMetric_eq md5 toUpperCase toLowerCase measure mdObj
                  measureIndex) as (did & _ & ->).
      split; [discriminate | intros [? _]; discriminate].
    + split; [discriminate | intros [? _]; discriminate].
  - split; [|intros [_ ?]; discriminate]. intros Hn. exfalso.
    destruct factory; cbn [createMetric] in Hn.
    + destruct (createContributionPoPMetric_eq md5 toUpperCase measure mdObj measureIndex
                  c cs Hc) as (id & base & def & _ & _ & _ & He).
      rewrite He in Hn. discriminate.
    + destruct (createPoPMetric_eq md5 toUpperCase toLowerCase measure mdObj measureIndex)
        as (id & base & _ & _ & He). rewrite He in Hn. discriminate.
    + destruct (createContributionMetric_eq md5 toUpperCase measure mdObj measureIndex
                  c cs Hc) as (id & e & _ & _ & He).
      rewrite He in Hn. discriminate.
    + destruct (createDerivedMetric_eq md5 toUpperCase toLowerCase measure mdObj
                  measureIndex) as (did & _ & He). rewrite He in Hn. discriminate.
    + discriminate.
Qed.

(** X3: of the two descriptors a PoP strategy returns, an object sort
    goes to exactly one: to the wrapper when [sortByPoP] is set, to the
    base metric otherwise; a plain string sort goes to both. *)
Theorem pop_pair_sort (md5 toUpperCase toLowerCase : jsstring -> jsstring)
    (factory : Strategy) (measure : Measure) (mdObj : Buckets) (measureIndex : nat)
    (wrapper base : Item) :
  createMetric md5 toUpperCase toLowerCase factory measure mdObj measureIndex
    = Some (Many [wrapper; base]) ->
  match sort measure with
  | Some (SortString s) => item_sort wrapper = Some s /\ item_sort base = Some s
  | Some (SortObject direction sortByPoP) =>
      item_sort wrapper = (if sortByPoP then direction else None)
      /\ item_sort base = (if sortByPoP then None else direction)
  | None => item_sort wrapper = None /\ item_sort base = None
  end.
Proof.
  intros Hc. apply createMetric_inv in Hc as (b & (Hsort & _) & Hp).
  destruct (isPoPStrategy factory); [|discriminate].
  destruct Hp as (id & fmt & _ & [= -> <-]).
  rewrite Hsort. cbn [popWrapper item_sort].
  destruct (sort measure) as [[s | d [|]]|]; cbn; auto.
Qed.

Lemma pop_pair_sort_witness :
  exists wrapper base,
    createMetric sample_md5 asciiToUpperCase asciiToLowerCase PoP revenue_pop
      revenue_pop_buckets 0 = Some (Many [wrapper; base])
    /\ item_sort wrapper = None /\ item_sort base = None.
Proof.
  eexists _, _. split; [reflexivity|].
  exact (pop_pair_sort sample_md5 asciiToUpperCase asciiToLowerCase PoP revenue_pop
           revenue_pop_buckets 0 _ _ eq_refl).
Defined.

(** X4: the expression of a PoP wrapper is the expression of its base
    metric in parentheses, or the bracketed object uri when the base is a
    plain reference, followed by [FOR PREVIOUS] on the date attribute. *)
Theorem pop_wrapper_expression (md5 toUpperCase toLowerCase : jsstring -> jsstring)
    (factory : Strategy) (measure : Measure) (mdObj : Buckets) (measureIndex : nat)
    (wrapper base : Item) :
  createMetric md5 toUpperCase toLowerCase factory measure mdObj measureIndex
    = Some (Many [wrapper; base]) ->
  exists wdef,
    definition wrapper = Some wdef
    /\ expression wdef
       = lit "SELECT "
           ++ match definition base with
              | Some def => lit "(" ++ expression def ++ lit ")"
              | None => lit "[" ++ objectUri measure ++ lit "]"
              end
           ++ lit " FOR PREVIOUS ([" ++ tpl (date_attribute (getDate mdObj)) ++ lit "])"
    /\ (definition base = None -> element base = Some (objectUri measure)).
Proof.
  intros Hc. apply createMetric_inv in Hc as (b & (_ & _ & Hlink) & Hp).
  destruct (isPoPStrategy factory); [|discriminate].
  destruct Hp as (id & fmt & _ & [= -> <-]).
  eexists. split; [reflexivity|]. split; [reflexivity|].
  intros Hd. rewrite Hd in Hlink. exact Hlink.
Qed.

Lemma pop_wrapper_expression_witness :
  exists wrapper base wdef,
    createMetric sample_md5 asciiToUpperCase asciiToLowerCase PoP revenue_pop
      revenue_pop_buckets 0 = Some (Many [wrapper; base])
    /\ definition wrapper = Some wdef
    /\ expression wdef
       = lit "SELECT [/gdc/md/p1/obj/5] FOR PREVIOUS ([/gdc/md/p1/obj/20])".
Proof.
  eexists _, _.
  destruct (pop_wrapper_expression sample_md5 asciiToUpperCase asciiToLowerCase PoP
              revenue_pop revenue_pop_buckets 0 _ _ eq_refl) as (wdef & Hd & He & _).
  exists wdef. split; [reflexivity|]. split; [exact Hd|]. rewrite He. reflexivity.
Defined.

(** X5: the date of a PoP metric is the attribute of the first date
    category, whatever the filters are; without a date category it is the
    attribute of the first date filter; without either the expression
    refers to [[undefined]] and nothing fails. *)
Theorem getDate_resolution (mdObj : Buckets) :
  (forall pre c post,
     categories mdObj = pre ++ c :: post ->
     Forall (fun x => isDateCategory x = false) pre -> isDateCategory c = true ->
     date_attribute (getDate mdObj) = c_attribute c)
  /\ (forall pre d post,
        Forall (fun x => isDateCategory x = false) (categories mdObj) ->
        filters mdObj = pre ++ DateFilterItem d :: post ->
        Forall (fun f => isDateFilter f = false) pre ->
        date_attribute (getDate mdObj) = df_attribute d)
  /\ (Forall (fun x => isDateCategory x = false) (categories mdObj) ->
      Forall (fun f => isDateFilter f = false) (filters mdObj) ->
      forall inner,
        getPoPExpression (getDate mdObj) inner
          = lit "SELECT " ++ inner ++ lit " FOR PREVIOUS ([undefined])").
Proof.
  assert (Hfind : forall {A} (p : A -> bool) pre x post,
            Forall (fun y => p y = false) pre -> p x = true ->
            find p (pre ++ x :: post) = Some x).
  { intros A p pre x post Hpre Hx. induction Hpre as [|y pre Hy _ IH]; cbn [app find].
    - rewrite Hx. reflexivity.
    - rewrite Hy. exact IH. }
  assert (Hnone : forall {A} (p : A -> bool) l,
            Forall (fun y => p y = false) l -> find p l = None).
  { intros A p l Hl. induction Hl as [|y l Hy _ IH]; cbn [find]; [reflexivity|].
    rewrite Hy. exact IH. }
  unfold getDate, getDateCategory, getDateFilter. split; [|split].
  - intros pre c post -> Hpre Hc. rewrite (Hfind _ _ _ _ _ Hpre Hc). reflexivity.
  - intros pre d post Hcats -> Hpre. rewrite (Hnone _ _ _ Hcats).
    rewrite (Hfind _ isDateFilter pre (DateFilterItem d) post Hpre eq_refl). reflexivity.
  - intros Hcats Hfs inner. rewrite (Hnone _ _ _ Hcats), (Hnone _ _ _ Hfs). reflexivity.
Qed.

Lemma getDate_resolution_witness :
  date_attribute (getDate revenue_pop_buckets) = Some (lit "/gdc/md/p1/obj/20")
  /\ getPoPExpression (getDate revenue_buckets) (lit "[/gdc/md/p1/obj/5]")
     = lit "SELECT [/gdc/md/p1/obj/5] FOR PREVIOUS ([undefined])".
Proof.
  split.
  - apply (proj1 (getDate_resolution revenue_pop_buckets) [] year []);
      [reflexivity | constructor | reflexivity].
  - apply (proj2 (proj2 (getDate_resolution revenue_buckets))); constructor.
Defined.

Lemma descriptors_linked_items (md5 toUpperCase toLowerCase : jsstring -> jsstring)
    (factory : Strategy) (measure : Measure) (mdObj : Buckets) (index : nat)
    (p : Produced) :
  createMetric md5 toUpperCase toLowerCase factory measure mdObj index = Some p ->
  Forall (fun d =>
            match definition d with
            | Some def => element d = Some (identifier def) /\ identifier def <> []
            | None => element d = Some (objectUri measure)
            end) (flatten [p]).
Proof.
  intros Hc. apply createMetric_inv in Hc as (b & (_ & _ & Hlink) & Hp).
  destruct (isPoPStrategy factory).
  - destruct Hp as (id & fmt & Hne & ->). cbn. repeat constructor; auto.
  - subst p. cbn. repeat constructor; auto.
Qed.

(** X6: every descriptor a strategy returns carries the index of its
    measure, and its element is the identifier of its own definition,
    which is not empty, or the measure's object uri when it has no
    definition. *)
Theorem descriptors_linked (md5 toUpperCase toLowerCase : jsstring -> jsstring)
    (factory : Strategy) (measure : Measure) (mdObj : Buckets) (index : nat)
    (p : Produced) :
  createMetric md5 toUpperCase toLowerCase factory measure mdObj index = Some p ->
  Forall (fun d =>
            (measureIndex <$> meta d) = Some index
            /\ match definition d with
               | Some def => element d = Some (identifier def) /\ identifier def <> []
               | None => element d = Some (objectUri measure)
               end) (flatten [p]).
Proof.
  intros Hc. apply createMetric_inv in Hc as (b & (_ & Hmeta & Hlink) & Hp).
  assert (Hb : (measureIndex <$> meta b) = Some index
               /\ match definition b with
                  | Some def => element b = Some (identifier def) /\ identifier def <> []
                  | None => element b = Some (objectUri measure)
                  end) by (rewrite Hmeta; auto).
  destruct (isPoPStrategy factory).
  - destruct Hp as (id & fmt & Hne & ->). cbn. repeat constructor; auto; apply Hb.
  - subst p. cbn. repeat constructor; apply Hb.
Qed.

Lemma descriptors_linked_witness :
  exists p,
    createMetric sample_md5 asciiToUpperCase asciiToLowerCase PoP revenue_pop
      revenue_pop_buckets 0 = Some p
    /\ length (flatten [p]) = 2%nat
    /\ Forall (fun d => (measureIndex <$> meta d) = Some 0%nat) (flatten [p]).
Proof.
  eexists. split; [reflexivity|]. split; [reflexivity|].
  eapply Forall_impl.
  - exact (descriptors_linked sample_md5 asciiToUpperCase asciiToLowerCase PoP revenue_pop
             revenue_pop_buckets 0 _ eq_refl).
  - intros d [H _]. exact H.
Defined.

(** ** Rule dispatcher, continued *)

(** X7: dispatch finds no strategy exactly for a measure that has
    neither flag, a type other than fact, attribute and metric, and no
    filter with selected elements. *)
Theorem getMetricFactory_fails (measure : Measure) :
  getMetricFactory measure = None
  <-> showPoP measure = false /\ showInPercent measure = false
      /\ mtype measure <> Some (lit "fact")
      /\ mtype measure <> Some (lit "attribute")
      /\ mtype measure <> Some (lit "metric")
      /\ Forall (fun f => attributeElements f = []) (measureFilters measure).
Proof.
  rewrite getMetricFactory_eq.
  unfold isPoP, isContribution, isDerived, isCalculatedMeasure, type_is.
  assert (Hall : allFiltersEmpty measure = true
                 <-> Forall (fun f => attributeElements f = []) (measureFilters measure)).
  { unfold allFiltersEmpty, every. induction (measureFilters measure) as [|f fs IH].
    - split; [constructor | reflexivity].
    - cbn [map forallb]. rewrite andb_true_iff, IH. split.
      + intros [Hf Hfs]. constructor; [|exact Hfs].
        destruct (attributeElements f); [reflexivity | discriminate].
      + intros Hfs. inversion Hfs as [|? ? Hf Hrest]; subst. rewrite Hf. auto. }
  destruct (showPoP measure), (showInPercent measure); cbn [andb];
    try (split; [discriminate | intros (? & ? & _); discriminate]).
  repeat case_bool_decide; destruct (allFiltersEmpty measure) eqn:Hf; cbn [orb negb];
    (split;
     [ try discriminate; intros _; repeat split; auto; apply Hall; reflexivity
     | intros (_ & _ & ? & ? & ? & Hx); try congruence;
       try (apply Hall in Hx; discriminate); try reflexivity ]).
Qed.

(** ** Ordering, continued *)

(** X8: every entry of [orderBy] has a direction, and there are at most
    as many entries as categories and metrics together. *)
Theorem getOrderBy_directions (metrics categories : list Item) (type : option jsstring) :
  Forall (fun entry => truthy_opt (direction entry) = true)
    (getOrderBy metrics categories type)
  /\ (length (getOrderBy metrics categories type)
      <= length categories + length metrics)%nat.
Proof.
  unfold getOrderBy.
  destruct (bool_decide (type = Some (lit "bar")) && notEmpty metrics) eqn:Hbar.
  - split; [repeat constructor|].
    destruct metrics; [rewrite andb_false_r in Hbar; discriminate|]. cbn. lia.
  - rewrite length_map, <- length_app. split; [|apply filter_length_le].
    induction (categories ++ metrics) as [|item l IH]; [constructor|].
    cbn [List.filter]. destruct (truthy_opt (item_sort item)) eqn:Hs; [|exact IH].
    cbn [map]. constructor; [exact Hs | exact IH].
Qed.

(** ** Filter translator, continued *)

Lemma split_nonempty (sep : N) (s : jsstring) : split sep s <> [].
Proof.
  destruct s as [|c s]; [discriminate|]. cbn [split].
  destruct (N.eqb c sep); [discriminate|]. destruct (split sep s); discriminate.
Qed.

Lemma split_app (sep : N) (p r : jsstring) :
  split sep (p ++ sep :: r) = split sep p ++ split sep r.
Proof.
  induction p as [|c p IH]; cbn [app split].
  - rewrite N.eqb_refl. reflexivity.
  - destruct (N.eqb c sep); [rewrite IH; reflexivity|].
    rewrite IH. pose proof (split_nonempty sep p) as Hp.
    destruct (split sep p) as [|h t]; [contradiction | reflexivity].
Qed.

(** What [last(e.split('='))] keeps of an element. *)
Lemma last_segment_id (e : jsstring) :
  (Forall (fun c => c <> 61%N) e -> last_segment e = e)
  /\ (forall p id, e = p ++ lit "=" ++ id -> Forall (fun c => c <> 61%N) id ->
      last_segment e = id).
Proof.
  unfold last_segment. split.
  - intros He. rewrite split_no_separator by exact He. reflexivity.
  - intros p id -> Hid. change (lit "=" ++ id) with (61%N :: id).
    rewrite split_app, (split_no_separator 61 id) by exact Hid.
    apply last_last.
Qed.

Lemma fold_dates_lookup (ds : list DateFilter) (m : gmap jsstring WhereEntry) (k : jsstring) :
  fold_left (fun acc clause => <[clause.1 := clause.2]> acc) (map dateFilterToWhere ds) m !! k
    = match last (filter (fun d => dateKey d = k) ds) with
      | Some d => Some (dateFilterToWhere d).2
      | None => m !! k
      end.
Proof.
  revert m. induction ds as [|d ds IH]; intros m; [reflexivity|].
  cbn [map fold_left]. rewrite IH, filter_cons.
  destruct (decide (dateKey d = k)) as [Hk | Hk].
  - rewrite last_cons. destruct (last (filter _ ds)); [reflexivity|].
    unfold dateKey in Hk. rewrite <- Hk. apply lookup_insert_eq.
  - destruct (last (filter _ ds)); [reflexivity|].
    apply lookup_insert_ne. exact Hk.
Qed.

(** X10: the [where] object holds the attribute clauses of the
    executable attribute filters under [$and], and under any other key
    the clause of the last executable date filter with that key. *)
Theorem getWhere_lookup (filters : list Filter) (k : jsstring) :
  getWhere filters !! k
    = if decide (k = lit "$and")
      then Some (And (map attributeFilterToWhere (executableAttributeFilters filters)))
      else (fun d => (dateFilterToWhere d).2)
             <$> last (filter (fun d => dateKey d = k) (executableDateFilters filters)).
Proof.
  unfold getWhere. destruct (decide (k = lit "$and")) as [-> | Hk].
  - apply lookup_insert_eq.
  - rewrite lookup_insert_ne by congruence. rewrite fold_dates_lookup.
    destruct (last _); [reflexivity | apply lookup_empty].
Qed.

Lemma executableAttributeFilters_filter (filters : list Filter) :
  executableAttributeFilters (List.filter isExecutable filters)
    = executableAttributeFilters filters.
Proof.
  unfold executableAttributeFilters. induction filters as [|f fs IH]; [reflexivity|].
  cbn [List.filter]. destruct f as [a | d]; cbn [isExecutable].
  - destruct (isAttributeFilterExecutable a) eqn:E; cbn [omap list_omap]; rewrite ?E, IH;
      reflexivity.
  - destruct (isDateFilterExecutable d); cbn [omap list_omap]; rewrite IH; reflexivity.
Qed.

Lemma executableDateFilters_filter (filters : list Filter) :
  executableDateFilters (List.filter isExecutable filters) = executableDateFilters filters.
Proof.
  unfold executableDateFilters. induction filters as [|f fs IH]; [reflexivity|].
  cbn [List.filter]. destruct f as [a | d]; cbn [isExecutable].
  - destruct (isAttributeFilterExecutable a); cbn [omap list_omap]; rewrite IH; reflexivity.
  - destruct (isDateFilterExecutable d) eqn:E; cbn [omap list_omap]; rewrite ?E, IH;
      reflexivity.
Qed.

(** X11: filters that are not executable leave no trace in the [where]
    object; when none is executable it is [{ $and: [] }]. *)
Theorem getWhere_executable_only (filters : list Filter) :
  getWhere filters = getWhere (List.filter isExecutable filters)
  /\ (Forall (fun f => isExecutable f = false) filters ->
      getWhere filters = {[ lit "$and" := And [] ]}).
Proof.
  split.
  - unfold getWhere.
    rewrite executableAttributeFilters_filter, executableDateFilters_filter. reflexivity.
  - intros Hnone.
    assert (Hnil : List.filter isExecutable filters = []).
    { induction Hnone as [|f fs Hf _ IH]; [reflexivity|].
      cbn [List.filter]. rewrite Hf. exact IH. }
    unfold getWhere.
    rewrite <- executableAttributeFilters_filter, <- executableDateFilters_filter, Hnil.
    reflexivity.
Qed.

Lemma getWhere_executable_only_witness :
  getWhere [ ListAttributeFilter
               {| attribute := Some (lit "/gdc/md/p1/obj/9");
                  displayForm := Some (lit "/gdc/md/p1/obj/10");
                  negativeSelection := false; attributeElements := [] |};
             DateFilterItem
               {| df_attribute := None; dimension := Some (lit "/gdc/md/p1/obj/30");
                  dataSet := None; dataset := None; granularity := None;
                  from := Some (lit "2020"); to := None |} ]
  = {[ lit "$and" := And [] ]}.
Proof.
  apply (proj2 (getWhere_executable_only _)). repeat constructor.
Defined.

(** ** Assembler, continued *)

Lemma mapM_imap_is_Some {A B} (f : nat -> A -> option B) (l : list A) :
  is_Some (mapM (fun x => x) (imap f l))
  <-> forall i x, l !! i = Some x -> is_Some (f i x).
Proof.
  revert f. induction l as [|a l IH]; intros f.
  - split; [intros _ i x Hi; destruct i; discriminate | intros _; cbn; eauto].
  - cbn [imap mapM]. split.
    + intros [k Hk]. destruct (f 0%nat a) as [y|] eqn:Hy; [|discriminate].
      cbn in Hk. destruct (mapM (fun x => x) (imap (f ∘ S) l)) as [k'|] eqn:Hk';
        [|discriminate].
      intros [|i] x Hi.
      * cbn in Hi. injection Hi as <-. rewrite Hy. eauto.
      * apply (proj1 (IH (f ∘ S)) (ex_intro _ k' Hk') i x Hi).
    + intros Hall. destruct (Hall 0%nat a eq_refl) as [y Hy]. rewrite Hy. cbn.
      destruct (proj2 (IH (f ∘ S))) as [k' Hk'].
      { intros i x Hi. apply (Hall (S i) x Hi). }
      rewrite Hk'. cbn. eauto.
Qed.

Lemma mapM_imap_concat {A B C} (f : nat -> A -> option B) (g : B -> list C)
    (g' : nat -> A -> list C) (l : list A) (k : list B) :
  (forall i x y, l !! i = Some x -> f i x = Some y -> g y = g' i x) ->
  mapM (fun x => x) (imap f l) = Some k ->
  concat (map g k) = concat (imap g' l).
Proof.
  revert f g' k. induction l as [|a l IH]; intros f g' k Hg Hk.
  - cbn in Hk. injection Hk as <-. reflexivity.
  - cbn [imap mapM] in Hk. destruct (f 0%nat a) as [y|] eqn:Hy; [|discriminate].
    cbn in Hk. destruct (mapM (fun x => x) (imap (f ∘ S) l)) as [k'|] eqn:Hk';
      [|discriminate].
    cbn in Hk. injection Hk as <-. cbn [map concat imap].
    rewrite (Hg 0%nat a y eq_refl Hy). f_equal.
    apply (IH (f ∘ S)); [|exact Hk'].
    intros i x z Hi Hz. apply (Hg (S i) x z Hi Hz).
Qed.

Lemma mapM_imap_In {A B} (f : nat -> A -> option B) (l : list A) (k : list B) (y : B) :
  mapM (fun x => x) (imap f l) = Some k -> In y k ->
  exists i x, l !! i = Some x /\ f i x = Some y.
Proof.
  revert f k. induction l as [|a l IH]; intros f k Hk Hin.
  - cbn in Hk. injection Hk as <-. destruct Hin.
  - cbn [imap mapM] in Hk. destruct (f 0%nat a) as [z|] eqn:Hz; [|discriminate].
    cbn in Hk. destruct (mapM (fun x => x) (imap (f ∘ S) l)) as [k'|] eqn:Hk';
      [|discriminate].
    cbn in Hk. injection Hk as <-. destruct Hin as [<- | Hin].
    + exists 0%nat, a. auto.
    + destruct (IH (f ∘ S) k' Hk' Hin) as (i & x & Hi & Hx). exists (S i), x. auto.
Qed.

Lemma factory_flags (measure : Measure) (factory : Strategy) :
  getMetricFactory measure = Some factory ->
  isPoPStrategy factory = isPoP measure /\ needsCategory factory = isContribution measure.
Proof.
  rewrite getMetricFactory_eq.
  destruct (isPoP measure), (isContribution measure), (isDerived measure),
    (isCalculatedMeasure measure); cbn [andb]; intros [= <-]; auto.
Qed.

Section Assembled.

Variable md5 : jsstring -> jsstring.
Variable toUpperCase toLowerCase : jsstring -> jsstring.
Variable sortDefinitions : list MetricDefinition -> list MetricDefinition.

Lemma compileMeasure_is_Some (mdObj : Buckets) (index : nat) (measure : Measure) :
  is_Some (compileMeasure md5 toUpperCase toLowerCase mdObj index measure) <-> compiles mdObj measure.
Proof.
  unfold compileMeasure, compiles. destruct (getMetricFactory measure) as [factory|] eqn:Hf.
  - cbn [mbind option_bind]. destruct (factory_flags measure factory Hf) as [_ Hc].
    rewrite <- Hc. split.
    + intros Hs. split; [eauto|]. intros Hn Hnil.
      assert (Hnone : createMetric md5 toUpperCase toLowerCase factory measure mdObj index
                      = None) by (apply createMetric_None; auto).
      rewrite Hnone in Hs. destruct Hs; discriminate.
    + intros [_ Hcat].
      destruct (createMetric md5 toUpperCase toLowerCase factory measure mdObj index) eqn:Hm;
        [eauto|].
      apply createMetric_None in Hm as [Hn Hnil]. destruct (Hcat Hn Hnil).
  - cbn [mbind option_bind]. split; [intros [? ?]; discriminate|].
    intros [[? ?] _]; discriminate.
Qed.

Lemma mdToExecutionConfiguration_inv (mdObj : MdObj) (removeDateItems : bool)
    (cfg : ExecutionConfiguration) :
  mdToExecutionConfiguration md5 toUpperCase toLowerCase sortDefinitions mdObj removeDateItems
    = Some cfg ->
  exists produced,
    mapM (fun x => x) (imap (compileMeasure md5 toUpperCase toLowerCase (buckets mdObj)) (measures (buckets mdObj)))
      = Some produced
    /\ let metrics := flatten produced in
       let cats :=
         map categoryToElement
           (if removeDateItems
            then List.filter (fun c => negb (isDateCategory c)) (categories (buckets mdObj))
            else categories (buckets mdObj)) in
       let fs :=
         if removeDateItems
         then List.filter (fun f => negb (isDateFilter f)) (filters (buckets mdObj))
         else filters (buckets mdObj) in
       cfg = {| columns := compact (map element (cats ++ metrics));
                orderBy := getOrderBy metrics cats (vis_type mdObj);
                definitions := sortDefinitions (omap definition metrics);
                where_ := if notEmpty (compact (map element (cats ++ metrics)))
                          then getWhere fs else ∅;
                metricMappings := map toMetricMapping metrics |}.
Proof.
  unfold mdToExecutionConfiguration. fold (compileMeasure md5 toUpperCase toLowerCase (buckets mdObj)).
  destruct (mapM _ _) as [produced|]; [|discriminate].
  cbn [mbind option_bind]. intros [= <-]. exists produced. split; reflexivity.
Qed.

(** With collaborators that return ([md5] and [sortDefinitions] are total
    here), the compiler returns a configuration exactly when every measure
    compiles. *)
Lemma mdToExecutionConfiguration_succeeds (mdObj : MdObj) (removeDateItems : bool) :
  is_Some (mdToExecutionConfiguration md5 toUpperCase toLowerCase sortDefinitions
             mdObj removeDateItems)
  <-> Forall (compiles (buckets mdObj)) (measures (buckets mdObj)).
Proof.
  unfold mdToExecutionConfiguration. fold (compileMeasure md5 toUpperCase toLowerCase (buckets mdObj)).
  rewrite Forall_lookup. split.
  - intros Hs i x Hi. apply (compileMeasure_is_Some (buckets mdObj) i).
    apply (proj1 (mapM_imap_is_Some (compileMeasure md5 toUpperCase toLowerCase (buckets mdObj))
                    (measures (buckets mdObj)))); [|exact Hi].
    destruct (mapM _ _); [eauto | destruct Hs; discriminate].
  - intros Hall.
    destruct (proj2 (mapM_imap_is_Some (compileMeasure md5 toUpperCase toLowerCase (buckets mdObj))
                       (measures (buckets mdObj)))) as [k Hk].
    { intros i x Hi. apply compileMeasure_is_Some, (Hall i x Hi). }
    rewrite Hk. cbn [mbind option_bind]. eauto.
Qed.

Lemma compileMeasure_inv (mdObj : Buckets) (index : nat) (measure : Measure) (p : Produced) :
  compileMeasure md5 toUpperCase toLowerCase mdObj index measure = Some p ->
  exists factory,
    getMetricFactory measure = Some factory
    /\ createMetric md5 toUpperCase toLowerCase factory measure mdObj index = Some p.
Proof.
  unfold compileMeasure. destruct (getMetricFactory measure) as [factory|]; [|discriminate].
  cbn [mbind option_bind]. eauto.
Qed.

(** X13: the metric mappings follow the measures in order: a measure
    with [showPoP] gives two mappings with its index, the first flagged
    [isPoP], every other measure gives one. *)
Theorem metricMappings_marks (mdObj : MdObj) (removeDateItems : bool)
    (cfg : ExecutionConfiguration) :
  mdToExecutionConfiguration md5 toUpperCase toLowerCase sortDefinitions mdObj removeDateItems
    = Some cfg ->
  map (fun m => (mapping_measureIndex m, mapping_isPoP m)) (metricMappings cfg)
    = concat (imap mappingMarks (measures (buckets mdObj))).
Proof.
  intros Hcfg. apply mdToExecutionConfiguration_inv in Hcfg as (produced & Hp & ->).
  cbn [metricMappings]. rewrite map_map. unfold flatten. rewrite concat_map, map_map.
  eapply mapM_imap_concat; [|exact Hp]. intros i x y Hi Hy. cbn beta.
  apply compileMeasure_inv in Hy as (factory & Hf & Hc).
  apply createMetric_inv in Hc as (base & (_ & Hmeta & _) & Hshape).
  destruct (factory_flags x factory Hf) as [Hpop _]. unfold mappingMarks. rewrite <- Hpop.
  destruct (isPoPStrategy factory).
  - destruct Hshape as (id & fmt & _ & ->). cbn. rewrite Hmeta. reflexivity.
  - subst y. cbn. rewrite Hmeta. reflexivity.
Qed.

Lemma flatten_In (produced : list Produced) (d : Item) :
  In d (flatten produced) <-> exists p, In p produced /\ In d (flatten [p]).
Proof.
  unfold flatten. rewrite in_concat. split.
  - intros (l & Hl & Hd). apply in_map_iff in Hl as (p & <- & Hp).
    exists p. split; [exact Hp|]. cbn. rewrite app_nil_r. exact Hd.
  - intros (p & Hp & Hd). cbn in Hd. rewrite app_nil_r in Hd.
    eexists. split; [|exact Hd]. apply in_map_iff. eauto.
Qed.

Lemma compact_In (l : list (option jsstring)) (e : jsstring) :
  In e (compact l) <-> In (Some e) l /\ e <> [].
Proof.
  unfold compact. induction l as [|x l IH]; cbn [omap list_omap].
  - split; [intros [] | intros [[] _]].
  - destruct x as [[|c s]|]; cbn [truthy_opt truthy].
    + rewrite IH. split; [intros [H1 H2]; split; [right|]; auto|].
      intros [[H | H] Hne]; [congruence | auto].
    + cbn [In]. rewrite IH. split.
      * intros [<- | [H1 H2]]; [split; [left; reflexivity | discriminate] | auto].
      * intros [[[= <-] | H] Hne]; auto.
    + rewrite IH. split; [intros [H1 H2]; split; [right|]; auto|].
      intros [[H | H] Hne]; [discriminate | auto].
Qed.

(** X14: when the definition collaborator returns only definitions it
    was given, the identifier of every definition of the configuration is
    one of its columns and the element of one of its mappings. *)
Theorem definitions_have_columns (mdObj : MdObj) (removeDateItems : bool)
    (cfg : ExecutionConfiguration) :
  (forall l d, In d (sortDefinitions l) -> In d l) ->
  mdToExecutionConfiguration md5 toUpperCase toLowerCase sortDefinitions mdObj removeDateItems
    = Some cfg ->
  forall d, In d (definitions cfg) ->
    In (identifier d) (columns cfg)
    /\ exists m, In m (metricMappings cfg) /\ mapping_element m = Some (identifier d).
Proof.
  intros Hsort Hcfg d Hd. apply mdToExecutionConfiguration_inv in Hcfg as (produced & Hp & ->).
  cbn [definitions columns metricMappings] in *. apply Hsort in Hd.
  apply list_elem_of_In, list_elem_of_omap in Hd as (item & Hitem & Hdef).
  apply list_elem_of_In in Hitem.
  assert (Hlink : element item = Some (identifier d) /\ identifier d <> []).
  { apply flatten_In in Hitem as (p & Hpin & Hin).
    destruct (mapM_imap_In _ _ _ _ Hp Hpin) as (i & x & _ & Hx).
    apply compileMeasure_inv in Hx as (factory & _ & Hc).
    pose proof (descriptors_linked_items md5 toUpperCase toLowerCase factory x
                  (buckets mdObj) i p Hc) as Hall.
    rewrite Forall_forall in Hall.
    specialize (Hall item (proj2 (list_elem_of_In _ _) Hin)). rewrite Hdef in Hall.
    apply Hall. }
  destruct Hlink as [Hel Hne]. split.
  - apply compact_In. split; [|exact Hne]. rewrite map_app, in_app_iff. right.
    rewrite <- Hel. apply in_map, Hitem.
  - exists (toMetricMapping item). split; [apply in_map, Hitem | exact Hel].
Qed.

Lemma getWhere_nonempty (filters : list Filter) : getWhere filters <> ∅.
Proof.
  intros He. assert (H : getWhere filters !! lit "$and" = None)
    by (rewrite He; apply lookup_empty).
  unfold getWhere in H. rewrite lookup_insert_eq in H. discriminate.
Qed.

(** X15: the [where] object is empty exactly when there is no column;
    with a column it has the [$and] entry. *)
Theorem where_empty_iff_no_columns (mdObj : MdObj) (removeDateItems : bool)
    (cfg : ExecutionConfiguration) :
  mdToExecutionConfiguration md5 toUpperCase toLowerCase sortDefinitions mdObj removeDateItems
    = Some cfg ->
  (where_ cfg = ∅ <-> columns cfg = [])
  /\ (columns cfg <> [] -> is_Some (where_ cfg !! lit "$and")).
Proof.
  intros Hcfg. apply mdToExecutionConfiguration_inv in Hcfg as (produced & _ & ->).
  cbn [where_ columns]. destruct (compact _) as [|c cs]; cbn [notEmpty isEmpty negb].
  - split; [split; reflexivity | intros H; contradiction].
  - split.
    + split; [intros H; apply getWhere_nonempty in H; contradiction | discriminate].
    + intros _. unfold getWhere. rewrite lookup_insert_eq. eauto.
Qed.

Lemma removed_date_filters (filters : list Filter) :
  executableDateFilters (List.filter (fun f => negb (isDateFilter f)) filters) = []
  /\ executableAttributeFilters (List.filter (fun f => negb (isDateFilter f)) filters)
     = executableAttributeFilters filters.
Proof.
  unfold executableDateFilters, executableAttributeFilters.
  induction filters as [|f fs [IHd IHa]]; [split; reflexivity|].
  destruct f as [a | d]; cbn [List.filter isDateFilter negb omap list_omap].
  - rewrite IHd, IHa. split; reflexivity.
  - split; [exact IHd | exact IHa].
Qed.

(** X16: removing the date items changes neither the metric mappings
    nor the definitions, and leaves only the attribute clauses under
    [$and] in the [where] object. *)
Theorem removeDateItems_effect (mdObj : MdObj) (cfg : ExecutionConfiguration) :
  mdToExecutionConfiguration md5 toUpperCase toLowerCase sortDefinitions mdObj false
    = Some cfg ->
  exists cfg',
    mdToExecutionConfiguration md5 toUpperCase toLowerCase sortDefinitions mdObj true
      = Some cfg'
    /\ metricMappings cfg' = metricMappings cfg
    /\ definitions cfg' = definitions cfg
    /\ (forall k, k <> lit "$and" -> where_ cfg' !! k = None)
    /\ (columns cfg' <> [] ->
        where_ cfg'
          = {[ lit "$and" :=
                 And (map attributeFilterToWhere
                        (executableAttributeFilters (filters (buckets mdObj)))) ]}).
Proof.
  intros Hcfg. apply mdToExecutionConfiguration_inv in Hcfg as (produced & Hp & ->).
  unfold mdToExecutionConfiguration.
  fold (compileMeasure md5 toUpperCase toLowerCase (buckets mdObj)). rewrite Hp.
  cbn [mbind option_bind]. eexists. split; [reflexivity|].
  cbn [metricMappings definitions where_ columns].
  split; [reflexivity|]. split; [reflexivity|].
  assert (Hw : getWhere (List.filter (fun f => negb (isDateFilter f)) (filters (buckets mdObj)))
               = {[ lit "$and" :=
                      And (map attributeFilterToWhere
                             (executableAttributeFilters (filters (buckets mdObj)))) ]}).
  { unfold getWhere.
    destruct (removed_date_filters (filters (buckets mdObj))) as [-> ->]. reflexivity. }
  rewrite Hw. destruct (compact _) as [|c cs]; cbn [notEmpty isEmpty negb].
  - split; [intros k _; apply lookup_empty | intros H; contradiction].
  - split; [|reflexivity]. intros k Hk. apply lookup_singleton_ne. congruence.
Qed.

Lemma compact_app (l k : list (option jsstring)) :
  compact (l ++ k) = compact l ++ compact k.
Proof. unfold compact. apply omap_app. Qed.

(** X17: the columns are the non-empty display forms of the categories
    (without the date categories when date items are removed) followed
    by the non-empty elements of the metric mappings. *)
Theorem columns_structure (mdObj : MdObj) (removeDateItems : bool)
    (cfg : ExecutionConfiguration) :
  mdToExecutionConfiguration md5 toUpperCase toLowerCase sortDefinitions mdObj removeDateItems
    = Some cfg ->
  columns cfg
    = compact (map c_displayForm
                 (if removeDateItems
                  then List.filter (fun c => negb (isDateCategory c))
                         (categories (buckets mdObj))
                  else categories (buckets mdObj)))
        ++ compact (map mapping_element (metricMappings cfg)).
Proof.
  intros Hcfg. apply mdToExecutionConfiguration_inv in Hcfg as (produced & _ & ->).
  cbn [columns metricMappings]. rewrite map_app, compact_app, !map_map. reflexivity.
Qed.

End Assembled.

Lemma metricMappings_marks_witness :
  exists cfg,
    mdToExecutionConfiguration sample_md5 asciiToUpperCase asciiToLowerCase keepDefinitions
      revenue_pop_mdObj false = Some cfg
    /\ map (fun m => (mapping_measureIndex m, mapping_isPoP m)) (metricMappings cfg)
       = [(Some 0%nat, Some true); (Some 0%nat, None)].
Proof.
  destruct (mdToExecutionConfiguration sample_md5 asciiToUpperCase asciiToLowerCase
              keepDefinitions revenue_pop_mdObj false) as [cfg|] eqn:Hcfg;
    [|vm_compute in Hcfg; discriminate Hcfg].
  exists cfg. split; [reflexivity|].
  rewrite (metricMappings_marks sample_md5 asciiToUpperCase asciiToLowerCase keepDefinitions
             revenue_pop_mdObj false cfg Hcfg).
  reflexivity.
Defined.

Lemma definitions_have_columns_witness :
  exists cfg,
    mdToExecutionConfiguration sample_md5 asciiToUpperCase asciiToLowerCase keepDefinitions
      revenue_pop_mdObj false = Some cfg
    /\ forall d, In d (definitions cfg) -> In (identifier d) (columns cfg).
Proof.
  destruct (mdToExecutionConfiguration sample_md5 asciiToUpperCase asciiToLowerCase
              keepDefinitions revenue_pop_mdObj false) as [cfg|] eqn:Hcfg;
    [|vm_compute in Hcfg; discriminate Hcfg].
  exists cfg. split; [reflexivity|]. intros d Hd.
  apply (definitions_have_columns sample_md5 asciiToUpperCase asciiToLowerCase
           keepDefinitions revenue_pop_mdObj false cfg (fun l x H => H) Hcfg d Hd).
Defined.

Lemma where_empty_iff_no_columns_witness :
  exists cfg,
    mdToExecutionConfiguration sample_md5 asciiToUpperCase asciiToLowerCase keepDefinitions
      revenue_pop_mdObj false = Some cfg
    /\ (where_ cfg = ∅ <-> columns cfg = []).
Proof.
  destruct (mdToExecutionConfiguration sample_md5 asciiToUpperCase asciiToLowerCase
              keepDefinitions revenue_pop_mdObj false) as [cfg|] eqn:Hcfg;
    [|vm_compute in Hcfg; discriminate Hcfg].
  exists cfg. split; [reflexivity|].
  apply (where_empty_iff_no_columns sample_md5 asciiToUpperCase asciiToLowerCase
           keepDefinitions revenue_pop_mdObj false cfg Hcfg).
Defined.

Lemma removeDateItems_effect_witness :
  exists cfg cfg',
    mdToExecutionConfiguration sample_md5 asciiToUpperCase asciiToLowerCase keepDefinitions
      revenue_pop_mdObj false = Some cfg
    /\ mdToExecutionConfiguration sample_md5 asciiToUpperCase asciiToLowerCase keepDefinitions
         revenue_pop_mdObj true = Some cfg'
    /\ metricMappings cfg' = metricMappings cfg
    /\ where_ cfg' !! lit "/gdc/md/p1/obj/30" = None.
Proof.
  destruct (mdToExecutionConfiguration sample_md5 asciiToUpperCase asciiToLowerCase
              keepDefinitions revenue_pop_mdObj false) as [cfg|] eqn:Hcfg;
    [|vm_compute in Hcfg; discriminate Hcfg].
  destruct (removeDateItems_effect sample_md5 asciiToUpperCase asciiToLowerCase
              keepDefinitions revenue_pop_mdObj cfg Hcfg) as (cfg' & Hc & Hm & _ & Hw & _).
  exists cfg, cfg'. split; [reflexivity|]. split; [exact Hc|]. split; [exact Hm|].
  apply Hw. discriminate.
Defined.

Lemma columns_structure_witness :
  exists cfg,
    mdToExecutionConfiguration sample_md5 asciiToUpperCase asciiToLowerCase keepDefinitions
      revenue_pop_mdObj false = Some cfg
    /\ columns cfg
       = [lit "/gdc/md/p1/obj/21"]
           ++ compact (map mapping_element (metricMappings cfg)).
Proof.
  destruct (mdToExecutionConfiguration sample_md5 asciiToUpperCase asciiToLowerCase
              keepDefinitions revenue_pop_mdObj false) as [cfg|] eqn:Hcfg;
    [|vm_compute in Hcfg; discriminate Hcfg].
  exists cfg. split; [reflexivity|].
  apply (columns_structure sample_md5 asciiToUpperCase asciiToLowerCase keepDefinitions
           revenue_pop_mdObj false cfg Hcfg).
Defined.


(** ** Response headers *)

Lemma findHeaderForMappingFn_unannotated (mapping : MetricMapping) (header : Header) :
  findHeaderForMappingFn mapping header = true ->
  header_measureIndex header = None
  /\ (mapping_element mapping = header_id header
      \/ mapping_element mapping = header_uri header).
Proof.
  unfold findHeaderForMappingFn. rewrite andb_true_iff, orb_true_iff.
  rewrite !bool_decide_eq_true. tauto.
Qed.

Lemma wrapMeasureIndex_step (headers : list Header) (mapping : MetricMapping) :
  wrapMeasureIndex headers mapping = headers
  \/ exists i header,
       headers !! i = Some header
       /\ findHeaderForMappingFn mapping header = true
       /\ (forall j y, headers !! j = Some y -> (j < i)%nat ->
           findHeaderForMappingFn mapping y = false)
       /\ wrapMeasureIndex headers mapping = <[i := annotateHeader mapping header]> headers.
Proof.
  unfold wrapMeasureIndex.
  destruct (list_find _ headers) as [[i header]|] eqn:Hf; [|left; reflexivity].
  right. apply list_find_Some in Hf as (Hi & Hp & Hfirst).
  exists i, header. repeat split; auto.
  intros j y Hj Hlt. specialize (Hfirst j y Hj Hlt).
  destruct (findHeaderForMappingFn mapping y); [contradiction | reflexivity].
Qed.

Lemma map_insert_same {A B} (f : A -> B) (l : list A) (i : nat) (x y : A) :
  l !! i = Some x -> f y = f x -> map f (<[i := y]> l) = map f l.
Proof.
  revert i. induction l as [|a l IH]; intros [|i] Hi Hf; try discriminate.
  - cbn in Hi. injection Hi as ->. cbn. rewrite Hf. reflexivity.
  - cbn. f_equal. apply IH; assumption.
Qed.

(** X18: annotating the headers keeps their number, their ids and their
    uris, and leaves alone every header that has a measure index already
    or that no mapping names. *)
Theorem wrapMeasureIndexes_frame (metricMappings : option (list MetricMapping))
    (headers : list Header) :
  let wrapped := wrapMeasureIndexesFromMappings metricMappings headers in
  length wrapped = length headers
  /\ map header_id wrapped = map header_id headers
  /\ map header_uri wrapped = map header_uri headers
  /\ (forall i header,
        headers !! i = Some header ->
        header_measureIndex header <> None
        \/ (forall mappings m, metricMappings = Some mappings -> In m mappings ->
            mapping_element m <> header_id header
            /\ mapping_element m <> header_uri header) ->
        wrapped !! i = Some header).
Proof.
  unfold wrapMeasureIndexesFromMappings.
  destruct metricMappings as [mappings|]; [|cbn; auto].
  cbn zeta.
  assert (Hgen : forall hs,
            length (fold_left wrapMeasureIndex mappings hs) = length hs
            /\ map header_id (fold_left wrapMeasureIndex mappings hs) = map header_id hs
            /\ map header_uri (fold_left wrapMeasureIndex mappings hs) = map header_uri hs
            /\ (forall i header,
                  hs !! i = Some header ->
                  header_measureIndex header <> None
                  \/ (forall m, In m mappings ->
                      mapping_element m <> header_id header
                      /\ mapping_element m <> header_uri header) ->
                  fold_left wrapMeasureIndex mappings hs !! i = Some header)).
  { induction mappings as [|m ms IH]; intros hs; [cbn; auto|].
    cbn [fold_left]. destruct (IH (wrapMeasureIndex hs m)) as (Hlen & Hid & Huri & Hkeep).
    destruct (wrapMeasureIndex_step hs m) as [Heq | (j & h & Hj & Hp & _ & Heq)].
    - rewrite Heq in *. repeat split; auto.
      intros i header Hi Hc. apply Hkeep; [exact Hi|].
      destruct Hc as [Hc | Hc]; [left; exact Hc | right; intros x Hx; apply Hc; right; exact Hx].
    - apply findHeaderForMappingFn_unannotated in Hp as [Hnone Hmatch].
      rewrite Heq in *. rewrite length_insert in Hlen.
      rewrite (map_insert_same header_id hs j h) in Hid by (assumption || reflexivity).
      rewrite (map_insert_same header_uri hs j h) in Huri by (assumption || reflexivity).
      repeat split; auto.
      intros i header Hi Hc. apply Hkeep.
      + rewrite list_lookup_insert_ne; [exact Hi|]. intros <-.
        rewrite Hj in Hi. injection Hi as <-.
        destruct Hc as [Hc | Hc]; [contradiction|].
        destruct (Hc m (or_introl eq_refl)) as [H1 H2]. destruct Hmatch; contradiction.
      + destruct Hc as [Hc | Hc]; [left; exact Hc | right; intros x Hx; apply Hc; right; exact Hx]. }
  destruct (Hgen headers) as (Hlen & Hid & Huri & Hkeep).
  repeat split; auto.
  intros i header Hi Hc. apply Hkeep; [exact Hi|].
  destruct Hc as [Hc | Hc]; [left; exact Hc | right; intros m Hm; apply (Hc mappings m eq_refl Hm)].
Qed.

Lemma wrapMeasureIndexes_frame_witness :
  wrapMeasureIndexesFromMappings (Some sample_mappings)
    [ {| header_id := Some (lit "/gdc/md/p1/obj/5"); header_uri := None;
         header_measureIndex := Some 3%nat; header_isPoP := None |};
      attribute_header ] !! 0%nat
  = Some {| header_id := Some (lit "/gdc/md/p1/obj/5"); header_uri := None;
            header_measureIndex := Some 3%nat; header_isPoP := None |}.
Proof.
  apply (wrapMeasureIndexes_frame (Some sample_mappings)); [reflexivity|].
  left. discriminate.
Defined.

(** X19: when the response has one unannotated header per mapping, in
    the order of the mappings, each header gets the measure index and the
    PoP flag of its own mapping, also when several mappings name the same
    element; headers before them that no mapping is for, and headers
    after them, stay as they are. *)
Theorem wrapMeasureIndexes_in_order (mappings : list MetricMapping)
    (before headers after : list Header) :
  Forall (fun m => mapping_measureIndex m <> None) mappings ->
  Forall (fun h => Forall (fun m => findHeaderForMappingFn m h = false) mappings) before ->
  Forall2 mappingFor mappings headers ->
  wrapMeasureIndexesFromMappings (Some mappings) (before ++ headers ++ after)
    = before ++ zip_with annotateHeader mappings headers ++ after.
Proof.
  unfold wrapMeasureIndexesFromMappings. intros Hidx Hbefore Hfor. revert before Hbefore.
  induction Hfor as [|m h ms hs [Hmatch Hnone] _ IH]; intros before Hbefore;
    [reflexivity|].
  inversion Hidx as [|? ? Hm Hms]; subst. cbn [fold_left zip_with app].
  assert (Hstep : wrapMeasureIndex (before ++ h :: hs ++ after) m
                  = before ++ annotateHeader m h :: hs ++ after).
  { unfold wrapMeasureIndex.
    assert (Hf : list_find (fun header => findHeaderForMappingFn m header = true)
                   (before ++ h :: hs ++ after) = Some (length before, h)).
    { apply list_find_Some. split; [apply list_lookup_middle; reflexivity|]. split.
      - unfold findHeaderForMappingFn. rewrite Hnone.
        rewrite (bool_decide_eq_true_2 (None = None)) by reflexivity.
        rewrite andb_true_r, orb_true_iff, !bool_decide_eq_true. exact Hmatch.
      - intros j y Hj Hlt. rewrite lookup_app_l in Hj by exact Hlt.
        rewrite Forall_forall in Hbefore.
        specialize (Hbefore y (proj2 (list_elem_of_lookup _ _) (ex_intro _ j Hj))).
        inversion Hbefore as [|? ? Hy _]; subst. rewrite Hy. discriminate. }
    rewrite Hf. rewrite insert_app_r_alt by lia. rewrite Nat.sub_diag. reflexivity. }
  rewrite Hstep.
  change (before ++ annotateHeader m h :: hs ++ after)
    with (before ++ [annotateHeader m h] ++ hs ++ after).
  rewrite (app_assoc before). rewrite IH; [rewrite <- app_assoc; reflexivity | exact Hms |].
  apply Forall_app. split.
  - eapply Forall_impl; [exact Hbefore|]. intros y Hy. inversion Hy; subst; assumption.
  - constructor; [|constructor].
    clear -Hm. induction ms as [|x ms IHms]; constructor; [|exact IHms].
    unfold findHeaderForMappingFn. cbn [annotateHeader header_measureIndex].
    rewrite (bool_decide_eq_false_2 (mapping_measureIndex m = None)) by exact Hm.
    apply andb_false_r.
Qed.

Lemma wrapMeasureIndexes_in_order_witness :
  map header_measureIndex
    (wrapMeasureIndexesFromMappings (Some sample_mappings)
       ([attribute_header] ++ metric_headers ++ []))
  = [None; Some 0%nat; Some 0%nat]
  /\ map header_isPoP
       (wrapMeasureIndexesFromMappings (Some sample_mappings)
          ([attribute_header] ++ metric_headers ++ []))
     = [None; Some true; None].
Proof.
  rewrite (wrapMeasureIndexes_in_order sample_mappings [attribute_header] metric_headers []).
  - split; reflexivity.
  - repeat constructor; discriminate.
  - repeat constructor; vm_compute; reflexivity.
  - constructor; [split; [left; reflexivity | reflexivity]|].
    constructor; [split; [right; reflexivity | reflexivity]|].
    constructor.
Defined.

(** ** The store of [getDataForVis], continued *)

(** The store after a call whose format lookups are all answered: the
    bucket, the new array and its wrappers, the measures they hold, and
    the part of the store that is left alone. *)
Lemma getDataForVis_graph
    (md5 toUpperCase toLowerCase : jsstring -> jsstring)
    (sortDefinitions : list MetricDefinition -> list MetricDefinition)
    (xhrGet : jsstring -> option ServerObject)
    (h : store) (mdObj b arr : loc) (type : option jsstring)
    (cats : list Category) (fs : list Filter) (ws mls : list loc) :
  h !! mdObj = Some (OMdObj b type) ->
  h !! b = Some (OBuckets arr cats fs) ->
  h !! arr = Some (OArray ws) ->
  mapM (unwrap h) ws = Some mls ->
  Forall (lookupResolves xhrGet h) mls ->
  exists (h' : store) (arr' : loc) (ws' mls' : list loc),
    getDataForVis md5 toUpperCase toLowerCase sortDefinitions xhrGet mdObj h
      = (h', compile md5 toUpperCase toLowerCase sortDefinitions h' mdObj)
    /\ h' !! mdObj = Some (OMdObj b type)
    /\ h' !! b = Some (OBuckets arr' cats fs)
    /\ (arr' ∉ dom h)
    /\ h' !! arr' = Some (OArray ws')
    /\ Forall (fun w' => (w' ∉ dom h) /\ (w' ∉ ws)) ws'
    /\ Forall2 (fun w' ml' => h' !! w' = Some (OWrapper ml')) ws' mls'
    /\ Forall2 (formatResolved xhrGet h h') mls mls'
    /\ (forall l, l ∈ dom h -> l <> b -> h' !! l = h !! l)
    /\ (exists ms',
          Forall2 (fun ml' m' => read_measure h' ml' = Some m') mls' ms'
          /\ read_mdObj h' mdObj
               = Some {| buckets := {| measures := ms'; categories := cats; filters := fs |};
                         vis_type := type |}).
Proof.
  intros Hmd Hb Harr Hws Hall.
  destruct (allMetricFormats_resolves xhrGet mls h Hall) as (mls' & h1 & Hfmt & Hsub1 & Hres).
  destruct (wrapMeasures mls' h1) as [ws' h2] eqn:Hwrap.
  pose proof (wrapMeasures_fresh _ _ _ _ Hwrap) as (Hsub2 & Hfresh & Hwrapped).
  set (arr' := fresh (dom h2)).
  destruct (alloc_fresh (OArray ws') h2 arr' _ eq_refl) as (Harr' & _ & Hsub3).
  set (h3 := <[arr' := OArray ws']> h2) in *.
  change (h2 ⊆ h3) in Hsub3.
  assert (Hrun : getDataForVis md5 toUpperCase toLowerCase sortDefinitions xhrGet mdObj h
                 = (<[b := OBuckets arr' cats fs]> h3,
                    compile md5 toUpperCase toLowerCase sortDefinitions
                      (<[b := OBuckets arr' cats fs]> h3) mdObj)).
  { unfold getDataForVis, getOriginalMetricFormats, read_wrappers, read_buckets.
    rewrite Hmd, Hb. cbn [mbind option_bind]. rewrite Harr. cbn [mbind option_bind].
    rewrite Hws. cbn [mbind option_bind]. rewrite Hfmt.
    unfold assignMeasures, read_buckets.
    rewrite (lookup_weaken _ _ _ _ Hmd Hsub1), (lookup_weaken _ _ _ _ Hb Hsub1).
    cbn [mbind option_bind]. rewrite Hwrap. unfold alloc. reflexivity. }
  assert (Harr3 : h3 !! arr' = Some (OArray ws')) by apply lookup_insert_eq.
  clearbody h3.
  assert (Hsub : h ⊆ h3).
  { etransitivity; [exact Hsub1|]. etransitivity; [exact Hsub2 | exact Hsub3]. }
  assert (Hdom : dom h ⊆ dom h2).
  { apply subseteq_dom. etransitivity; [exact Hsub1 | exact Hsub2]. }
  assert (Hb_in : b ∈ dom h) by (apply elem_of_dom; eauto).
  assert (Hne_arr : arr' <> b) by (intros Heq; apply Harr', Hdom; rewrite Heq; exact Hb_in).
  assert (Hne_md : mdObj <> b) by (intros ->; congruence).
  assert (Hfresh' : Forall (fun w' => w' ∉ dom h) ws').
  { eapply Forall_impl; [exact Hfresh|]. intros w Hw Hin. apply Hw.
    apply (subseteq_dom _ _ Hsub1), Hin. }
  set (h' := <[b := OBuckets arr' cats fs]> h3) in *.
  assert (Hmd' : h' !! mdObj = Some (OMdObj b type)).
  { unfold h'. rewrite lookup_insert_ne by auto. eapply lookup_weaken; eauto. }
  assert (Hb' : h' !! b = Some (OBuckets arr' cats fs)) by apply lookup_insert_eq.
  assert (Harr'' : h' !! arr' = Some (OArray ws')).
  { unfold h'. rewrite lookup_insert_ne by auto. exact Harr3. }
  assert (Hwrapped' : Forall2 (fun w' ml' => h' !! w' = Some (OWrapper ml')) ws' mls').
  { clear -Hwrapped Hfresh' Hb_in Hsub3. subst h'.
    induction Hwrapped as [|w ml ws' mls' Hw _ IH]; [constructor|].
    inversion Hfresh' as [|? ? Hf Hfs]; subst.
    constructor; [|apply IH, Hfs].
    rewrite lookup_insert_ne by (intros ->; apply Hf, Hb_in).
    eapply lookup_weaken; eauto. }
  assert (Hres' : Forall2 (formatResolved xhrGet h h') mls mls').
  { clear -Hres Hsub2 Hsub3 Hb_in. subst h'.
    induction Hres as [|ml ml' mls mls' (m & Hm & Hr) _ IH]; constructor; [|exact IH].
    exists m. split; [exact Hm|]. destruct (needsRoundtrip m); [|exact Hr].
    destruct Hr as (Hf & obj & Hobj & Hl). split; [exact Hf|].
    exists obj. split; [exact Hobj|].
    rewrite lookup_insert_ne by (intros ->; apply Hf, Hb_in).
    eapply lookup_weaken; [exact Hl|]. etransitivity; eauto. }
  assert (Hframe : forall l, l ∈ dom h -> l <> b -> h' !! l = h !! l).
  { intros l Hl Hne. unfold h'. rewrite lookup_insert_ne by auto.
    apply elem_of_dom in Hl as [o Ho]. rewrite Ho. eapply lookup_weaken; eauto. }
  exists h', arr', ws', mls'.
  split; [exact Hrun|]. split; [exact Hmd'|]. split; [exact Hb'|].
  split; [intros Hin; apply Harr', Hdom, Hin|].
  split; [exact Harr''|].
  split.
  { eapply Forall_impl; [exact Hfresh'|]. intros w Hw. split; [exact Hw|].
    intros Hin. apply Hw.
    assert (Hu : is_Some (unwrap h w)).
    { clear -Hws Hin. revert mls Hws. induction ws as [|x ws IH]; intros mls Hws.
      - inversion Hin.
      - cbn in Hws. destruct (unwrap h x) eqn:Hx; [|discriminate].
        cbn in Hws. destruct (mapM (unwrap h) ws) eqn:Hrest; [|discriminate].
        inversion Hin; subst; [eauto|]. eapply IH; eauto. }
    destruct Hu as [ml Hu]. apply unwrap_lookup in Hu. apply elem_of_dom. eauto. }
  split; [exact Hwrapped'|]. split; [exact Hres'|]. split; [exact Hframe|].
  destruct (formatResolved_readable xhrGet h h' b mls mls' Hframe) as [ms' Hms'];
    [intros m; rewrite Hb; discriminate | exact Hres' |].
  exists ms'. split; [exact Hms'|].
  eapply read_mdObj_graph; eauto.
Qed.

Lemma resolved_measures (xhrGet : jsstring -> option ServerObject) (h h' : store) (b : loc)
    (mls mls' : list loc) (ms : list Measure) :
  (forall l, l ∈ dom h -> l <> b -> h' !! l = h !! l) ->
  (forall m, h !! b <> Some (OMeasure m)) ->
  Forall2 (fun ml m => read_measure h ml = Some m) mls ms ->
  Forall2 (formatResolved xhrGet h h') mls mls' ->
  Forall2 (fun ml' m' => read_measure h' ml' = Some m') mls' (map (resolveMeasure xhrGet) ms).
Proof.
  intros Hframe Hb Hread. revert mls'.
  induction Hread as [|ml m mls ms Hm _ IH]; intros mls' Hres;
    inversion Hres as [|? ml' ? mls'' (m0 & Hm0 & Hr) Hrest]; subst; [constructor|].
  rewrite Hm in Hm0. injection Hm0 as <-.
  cbn [map]. constructor; [|apply IH, Hrest].
  unfold resolveMeasure. destruct (needsRoundtrip m).
  - destruct Hr as (_ & obj & -> & Hl). apply read_measure_lookup. exact Hl.
  - subst ml'. apply read_measure_lookup in Hm. apply read_measure_lookup.
    rewrite Hframe; [exact Hm | apply elem_of_dom; eauto |].
    intros ->. apply (Hb m), Hm.
Qed.

Lemma allMetricFormats_rejected (xhrGet : jsstring -> option ServerObject)
    (h : store) (mls : list loc) (ms : list Measure) :
  Forall2 (fun ml m => read_measure h ml = Some m) mls ms ->
  Exists (fun m => needsRoundtrip m = true /\ xhrGet (objectUri m) = None) ms ->
  forall h0, h ⊆ h0 -> allMetricFormats xhrGet mls h0 = None.
Proof.
  induction 1 as [|ml m mls ms Hm _ IH]; intros Hex h0 Hsub; [inversion Hex|].
  cbn [allMetricFormats]. unfold originalMetricFormat.
  rewrite (read_measure_weaken _ _ _ _ Hsub Hm). cbn [mbind option_bind].
  apply Exists_cons in Hex as [[Hn Hx] | Hex].
  - rewrite Hn, Hx. reflexivity.
  - destruct (needsRoundtrip m).
    + destruct (xhrGet (objectUri m)) as [obj|]; [|reflexivity]. cbn [mbind option_bind].
      destruct (alloc _ h0) as [l h1] eqn:Ha. apply alloc_fresh in Ha as (_ & _ & Hsub1).
      rewrite (IH Hex h1) by (etransitivity; eauto). reflexivity.
    + cbn [mbind option_bind]. rewrite (IH Hex h0 Hsub). reflexivity.
Qed.

(** X21: when the format lookup of a measure that needs one is
    rejected, [getDataForVis] neither changes the store nor compiles. *)
Theorem getDataForVis_lookup_rejected
    (md5 toUpperCase toLowerCase : jsstring -> jsstring)
    (sortDefinitions : list MetricDefinition -> list MetricDefinition)
    (xhrGet : jsstring -> option ServerObject)
    (h : store) (mdObj b arr : loc) (type : option jsstring)
    (cats : list Category) (fs : list Filter) (ws mls : list loc) (ms : list Measure) :
  h !! mdObj = Some (OMdObj b type) ->
  h !! b = Some (OBuckets arr cats fs) ->
  h !! arr = Some (OArray ws) ->
  mapM (unwrap h) ws = Some mls ->
  mapM (read_measure h) mls = Some ms ->
  Exists (fun m => needsRoundtrip m = true /\ xhrGet (objectUri m) = None) ms ->
  getDataForVis md5 toUpperCase toLowerCase sortDefinitions xhrGet mdObj h
    = (h, FormatLookupFailed).
Proof.
  intros Hmd Hb Harr Hws Hms Hex. apply mapM_Some in Hms.
  unfold getDataForVis, getOriginalMetricFormats, read_wrappers, read_buckets.
  rewrite Hmd, Hb. cbn [mbind option_bind]. rewrite Harr. cbn [mbind option_bind].
  rewrite Hws. cbn [mbind option_bind].
  rewrite (allMetricFormats_rejected xhrGet h mls ms Hms Hex h) by reflexivity.
  reflexivity.
Qed.

Lemma getDataForVis_lookup_rejected_witness :
  getDataForVis sample_md5 asciiToUpperCase asciiToLowerCase keepDefinitions
    rejecting_xhrGet 1%positive sample_store
  = (sample_store, FormatLookupFailed).
Proof.
  apply (getDataForVis_lookup_rejected sample_md5 asciiToUpperCase asciiToLowerCase
           keepDefinitions rejecting_xhrGet sample_store 1%positive 2%positive 3%positive
           (Some (lit "line")) [year] [] [4; 5]%positive [6; 7]%positive
           [revenue_pop; revenue]); try reflexivity.
  apply Exists_cons_hd. split; reflexivity.
Defined.

(** * Strategies, ordering and format lookups, end to end *)

(** ** Title truncator *)

(** X1: a title that does not fit is cut to a prefix of itself, followed
    by the ellipsis, by [")"] exactly when the title ended in one, and by
    the suffix; the prefix is as long as the 255 characters allow, so the
    built title has exactly 255 characters. *)
Theorem getMetricTitle_truncated (suffix title : jsstring) :
  jslength suffix <= 253 ->
  MAX_TITLE_LENGTH - jslength suffix < jslength title ->
  let marker := if bool_decide (last title = Some rparen)
                then [ellipsis; rparen] else [ellipsis] in
  getMetricTitle suffix (Some title)
    = firstn (Z.to_nat (255 - jslength suffix - jslength marker)) title ++ marker ++ suffix
  /\ jslength (getMetricTitle suffix (Some title)) = 255.
Proof.
  intros Hs Hlong marker. pose proof (jslength_nonneg suffix) as H0.
  pose proof (getMetricTitle_cases suffix title) as H. cbv zeta in H.
  unfold MAX_TITLE_LENGTH in *. subst marker.
  destruct H as [[[Hc | ->] _] | [(_ & Hl & Heq) | (_ & Hl & Heq)]].
  - lia.
  - change (jslength []) with 0 in Hlong. lia.
  - rewrite bool_decide_eq_true_2 by exact Hl.
    change (jslength [ellipsis; rparen]) with 2.
    rewrite Heq, <- substring_prefix. split; [reflexivity|].
    rewrite !jslength_app, jslength_substring_prefix by lia.
    change (jslength [ellipsis; rparen]) with 2. lia.
  - rewrite bool_decide_eq_false_2 by exact Hl.
    change (jslength [ellipsis]) with 1.
    rewrite Heq, <- substring_prefix. split; [reflexivity|].
    rewrite !jslength_app, jslength_substring_prefix by lia.
    change (jslength [ellipsis]) with 1. lia.
Qed.

Lemma getMetricTitle_truncated_witness :
  getMetricTitle POP_SUFFIX (Some long_title)
    = repeat 97%N 237 ++ [ellipsis; rparen] ++ lit " - previous year"
  /\ getMetricTitle POP_SUFFIX (Some (repeat 97%N 300))
     = repeat 97%N 238 ++ [ellipsis] ++ lit " - previous year".
Proof.
  split.
  - destruct (getMetricTitle_truncated POP_SUFFIX long_title) as [H _].
    + vm_compute. discriminate.
    + vm_compute. reflexivity.
    + rewrite H. vm_compute. reflexivity.
  - destruct (getMetricTitle_truncated POP_SUFFIX (repeat 97%N 300)) as [H _].
    + vm_compute. discriminate.
    + vm_compute. reflexivity.
    + rewrite H. vm_compute. reflexivity.
Defined.

(** ** Filter translator *)

(** X9: the clause of an attribute filter is keyed by the display form
    and lists, in the order of the selected elements, one id for each:
    what follows the element's last [=], or the whole element when it has
    no [=]; the ids sit under [$not] exactly for a negative selection. *)
Theorem attributeFilterToWhere_ids (f : AttributeFilter) :
  exists ids,
    attributeFilterToWhere f
      = {| ac_key := tpl (displayForm f);
           ac_condition := if negativeSelection f then CondNotIn ids else CondIn ids |}
    /\ Forall2 (fun e id =>
                  (Forall (fun c => c <> 61%N) e -> id = e)
                  /\ (forall p s, e = p ++ lit "=" ++ s ->
                      Forall (fun c => c <> 61%N) s -> id = s))
         (attributeElements f) ids.
Proof.
  exists (map last_segment (attributeElements f)). split.
  - unfold attributeFilterToWhere. destruct (negativeSelection f); reflexivity.
  - induction (attributeElements f) as [|e es IH]; cbn [map]; constructor; [|exact IH].
    destruct (last_segment_id e) as [H1 H2]. split; [exact H1 | exact H2].
Qed.

Lemma attributeFilterToWhere_ids_witness :
  attributeFilterToWhere negative_filter
    = {| ac_key := lit "dfUri"; ac_condition := CondNotIn [lit "1"; lit "2"] |}.
Proof.
  destruct (attributeFilterToWhere_ids negative_filter) as (ids & -> & Hids).
  cbn [negative_filter attributeElements negativeSelection displayForm tpl] in *.
  inversion Hids as [|e1 id1 es1 ids1 [_ H1] Hrest]; subst.
  inversion Hrest as [|e2 id2 es2 ids2 [_ H2] Hnil]; subst.
  inversion Hnil; subst.
  rewrite (H1 (lit "sys1") (lit "1") eq_refl) by (repeat constructor; discriminate).
  rewrite (H2 (lit "sys1") (lit "2") eq_refl) by (repeat constructor; discriminate).
  reflexivity.
Defined.

(** ** Metric strategies *)

(** C2, as worded: every measure dispatched to the contribution+PoP
    strategy would give two descriptors.  In a bucket without a category
    the strategy throws and gives none. *)
Lemma strategies_emit_counterexample :
  getMetricFactory revenue_percent_pop = Some ContributionPoP
  /\ createMetric sample_md5 asciiToUpperCase asciiToLowerCase ContributionPoP
       revenue_percent_pop no_category_buckets 0 = None.
Proof. split; reflexivity. Qed.

(** C2, amended: whenever a strategy returns, the PoP and the
    contribution+PoP strategies return two descriptors, the PoP wrapper
    and the base metric (what the strategy without PoP returns), and the
    other three return one.  Both descriptors carry the measure's index,
    the wrapper alone is flagged [isPoP], and the wrapper's title is built
    from the measure's title with the suffix [" - previous year"], which
    is appended as it is when the title has room for it.  The two
    contribution strategies throw when the bucket has no category. *)
Theorem strategies_emit (md5 toUpperCase toLowerCase : jsstring -> jsstring)
    (factory : Strategy) (measure : Measure) (mdObj : Buckets) (index : nat) :
  let create f := createMetric md5 toUpperCase toLowerCase f measure mdObj index in
  (forall p, create factory = Some p ->
     match factory with
     | PoP | ContributionPoP =>
         exists wrapper base wdef,
           p = Many [wrapper; base]
           /\ length (flatten [p]) = 2%nat
           /\ create (match factory with
                      | ContributionPoP => Contribution
                      | _ => if isDerived measure then Derived else Pure
                      end) = Some (One base)
           /\ meta wrapper = Some {| measureIndex := index; isPoPFlag := Some true |}
           /\ meta base = Some {| measureIndex := index; isPoPFlag := None |}
           /\ definition wrapper = Some wdef
           /\ md_title wdef = getMetricTitle (lit " - previous year") (title measure)
           /\ (forall t, title measure = Some t -> jslength t <= 255 - 16 ->
               md_title wdef = t ++ lit " - previous year")
     | _ =>
         exists d,
           p = One d
           /\ length (flatten [p]) = 1%nat
           /\ meta d = Some {| measureIndex := index; isPoPFlag := None |}
     end)
  /\ (factory = Contribution \/ factory = ContributionPoP ->
      categories mdObj = [] -> create factory = None).
Proof.
  intros create. subst create. cbv beta.
  assert (Htitle : forall t, title measure = Some t -> jslength t <= 255 - 16 ->
            getPoPMetricTitle (title measure) = t ++ lit " - previous year").
  { intros t -> Ht. apply getMetricTitle_short. exact Ht. }
  split.
  - intros p Hp. destruct factory.
    + (* contribution + PoP *)
      cbn [createMetric] in Hp. destruct (categories mdObj) as [|c cs] eqn:Hc.
      { unfold createContributionPoPMetric in Hp.
        rewrite createContributionMetric_no_category in Hp by exact Hc. discriminate Hp. }
      destruct (createContributionPoPMetric_eq md5 toUpperCase measure mdObj index c cs Hc)
        as (id & base & def & _ & Hbase & _ & Heq).
      destruct (createContributionMetric_eq md5 toUpperCase measure mdObj index c cs Hc)
        as (cid & e & _ & _ & Hbase').
      rewrite Heq in Hp. injection Hp as <-.
      eexists _, base, _. split; [reflexivity|]. split; [reflexivity|].
      split; [cbn [createMetric]; rewrite Hbase; reflexivity|].
      split; [reflexivity|].
      split; [rewrite Hbase' in Hbase; injection Hbase as <-; reflexivity|].
      split; [reflexivity|]. split; [reflexivity | exact Htitle].
    + (* PoP *)
      cbn [createMetric] in Hp.
      destruct (createPoPMetric_eq md5 toUpperCase toLowerCase measure mdObj index)
        as (id & base & _ & Hbase & Heq).
      rewrite Heq in Hp. injection Hp as <-.
      eexists _, base, _. split; [reflexivity|]. split; [reflexivity|].
      split; [exact Hbase|]. split; [reflexivity|].
      split.
      { destruct (isDerived measure); cbn [createMetric] in Hbase.
        - destruct (createDerivedMetric_eq md5 toUpperCase toLowerCase measure mdObj index)
            as (did & _ & Hd).
          rewrite Hd in Hbase. injection Hbase as <-. reflexivity.
        - injection Hbase as <-. reflexivity. }
      split; [reflexivity|]. split; [reflexivity | exact Htitle].
    + apply createMetric_inv in Hp as (base & (_ & Hmeta & _) & ->).
      exists base. auto.
    + apply createMetric_inv in Hp as (base & (_ & Hmeta & _) & ->).
      exists base. auto.
    + apply createMetric_inv in Hp as (base & (_ & Hmeta & _) & ->).
      exists base. auto.
  - intros Hf Hc. apply createMetric_None. split; [|exact Hc].
    destruct Hf as [-> | ->]; reflexivity.
Qed.

Lemma strategies_emit_witness :
  exists wrapper base wdef,
    createMetric sample_md5 asciiToUpperCase asciiToLowerCase PoP revenue_pop
      revenue_pop_buckets 0 = Some (Many [wrapper; base])
    /\ definition wrapper = Some wdef
    /\ md_title wdef = lit "Revenue - previous year"
    /\ base = createPureMetric revenue_pop revenue_pop_buckets 0
    /\ createMetric sample_md5 asciiToUpperCase asciiToLowerCase ContributionPoP
         revenue_percent_pop no_category_buckets 0 = None.
Proof.
  destruct (strategies_emit sample_md5 asciiToUpperCase asciiToLowerCase PoP revenue_pop
              revenue_pop_buckets 0) as [Hshape _].
  destruct (Hshape _ eq_refl)
    as (wrapper & base & wdef & Hp & _ & Hb & _ & _ & Hd & _ & Ht).
  exists wrapper, base, wdef. split; [rewrite <- Hp; reflexivity|]. split; [exact Hd|].
  split; [apply (Ht (lit "Revenue")); [reflexivity | vm_compute; discriminate]|].
  split; [vm_compute in Hb; injection Hb as <-; reflexivity|].
  apply (proj2 (strategies_emit sample_md5 asciiToUpperCase asciiToLowerCase ContributionPoP
                  revenue_percent_pop no_category_buckets 0));
    [right; reflexivity | reflexivity].
Defined.

(** ** Assembler *)

(** X12: the compiler throws whenever dispatch finds no strategy for one
    of the measures, and whenever a measure is shown in percent while the
    bucket has no category. *)
Theorem mdToExecutionConfiguration_throws
    (md5 toUpperCase toLowerCase : jsstring -> jsstring)
    (sortDefinitions : list MetricDefinition -> list MetricDefinition)
    (mdObj : MdObj) (removeDateItems : bool) (measure : Measure) :
  In measure (measures (buckets mdObj)) ->
  getMetricFactory measure = None
  \/ (showInPercent measure = true /\ categories (buckets mdObj) = []) ->
  mdToExecutionConfiguration md5 toUpperCase toLowerCase sortDefinitions mdObj removeDateItems
    = None.
Proof.
  intros Hin Hbad.
  destruct (mdToExecutionConfiguration md5 toUpperCase toLowerCase sortDefinitions mdObj
              removeDateItems) as [cfg|] eqn:Hcfg; [exfalso | reflexivity].
  assert (Hall : Forall (compiles (buckets mdObj)) (measures (buckets mdObj))).
  { apply (mdToExecutionConfiguration_succeeds md5 toUpperCase toLowerCase sortDefinitions
             mdObj removeDateItems). rewrite Hcfg. eauto. }
  rewrite Forall_forall in Hall.
  destruct (Hall measure (proj2 (list_elem_of_In _ _) Hin)) as [[f Hf] Hcat].
  destruct Hbad as [Hnone | [Hp Hc]]; [congruence|].
  apply (Hcat Hp Hc).
Qed.

Lemma mdToExecutionConfiguration_throws_witness :
  mdToExecutionConfiguration sample_md5 asciiToUpperCase asciiToLowerCase keepDefinitions
    {| buckets := {| measures := [revenue; unknown_measure]; categories := [region];
                     filters := [] |};
       vis_type := None |} false = None
  /\ mdToExecutionConfiguration sample_md5 asciiToUpperCase asciiToLowerCase keepDefinitions
       {| buckets := no_category_buckets; vis_type := None |} false = None.
Proof.
  split.
  - apply (mdToExecutionConfiguration_throws sample_md5 asciiToUpperCase asciiToLowerCase
             keepDefinitions _ false unknown_measure);
      [right; left; reflexivity | left; reflexivity].
  - apply (mdToExecutionConfiguration_throws sample_md5 asciiToUpperCase asciiToLowerCase
             keepDefinitions _ false revenue_percent_pop);
      [left; reflexivity | right; split; reflexivity].
Defined.

(** ** Ordering of a compiled configuration *)

Lemma imap_index_free {A B} (f : A -> B) (l : list A) :
  imap (fun _ => f) l = map f l.
Proof. induction l as [|x l IH]; [reflexivity|]. cbn [imap map]. f_equal. exact IH. Qed.

Lemma compileMeasure_sorts (md5 toUpperCase toLowerCase : jsstring -> jsstring)
    (mdObj : Buckets) (index : nat) (measure : Measure) (p : Produced) :
  compileMeasure md5 toUpperCase toLowerCase mdObj index measure = Some p ->
  map item_sort (match p with One d => [d] | Many ds => ds end)
    = if isPoP measure
      then [getMetricSort (sort measure) true; getMetricSort (sort measure) false]
      else [getMetricSort (sort measure) false].
Proof.
  intros Hp. apply compileMeasure_inv in Hp as (factory & Hf & Hc).
  apply createMetric_inv in Hc as (base & (Hsort & _) & Hshape).
  destruct (factory_flags measure factory Hf) as [Hpop _]. rewrite <- Hpop.
  destruct (isPoPStrategy factory).
  - destruct Hshape as (id & fmt & _ & ->). cbn. rewrite Hsort. reflexivity.
  - subst p. cbn. rewrite Hsort. reflexivity.
Qed.

Lemma produced_sorts (md5 toUpperCase toLowerCase : jsstring -> jsstring)
    (mdObj : Buckets) (produced : list Produced) :
  mapM (fun x => x) (imap (compileMeasure md5 toUpperCase toLowerCase mdObj) (measures mdObj))
    = Some produced ->
  map item_sort (flatten produced) = metricSorts (measures mdObj).
Proof.
  intros Hp. unfold flatten, metricSorts. rewrite concat_map, map_map.
  etransitivity.
  - eapply (mapM_imap_concat _ _
              (fun (_ : nat) m =>
                 if isPoP m
                 then [getMetricSort (sort m) true; getMetricSort (sort m) false]
                 else [getMetricSort (sort m) false])); [|exact Hp].
    intros i x y _ Hy. cbn beta. apply (compileMeasure_sorts _ _ _ _ _ _ _ Hy).
  - rewrite imap_index_free. reflexivity.
Qed.

Lemma category_entries (cats : list Category) :
  map sortToOrderBy
    (List.filter (fun item => truthy_opt (item_sort item)) (map categoryToElement cats))
    = categoryEntries cats.
Proof.
  unfold categoryEntries, sortedEntry. induction cats as [|c cs IH]; [reflexivity|].
  cbn [map List.filter omap list_omap categoryToElement item_sort].
  destruct (truthy_opt (c_sort c)); cbn [map]; rewrite IH; reflexivity.
Qed.

Lemma metric_entries (metrics : list Item) :
  map sortToOrderBy (List.filter (fun item => truthy_opt (item_sort item)) metrics)
    = metricEntries (map toMetricMapping metrics) (map item_sort metrics).
Proof.
  unfold metricEntries, sortedEntry. induction metrics as [|d ds IH]; [reflexivity|].
  cbn [map List.filter zip zip_with omap list_omap fst snd].
  destruct (truthy_opt (item_sort d)); cbn [map]; rewrite IH; reflexivity.
Qed.

(** C8: in every compiled configuration of a bar chart that has a metric,
    [orderBy] is the single entry that sorts descending by the first
    non-empty metric element, whatever the sort settings of the items
    are; in every other compiled configuration it has one entry
    [{column: element, direction: sort}] for each item that carries a
    sort setting, the categories first, in their order, then the metrics
    in the order of the metric mappings. *)
Theorem getOrderBy_policy
    (md5 toUpperCase toLowerCase : jsstring -> jsstring)
    (sortDefinitions : list MetricDefinition -> list MetricDefinition)
    (mdObj : MdObj) (removeDateItems : bool) (cfg : ExecutionConfiguration) :
  mdToExecutionConfiguration md5 toUpperCase toLowerCase sortDefinitions mdObj removeDateItems
    = Some cfg ->
  let categories :=
    if removeDateItems
    then List.filter (fun c => negb (isDateCategory c)) (categories (buckets mdObj))
    else categories (buckets mdObj) in
  let sorts := metricSorts (measures (buckets mdObj)) in
  (vis_type mdObj = Some (lit "bar") -> metricMappings cfg <> [] ->
   orderBy cfg
     = [ {| column := head (compact (map mapping_element (metricMappings cfg)));
            direction := Some (lit "desc") |} ]
   /\ (forall pre m rest e,
         metricMappings cfg = pre ++ m :: rest ->
         Forall (fun x => truthy_opt (mapping_element x) = false) pre ->
         mapping_element m = Some e -> e <> [] ->
         orderBy cfg = [ {| column := Some e; direction := Some (lit "desc") |} ]))
  /\ (vis_type mdObj <> Some (lit "bar") \/ metricMappings cfg = [] ->
      orderBy cfg
        = omap (fun c =>
                  if truthy_opt (c_sort c)
                  then Some {| column := c_displayForm c; direction := c_sort c |}
                  else None) categories
          ++ omap (fun x =>
                     if truthy_opt x.2
                     then Some {| column := mapping_element x.1; direction := x.2 |}
                     else None) (zip (metricMappings cfg) sorts))
  /\ length sorts = length (metricMappings cfg)
  /\ (metricMappings cfg = [] <-> measures (buckets mdObj) = []).
Proof.
  intros Hcfg categories sorts.
  apply mdToExecutionConfiguration_inv in Hcfg as (produced & Hp & ->).
  cbn [orderBy metricMappings]. cbv zeta. fold categories.
  pose proof (produced_sorts md5 toUpperCase toLowerCase (buckets mdObj) produced Hp) as Hsorts.
  fold sorts in Hsorts. set (metrics := flatten produced) in *.
  assert (Hel : map mapping_element (map toMetricMapping metrics) = map element metrics)
    by (rewrite map_map; reflexivity).
  assert (Hlen : length sorts = length (map toMetricMapping metrics))
    by (rewrite <- Hsorts, !length_map; reflexivity).
  split; [|split; [|split]].
  - intros Hbar Hm. assert (Hne : metrics <> []) by (intros Hn; apply Hm; rewrite Hn; reflexivity).
    rewrite Hbar, getOrderBy_bar by exact Hne. rewrite Hel. split; [reflexivity|].
    intros pre m rest e Heq Hpre Hm' He. do 2 f_equal.
    rewrite <- Hel, Heq, map_app. cbn [map]. rewrite Hm'.
    apply compact_first; [|exact He].
    clear -Hpre. induction Hpre; constructor; auto.
  - intros Hother. unfold getOrderBy.
    assert (Hcond : bool_decide (vis_type mdObj = Some (lit "bar")) && notEmpty metrics = false).
    { destruct Hother as [Hne | Hnil].
      - rewrite bool_decide_eq_false_2 by exact Hne. reflexivity.
      - destruct metrics; [apply andb_false_r | discriminate]. }
    rewrite Hcond, List.filter_app, map_app, category_entries, metric_entries, Hsorts.
    reflexivity.
  - exact Hlen.
  - rewrite length_map in Hlen. unfold sorts, metricSorts in Hlen. split.
    + intros Hnil. destruct metrics; [|discriminate].
      destruct (measures (buckets mdObj)) as [|m ms]; [reflexivity|].
      cbn in Hlen. destruct (isPoP m); discriminate.
    + intros Hnil. rewrite Hnil in Hlen. cbn in Hlen.
      destruct metrics; [reflexivity | discriminate].
Qed.

Lemma getOrderBy_policy_witness :
  (exists cfg,
     mdToExecutionConfiguration sample_md5 asciiToUpperCase asciiToLowerCase keepDefinitions
       {| buckets := sorted_buckets; vis_type := Some (lit "bar") |} false = Some cfg
     /\ orderBy cfg
        = [ {| column := Some (lit "/gdc/md/p1/obj/5"); direction := Some (lit "desc") |} ])
  /\ (exists cfg,
        mdToExecutionConfiguration sample_md5 asciiToUpperCase asciiToLowerCase
          keepDefinitions
          {| buckets := sorted_buckets; vis_type := Some (lit "line") |} false = Some cfg
        /\ orderBy cfg
           = [ {| column := Some (lit "/gdc/md/p1/obj/10"); direction := Some (lit "desc") |};
               {| column := Some (lit "/gdc/md/p1/obj/5"); direction := Some (lit "asc") |};
               {| column := Some (lit "/gdc/md/p1/obj/6"); direction := Some (lit "asc") |} ]).
Proof.
  split.
  - destruct (mdToExecutionConfiguration sample_md5 asciiToUpperCase asciiToLowerCase
                keepDefinitions {| buckets := sorted_buckets; vis_type := Some (lit "bar") |}
                false) as [cfg|] eqn:Hcfg; [|vm_compute in Hcfg; discriminate Hcfg].
    exists cfg. split; [reflexivity|].
    pose proof (getOrderBy_policy sample_md5 asciiToUpperCase asciiToLowerCase keepDefinitions
                  _ false cfg Hcfg) as (Hbar & _).
    vm_compute in Hcfg. injection Hcfg as <-.
    destruct Hbar as [Hb _]; [reflexivity | discriminate |].
    rewrite Hb. reflexivity.
  - destruct (mdToExecutionConfiguration sample_md5 asciiToUpperCase asciiToLowerCase
                keepDefinitions {| buckets := sorted_buckets; vis_type := Some (lit "line") |}
                false) as [cfg|] eqn:Hcfg; [|vm_compute in Hcfg; discriminate Hcfg].
    exists cfg. split; [reflexivity|].
    pose proof (getOrderBy_policy sample_md5 asciiToUpperCase asciiToLowerCase keepDefinitions
                  _ false cfg Hcfg) as (_ & Hother & _).
    vm_compute in Hcfg. injection Hcfg as <-.
    rewrite Hother by (left; discriminate). reflexivity.
Defined.

(** ** The store of [getDataForVis] *)

Lemma needsRoundtrip_spec (m : Measure) :
  needsRoundtrip m = true <-> showPoP m = true \/ measureFilters m <> [].
Proof.
  unfold needsRoundtrip. rewrite orb_true_iff, bool_decide_eq_true.
  destruct (measureFilters m) as [|f fs]; cbn.
  - split; (intros [H | H]; [left; exact H | try discriminate H; try contradiction]).
  - split; intros _; right; [discriminate | reflexivity].
Qed.

Lemma needsRoundtrip_false (m : Measure) :
  needsRoundtrip m = false <-> showPoP m = false /\ measureFilters m = [].
Proof.
  split.
  - intros Hn. split.
    + destruct (showPoP m) eqn:Hp; [|reflexivity].
      assert (needsRoundtrip m = true) by (apply needsRoundtrip_spec; auto). congruence.
    + destruct (measureFilters m) as [|f fs] eqn:Hf; [reflexivity|].
      assert (needsRoundtrip m = true)
        by (apply needsRoundtrip_spec; right; rewrite Hf; discriminate).
      congruence.
  - intros [Hp Hf]. destruct (needsRoundtrip m) eqn:Hn; [|reflexivity].
    apply needsRoundtrip_spec in Hn. destruct Hn as [Hn | Hn]; congruence.
Qed.

Lemma with_format_lookedUp (xhrGet : jsstring -> option ServerObject)
    (m : Measure) (obj : ServerObject) :
  needsRoundtrip m = true -> xhrGet (objectUri m) = Some obj ->
  formatLookedUp xhrGet m (with_format m (resolvedFormat obj m)).
Proof.
  intros Hn Hobj. unfold formatLookedUp. cbn [with_format objectUri mtype aggregation title
    sort showPoP showInPercent measureFilters format].
  repeat (split; [reflexivity|]). split.
  - intros _. exists obj. split; [exact Hobj | reflexivity].
  - intros Hp Hf. assert (Hfalse : needsRoundtrip m = false)
      by (apply needsRoundtrip_false; auto). congruence.
Qed.

Lemma unchanged_lookedUp (xhrGet : jsstring -> option ServerObject) (m : Measure) :
  needsRoundtrip m = false -> formatLookedUp xhrGet m m.
Proof.
  intros Hn. unfold formatLookedUp. repeat (split; [reflexivity|]). split.
  - intros Hc. apply needsRoundtrip_spec in Hc. congruence.
  - reflexivity.
Qed.

Lemma formatResolved_measureAfter (xhrGet : jsstring -> option ServerObject)
    (h h' : store) (b ml ml' : loc) :
  (forall l, l ∈ dom h -> l <> b -> h' !! l = h !! l) ->
  (forall m, h !! b <> Some (OMeasure m)) ->
  formatResolved xhrGet h h' ml ml' -> measureAfter xhrGet h h' ml ml'.
Proof.
  intros Hframe Hb (m & Hm & Hr). destruct (needsRoundtrip m) eqn:Hn.
  - destruct Hr as (Hfresh & obj & Hobj & Hl).
    exists m, (with_format m (resolvedFormat obj m)).
    split; [exact Hm|]. split; [apply read_measure_lookup, Hl|].
    split; [apply with_format_lookedUp; assumption|]. split; [intros _; exact Hfresh|].
    intros Hp Hf. assert (Hfalse : needsRoundtrip m = false)
      by (apply needsRoundtrip_false; auto). congruence.
  - subst ml'. exists m, m. split; [exact Hm|]. split.
    + apply read_measure_lookup in Hm. apply read_measure_lookup.
      rewrite Hframe; [exact Hm | apply elem_of_dom; eauto |].
      intros ->. apply (Hb m), Hm.
    + split; [apply unchanged_lookedUp, Hn|]. split; [|reflexivity].
      intros Hc. apply needsRoundtrip_spec in Hc. congruence.
Qed.

Lemma lookupAnswered_resolves (xhrGet : jsstring -> option ServerObject)
    (h : store) (ml : loc) :
  lookupAnswered xhrGet h ml -> lookupResolves xhrGet h ml.
Proof.
  intros (m & Hm & Hx). exists m. split; [exact Hm|].
  intros Hn. apply Hx, needsRoundtrip_spec, Hn.
Qed.

(** C10, as worded: every call would reassign [buckets.measures].  When a
    format lookup is rejected the callback of [then] does not run: the
    bucket still holds its measures array and nothing is compiled. *)
Lemma getDataForVis_mutates_counterexample :
  getDataForVis sample_md5 asciiToUpperCase asciiToLowerCase keepDefinitions
    rejecting_xhrGet 1%positive sample_store
  = (sample_store, FormatLookupFailed)
  /\ sample_store !! 2%positive = Some (OBuckets 3 [year] []).
Proof. split; reflexivity. Qed.

(** C10, amended: when every format lookup the measures need is answered,
    [getDataForVis] updates the caller's metadata object in place before
    it compiles: the bucket's [measures] becomes a new array of new
    wrappers, none of them one of the original wrappers; the wrapper of a
    measure that has [showPoP] or a measure filter holds a new object,
    the measure with the server's format (its own format when the server
    has none) and every other property as it was; the other wrappers
    hold the measure object itself; nothing else in the caller's store
    changes, and the compiler runs on the updated store. *)
Theorem getDataForVis_mutates
    (md5 toUpperCase toLowerCase : jsstring -> jsstring)
    (sortDefinitions : list MetricDefinition -> list MetricDefinition)
    (xhrGet : jsstring -> option ServerObject)
    (h : store) (mdObj b arr : loc) (type : option jsstring)
    (cats : list Category) (fs : list Filter) (ws mls : list loc) :
  h !! mdObj = Some (OMdObj b type) ->
  h !! b = Some (OBuckets arr cats fs) ->
  h !! arr = Some (OArray ws) ->
  mapM (unwrap h) ws = Some mls ->
  Forall (fun ml =>
            exists m,
              read_measure h ml = Some m
              /\ (showPoP m = true \/ measureFilters m <> [] ->
                  is_Some (xhrGet (objectUri m)))) mls ->
  exists (h' : store) (arr' : loc) (ws' mls' : list loc),
    getDataForVis md5 toUpperCase toLowerCase sortDefinitions xhrGet mdObj h
      = (h', compile md5 toUpperCase toLowerCase sortDefinitions h' mdObj)
    /\ h' !! mdObj = Some (OMdObj b type)
    /\ h' !! b = Some (OBuckets arr' cats fs)
    /\ (arr' ∉ dom h)
    /\ h' !! arr' = Some (OArray ws')
    /\ Forall (fun w' => (w' ∉ dom h) /\ (w' ∉ ws)) ws'
    /\ Forall2 (fun w' ml' => h' !! w' = Some (OWrapper ml')) ws' mls'
    /\ Forall2 (measureAfter xhrGet h h') mls mls'
    /\ (forall l, l ∈ dom h -> l <> b -> h' !! l = h !! l)
    /\ (exists ms',
          Forall2 (fun ml' m' => read_measure h' ml' = Some m') mls' ms'
          /\ read_mdObj h' mdObj
               = Some {| buckets := {| measures := ms'; categories := cats; filters := fs |};
                         vis_type := type |}).
Proof.
  intros Hmd Hb Harr Hws Hall.
  assert (Hall' : Forall (lookupResolves xhrGet h) mls).
  { eapply Forall_impl; [exact Hall|]. intros ml. apply lookupAnswered_resolves. }
  destruct (getDataForVis_graph md5 toUpperCase toLowerCase sortDefinitions xhrGet
              h mdObj b arr type cats fs ws mls Hmd Hb Harr Hws Hall')
    as (h' & arr' & ws' & mls' & Hrun & Hmd' & Hb' & Hfresh & Harr' & Hws' & Hwr & Hres
        & Hframe & Hread).
  exists h', arr', ws', mls'. repeat (split; [assumption|]).
  split; [|split; assumption].
  eapply Forall2_impl; [exact Hres|]. intros ml ml'.
  apply (formatResolved_measureAfter xhrGet h h' b); [exact Hframe|].
  intros m. rewrite Hb. discriminate.
Qed.

Lemma getDataForVis_mutates_witness :
  exists (h' : store) (arr' w1 w2 copy : loc) (m' : Measure),
    (getDataForVis sample_md5 asciiToUpperCase asciiToLowerCase keepDefinitions
       sample_xhrGet 1%positive sample_store).1 = h'
    /\ h' !! 2%positive = Some (OBuckets arr' [year] [])
    /\ arr' <> 3%positive
    /\ h' !! arr' = Some (OArray [w1; w2])
    /\ h' !! w1 = Some (OWrapper copy)
    /\ h' !! w2 = Some (OWrapper 7%positive)
    /\ copy <> 6%positive
    /\ read_measure h' copy = Some m'
    /\ format m' = Some (lit "$#,##0.00")
    /\ title m' = Some (lit "Revenue")
    /\ showPoP m' = true.
Proof.
  destruct (getDataForVis_mutates sample_md5 asciiToUpperCase asciiToLowerCase
              keepDefinitions sample_xhrGet sample_store 1%positive 2%positive 3%positive
              (Some (lit "line")) [year] [] [4; 5]%positive [6; 7]%positive)
    as (h' & arr' & ws' & mls' & Hrun & _ & Hb & Hfresh & Harr & _ & Hws & Hres & _).
  - reflexivity.
  - reflexivity.
  - reflexivity.
  - reflexivity.
  - constructor; [|constructor; [|constructor]].
    + exists revenue_pop. split; [reflexivity | intros _; eexists; reflexivity].
    + exists revenue. split; [reflexivity | intros _; eexists; reflexivity].
  - inversion Hres as [|ml1 copy mls1 rest1 H1 Hrest]; subst.
    inversion Hrest as [|ml2 same mls2 rest2 H2 Hnil]; subst.
    inversion Hnil; subst.
    inversion Hws as [|w1 c1 ws1 r1 Hw1 Hws2]; subst.
    inversion Hws2 as [|w2 c2 ws2 r2 Hw2 Hws3]; subst.
    inversion Hws3; subst.
    destruct H1 as (m & m' & Hm & Hm' & Hl & Hnew & _).
    destruct H2 as (n & n' & Hn & _ & _ & _ & Hsame).
    vm_compute in Hm. injection Hm as <-. vm_compute in Hn. injection Hn as <-.
    rewrite (Hsame eq_refl eq_refl) in Hw2.
    destruct Hl as (_ & _ & _ & Ht & _ & Hp & _ & _ & Hfmt & _).
    destruct (Hfmt (or_introl eq_refl)) as (obj & Hobj & Hf).
    injection Hobj as <-.
    exists h', arr', w1, w2, copy, m'.
    split; [rewrite Hrun; reflexivity|]. split; [exact Hb|].
    split; [intros ->; apply Hfresh; vm_compute; reflexivity|].
    split; [exact Harr|]. split; [exact Hw1|]. split; [exact Hw2|].
    split; [intros ->; apply (Hnew (or_introl eq_refl)); vm_compute; reflexivity|].
    split; [exact Hm'|]. split; [exact Hf|]. split; [exact Ht | exact Hp].
Defined.

Lemma resolveMeasure_lookedUp (xhrGet : jsstring -> option ServerObject) (m : Measure) :
  (showPoP m = true \/ measureFilters m <> [] -> is_Some (xhrGet (objectUri m))) ->
  formatLookedUp xhrGet m (resolveMeasure xhrGet m).
Proof.
  intros Hans. unfold resolveMeasure. destruct (needsRoundtrip m) eqn:Hn.
  - destruct (Hans (proj1 (needsRoundtrip_spec m) Hn)) as [obj Hobj]. rewrite Hobj.
    apply with_format_lookedUp; assumption.
  - apply unchanged_lookedUp, Hn.
Qed.

(** X20: when the format lookup of every measure that has [showPoP] or a
    measure filter is answered, the measures [getDataForVis] compiles,
    and leaves in the caller's object, are the original ones, each with
    every property but [format] kept; a measure with [showPoP] or a
    measure filter gets the server's [metric.content.format] (its own
    format when the server has none), any other measure keeps its
    format. *)
Theorem getDataForVis_compiles_resolved
    (md5 toUpperCase toLowerCase : jsstring -> jsstring)
    (sortDefinitions : list MetricDefinition -> list MetricDefinition)
    (xhrGet : jsstring -> option ServerObject)
    (h : store) (mdObj b arr : loc) (type : option jsstring)
    (cats : list Category) (fs : list Filter) (ws mls : list loc) (ms : list Measure) :
  h !! mdObj = Some (OMdObj b type) ->
  h !! b = Some (OBuckets arr cats fs) ->
  h !! arr = Some (OArray ws) ->
  mapM (unwrap h) ws = Some mls ->
  mapM (read_measure h) mls = Some ms ->
  Forall (fun m => showPoP m = true \/ measureFilters m <> [] ->
                   is_Some (xhrGet (objectUri m))) ms ->
  let run := getDataForVis md5 toUpperCase toLowerCase sortDefinitions xhrGet mdObj h in
  exists ms' : list Measure,
    Forall2 (fun m m' =>
               objectUri m' = objectUri m
               /\ mtype m' = mtype m
               /\ aggregation m' = aggregation m
               /\ title m' = title m
               /\ sort m' = sort m
               /\ showPoP m' = showPoP m
               /\ showInPercent m' = showInPercent m
               /\ measureFilters m' = measureFilters m
               /\ (showPoP m = true \/ measureFilters m <> [] ->
                   exists obj,
                     xhrGet (objectUri m) = Some obj
                     /\ format m' = match metric_content_format obj with
                                    | Some f => Some f
                                    | None => format m
                                    end)
               /\ (showPoP m = false -> measureFilters m = [] -> format m' = format m))
            ms ms'
    /\ read_mdObj run.1 mdObj
       = Some {| buckets := {| measures := ms'; categories := cats; filters := fs |};
                 vis_type := type |}
    /\ run.2
       = match mdToExecutionConfiguration md5 toUpperCase toLowerCase sortDefinitions
                 {| buckets := {| measures := ms'; categories := cats; filters := fs |};
                    vis_type := type |} false with
         | Some cfg => Executed (columns cfg) cfg
         | None => CompileFailed
         end.
Proof.
  intros Hmd Hb Harr Hws Hms Hans run.
  apply mapM_Some in Hms.
  assert (Hall : Forall (lookupResolves xhrGet h) mls).
  { clear -Hms Hans. induction Hms as [|ml m mls ms Hm _ IH]; [constructor|].
    inversion Hans as [|? ? Hm0 Hrest]; subst. constructor; [|apply IH; assumption].
    exists m. split; [exact Hm|]. intros Hn. apply Hm0, needsRoundtrip_spec, Hn. }
  destruct (getDataForVis_graph md5 toUpperCase toLowerCase sortDefinitions xhrGet
              h mdObj b arr type cats fs ws mls Hmd Hb Harr Hws Hall)
    as (h' & arr' & ws' & mls' & Hrun & Hmd' & Hb' & _ & Harr' & _ & Hwr & Hres & Hframe & _).
  exists (map (resolveMeasure xhrGet) ms).
  assert (Hread : read_mdObj h' mdObj
                  = Some {| buckets := {| measures := map (resolveMeasure xhrGet) ms;
                                          categories := cats; filters := fs |};
                            vis_type := type |}).
  { eapply read_mdObj_graph; eauto.
    eapply resolved_measures; eauto. intros m. rewrite Hb. discriminate. }
  split.
  - clear -Hans. induction Hans as [|m ms Hm _ IH]; cbn [map]; constructor; [|exact IH].
    apply (resolveMeasure_lookedUp xhrGet m Hm).
  - subst run. rewrite Hrun. cbn [fst snd]. split; [exact Hread|].
    unfold compile. rewrite Hread. reflexivity.
Qed.

Lemma getDataForVis_compiles_resolved_witness :
  read_mdObj
    (getDataForVis sample_md5 asciiToUpperCase asciiToLowerCase keepDefinitions
       sample_xhrGet 1%positive filtered_store).1 1%positive
  = Some {| buckets :=
              {| measures :=
                   [{| objectUri := lit "/gdc/md/p1/obj/5"; mtype := Some (lit "metric");
                       aggregation := None; title := Some (lit "Revenue");
                       format := Some (lit "$#,##0.00"); sort := None;
                       showPoP := false; showInPercent := false;
                       measureFilters := [negative_filter] |}];
                 categories := []; filters := [] |};
            vis_type := None |}.
Proof.
  destruct (getDataForVis_compiles_resolved sample_md5 asciiToUpperCase asciiToLowerCase
              keepDefinitions sample_xhrGet filtered_store 1%positive 2%positive 3%positive
              None [] [] [4]%positive [5]%positive [filtered_revenue])
    as (ms' & Hl & Hread & _).
  - reflexivity.
  - reflexivity.
  - reflexivity.
  - reflexivity.
  - reflexivity.
  - repeat constructor; intros _; eexists; reflexivity.
  - inversion Hl as [|m m' ms1 rest H1 Hnil]; subst. inversion Hnil; subst.
    destruct H1 as (Hu & Ht & Ha & Hti & Hs & Hp & Hpc & Hf & Hfmt & _).
    destruct Hfmt as (obj & Hobj & Hfo); [right; discriminate|].
    injection Hobj as <-.
    destruct m' as [u t a ti fo s p pc f]. cbn [objectUri mtype aggregation title format sort showPoP showInPercent
         measureFilters] in Hu, Ht, Ha, Hti, Hs, Hp, Hpc, Hf, Hfo.
    subst. exact Hread.
Defined.
